(** * SmolQuery: value objects, session store, query execution adapter,
      execute endpoint and panel controller.

    A shallow embedding of the TypeScript sources
    ([models/Query.ts], [models/UserSession.ts], [models/Panel.ts],
    [services/authService.ts], [services/queryService.ts], [api/query.ts],
    [components/PanelManager.vue]) together with the part of the JavaScript
    runtime these sources rely on (values, truthiness, [typeof], [String],
    [trim], [Date]). *)

From Stdlib Require Import ZArith List String Ascii Bool Lia.
From Stdlib Require Import DecimalString.
Import ListNotations.
Open Scope string_scope.
Open Scope Z_scope.

(** ** The JavaScript runtime, as far as the sources use it *)

Module JS.

(** Runtime values.  A string is a sequence of code units, each held in an
    [ascii]; numbers are the integral ones.  [VError] is an instance of
    [Error] (or of a subclass, told apart by [name]). *)
#[warnings="-register-all"]
Inductive value : Type :=
| VUndefined
| VNull
| VBool (b : bool)
| VNumber (n : Z)
| VString (s : string)
| VObject (props : list (string * value))
| VError (name message : string).

(** [typeof v] *)
Definition typeof (v : value) : string :=
  match v with
  | VUndefined => "undefined"
  | VNull => "object"
  | VBool _ => "boolean"
  | VNumber _ => "number"
  | VString _ => "string"
  | VObject _ => "object"
  | VError _ _ => "object"
  end.

(** [ToBoolean v]: what [if (v)], [!v], [v ? a : b] and [v || w] test. *)
Definition truthy (v : value) : bool :=
  match v with
  | VUndefined | VNull => false
  | VBool b => b
  | VNumber n => negb (n =? 0)
  | VString s => negb (s =? "")%string
  | VObject _ | VError _ _ => true
  end.

(** [v === undefined || v === null], the test behind [??] and [?.] *)
Definition nullish (v : value) : bool :=
  match v with
  | VUndefined | VNull => true
  | _ => false
  end.

(** [a ?? b] *)
Definition nullish_or (a b : value) : value := if nullish a then b else a.

(** [a || b] *)
Definition or_else (a b : value) : value := if truthy a then a else b.

Fixpoint assoc (k : string) (props : list (string * value)) : option value :=
  match props with
  | [] => None
  | (k', v) :: rest => if (k =? k')%string then Some v else assoc k rest
  end.

(** [k in v], for [v] an object *)
Definition has_prop (k : string) (v : value) : bool :=
  match v with
  | VObject props => match assoc k props with Some _ => true | None => false end
  | VError _ _ => (k =? "message")%string || (k =? "name")%string
  | _ => false
  end.

(** [v.k]; reading a property of a primitive gives [undefined] (the sources
    never read a property of [null] or [undefined] without a guard). *)
Definition get (v : value) (k : string) : value :=
  match v with
  | VObject props => match assoc k props with Some x => x | None => VUndefined end
  | VError name message =>
      if (k =? "message")%string then VString message
      else if (k =? "name")%string then VString name
      else VUndefined
  | _ => VUndefined
  end.

Definition string_of_Z (n : Z) : string := NilZero.string_of_int (Z.to_int n).

(** [String(v)] and template-literal interpolation.  A number is written in
    decimal digits, as [String] writes the safe integers ([exact] below); for
    larger numbers, which [String] rounds or writes with an exponent, the
    digits given here are not the text of the runtime. *)
Definition toStr (v : value) : string :=
  match v with
  | VUndefined => "undefined"
  | VNull => "null"
  | VBool true => "true"
  | VBool false => "false"
  | VNumber n => string_of_Z n
  | VString s => s
  | VObject _ => "[object Object]"
  | VError name message =>
      if (name =? "")%string then message
      else if (message =? "")%string then name
      else name ++ ": " ++ message
  end.

(** [Number.MAX_SAFE_INTEGER] *)
Definition MAX_SAFE_INTEGER : Z := 9007199254740991.

(** The values on which [toStr] is the text that [String] gives: all but the
    numbers beyond the safe integers. *)
Definition exact (v : value) : Prop :=
  match v with
  | VNumber n => Z.abs n <= MAX_SAFE_INTEGER
  | _ => True
  end.

(** White space as [String.prototype.trim] and the pattern [\s] see it, among
    the code units of the model: TAB, LF, VT, FF, CR, SP and NBSP. *)
Definition is_space (c : ascii) : bool :=
  let n := nat_of_ascii c in
  ((9 <=? n) && (n <=? 13) || (n =? 32) || (n =? 160))%nat.

Fixpoint trimStart (s : string) : string :=
  match s with
  | EmptyString => EmptyString
  | String c rest => if is_space c then trimStart rest else s
  end.

Fixpoint trimEnd (s : string) : string :=
  match s with
  | EmptyString => EmptyString
  | String c rest =>
      match trimEnd rest with
      | EmptyString => if is_space c then EmptyString else String c EmptyString
      | r => String c r
      end
  end.

(** [s.trim()] *)
Definition trim (s : string) : string := trimEnd (trimStart s).

(** [!s.trim()] *)
Definition blank (s : string) : bool := (trim s =? "")%string.

End JS.

(** ** [Date] *)

Module JSDate.

(** A [Date] holds a time value: milliseconds since the epoch, at most
    [maxTime] in absolute value, or NaN ("Invalid Date"). *)
Inductive Date : Type :=
| ValidDate (t : Z)
| InvalidDate.

Definition maxTime : Z := 8640000000000000.
Definition msPerDay : Z := 86400000.

(** [TimeClip]: what [new Date(t)] stores for a number [t] *)
Definition TimeClip (t : Z) : Date :=
  if Z.abs t <=? maxTime then ValidDate t else InvalidDate.

(** [d.getTime()]; [None] is NaN *)
Definition getTime (d : Date) : option Z :=
  match d with
  | ValidDate t => Some t
  | InvalidDate => None
  end.

(** [a < b] on time values: false as soon as one side is NaN *)
Definition lt_time (a b : option Z) : bool :=
  match a, b with
  | Some x, Some y => x <? y
  | _, _ => false
  end.

(** Year, month (1..12) and day of month of day number [z] (days since the
    epoch) in the proleptic Gregorian calendar. *)
Definition civil_from_days (z : Z) : Z * Z * Z :=
  let z := z + 719468 in
  let era := z / 146097 in
  let doe := z mod 146097 in
  let yoe := (doe - doe / 1460 + doe / 36524 - doe / 146096) / 365 in
  let doy := doe - (365 * yoe + yoe / 4 - yoe / 100) in
  let mp := (5 * doy + 2) / 153 in
  let d := doy - (153 * mp + 2) / 5 + 1 in
  let m := if mp <? 10 then mp + 3 else mp - 9 in
  (yoe + era * 400 + (if m <=? 2 then 1 else 0), m, d).

(** Day number of a calendar date ([MakeDay]) *)
Definition days_from_civil (y m d : Z) : Z :=
  let y := y - (if m <=? 2 then 1 else 0) in
  let era := y / 400 in
  let yoe := y mod 400 in
  let doy := (153 * (if 2 <? m then m - 3 else m + 9) + 2) / 5 + d - 1 in
  let doe := yoe * 365 + yoe / 4 - yoe / 100 + doy in
  era * 146097 + doe - 719468.

Definition digit (n : Z) : ascii := ascii_of_nat (48 + Z.to_nat (n mod 10)).

Definition pad2 (n : Z) : list ascii := [digit (n / 10); digit n].
Definition pad3 (n : Z) : list ascii := digit (n / 100) :: pad2 n.
Definition pad4 (n : Z) : list ascii := digit (n / 1000) :: pad3 n.
Definition pad6 (n : Z) : list ascii :=
  digit (n / 100000) :: digit (n / 10000) :: pad4 n.

(** The year of the date-time format: four digits, or a sign and six digits
    outside 0..9999. *)
Definition year_chars (y : Z) : list ascii :=
  if (0 <=? y) && (y <=? 9999) then pad4 y
  else (if 0 <=? y then "+"%char else "-"%char) :: pad6 (Z.abs y).

(** [YYYY-MM-DDTHH:mm:ss.sssZ] for time value [t] *)
Definition iso_chars (t : Z) : list ascii :=
  let '(y, m, d) := civil_from_days (t / msPerDay) in
  let r := t mod msPerDay in
  year_chars y ++ "-"%char :: pad2 m ++ "-"%char :: pad2 d
    ++ "T"%char :: pad2 (r / 3600000) ++ ":"%char :: pad2 (r / 60000 mod 60)
    ++ ":"%char :: pad2 (r / 1000 mod 60) ++ "."%char :: pad3 (r mod 1000)
    ++ ["Z"%char].

Definition iso (t : Z) : string := string_of_list_ascii (iso_chars t).

Definition digit_val (c : ascii) : option Z :=
  let n := nat_of_ascii c in
  if ((48 <=? n) && (n <=? 57))%nat then Some (Z.of_nat n - 48) else None.

Fixpoint number_from (acc : Z) (cs : list ascii) : option Z :=
  match cs with
  | [] => Some acc
  | c :: rest =>
      match digit_val c with
      | Some d => number_from (10 * acc + d) rest
      | None => None
      end
  end.

Definition number (cs : list ascii) : option Z := number_from 0 cs.

(** The year and what follows it *)
Definition parse_year (cs : list ascii) : option (Z * list ascii) :=
  match cs with
  | sg :: y1 :: y2 :: y3 :: y4 :: rest =>
      if Ascii.eqb sg "+" || Ascii.eqb sg "-" then
        match rest with
        | y5 :: y6 :: rest' =>
            match number [y1; y2; y3; y4; y5; y6] with
            | Some y =>
                if Ascii.eqb sg "-" then
                  if y =? 0 then None else Some (- y, rest')
                else Some (y, rest')
            | None => None
            end
        | _ => None
        end
      else
        match number [sg; y1; y2; y3] with
        | Some y => Some (y, y4 :: rest)
        | None => None
        end
  | _ => None
  end.

(** [-MM-DDTHH:mm:ss.sssZ], as month, day and milliseconds into the day *)
Definition parse_rest (cs : list ascii) : option (Z * Z * Z) :=
  match cs with
  | [c0; m1; m2; c1; d1; d2; c2; h1; h2; c3; n1; n2; c4; s1; s2; c5; f1; f2; f3; c6] =>
      if Ascii.eqb c0 "-" && Ascii.eqb c1 "-" && Ascii.eqb c2 "T"
         && Ascii.eqb c3 ":" && Ascii.eqb c4 ":" && Ascii.eqb c5 "."
         && Ascii.eqb c6 "Z"
      then
        match number [m1; m2], number [d1; d2], number [h1; h2],
              number [n1; n2], number [s1; s2], number [f1; f2; f3] with
        | Some m, Some d, Some h, Some n, Some s, Some f =>
            let r := h * 3600000 + n * 60000 + s * 1000 + f in
            if (1 <=? m) && (m <=? 12) && (1 <=? d) && (d <=? 31)
               && (n <=? 59) && (s <=? 59) && (r <=? msPerDay)
            then Some (m, d, r) else None
        | _, _, _, _, _, _ => None
        end
      else None
  | _ => None
  end.

(** [new Date(s)] for a string [s], on the complete UTC form of the date-time
    format, which is what [toISOString] writes.  Any other string is taken as
    unrecognisable (time value NaN); the shorter forms and the runtime's own
    notations are outside the model. *)
Definition parse (s : string) : Date :=
  match parse_year (list_ascii_of_string s) with
  | Some (y, rest) =>
      match parse_rest rest with
      | Some (m, d, r) => TimeClip (days_from_civil y m d * msPerDay + r)
      | None => InvalidDate
      end
  | None => InvalidDate
  end.

(** The dates that hold a time value *)
Definition valid (d : Date) : Prop :=
  exists t, d = ValidDate t /\ Z.abs t <= maxTime.

End JSDate.


(** ** Exceptions and state *)

Module Eff.

(** What a call does: it returns, or it throws a value. *)
Inductive result (A : Type) : Type :=
| Ok (a : A)
| Throw (e : JS.value).
Arguments Ok {A} a.
Arguments Throw {A} e.

(** A computation over a mutable state [S] that may throw; the state at the
    point of the throw is kept, as assignments made before a throw stay
    made. *)
Definition M (S A : Type) : Type := S -> result A * S.

Definition ret {S A} (a : A) : M S A := fun s => (Ok a, s).

Definition bind {S A B} (m : M S A) (k : A -> M S B) : M S B :=
  fun s =>
    match m s with
    | (Ok a, s') => k a s'
    | (Throw e, s') => (Throw e, s')
    end.

Definition throw {S A} (e : JS.value) : M S A := fun s => (Throw e, s).

(** [try { body } catch (err) { handler }] *)
Definition try_catch {S A} (body : M S A) (handler : JS.value -> M S A) : M S A :=
  fun s =>
    match body s with
    | (Ok a, s') => (Ok a, s')
    | (Throw e, s') => handler e s'
    end.

(** [try { body } finally { cleanup }], for a [cleanup] that only assigns *)
Definition finally {S A} (body : M S A) (cleanup : S -> S) : M S A :=
  fun s => let '(r, s') := body s in (r, cleanup s').

Definition gets {S A} (f : S -> A) : M S A := fun s => (Ok (f s), s).
Definition modify {S} (f : S -> S) : M S unit := fun s => (Ok tt, f s).

(** Run a computation on the first component of a pair of states. *)
Definition on_fst {S T A} (m : M S A) : M (S * T) A :=
  fun st => let '(r, s') := m (fst st) in (r, (s', snd st)).

(** [new Error(message)], [new TypeError(message)], [new RangeError(message)] *)
Definition Error (message : string) : JS.value := JS.VError "Error" message.
Definition TypeError (message : string) : JS.value := JS.VError "TypeError" message.
Definition RangeError (message : string) : JS.value := JS.VError "RangeError" message.

End Eff.

Declare Scope eff_scope.
Delimit Scope eff_scope with eff.
Notation "x <- m ;; k" := (Eff.bind m (fun x => k))
  (at level 61, m at next level, right associativity) : eff_scope.
Notation "m ;;; k" := (Eff.bind m (fun _ => k))
  (at level 61, right associativity) : eff_scope.

(** [d.toISOString()]: a [RangeError] on an invalid date *)
Definition toISOString {S} (d : JSDate.Date) : Eff.M S string :=
  match d with
  | JSDate.ValidDate t => Eff.ret (JSDate.iso t)
  | JSDate.InvalidDate => Eff.throw (Eff.RangeError "Invalid time value")
  end.

(** ** [models/UserSession.ts] *)

Module UserSession.

(** [UserSessionPayload]; [None] is [null] or [undefined] *)
Record UserSessionPayload : Type := {
  p_userId : option string;
  p_provider : option string;
  p_accessToken : option string;
  p_refreshToken : option string;
  p_expiresAt : option string
}.

(** The instance; [None] is [null] *)
Record t : Type := {
  userId : option string;
  provider : option string;
  accessToken : option string;
  refreshToken : option string;
  expiresAt : option JSDate.Date
}.

(** Truthiness of a [string | null] *)
Definition nonempty (s : option string) : bool :=
  match s with
  | Some x => negb (x =? "")%string
  | None => false
  end.

(** [constructor(payload?)] *)
Definition constructor (payload : option UserSessionPayload) : t :=
  match payload with
  | None =>
      {| userId := None; provider := None; accessToken := None;
         refreshToken := None; expiresAt := None |}
  | Some p =>
      {| userId := p_userId p;
         provider := p_provider p;
         accessToken := p_accessToken p;
         refreshToken := p_refreshToken p;
         expiresAt :=
           match p_expiresAt p with
           | Some s => if nonempty (Some s) then Some (JSDate.parse s) else None
           | None => None
           end |}
  end.

Definition fromJSON (json : option UserSessionPayload) : t := constructor json.

(** [toJSON()] *)
Definition toJSON {S} (s : t) : Eff.M S UserSessionPayload :=
  (e <- match expiresAt s with
        | Some d => (x <- toISOString d ;; Eff.ret (Some x))
        | None => Eff.ret None
        end ;;
   Eff.ret {| p_userId := userId s;
              p_provider := provider s;
              p_accessToken := accessToken s;
              p_refreshToken := refreshToken s;
              p_expiresAt := e |})%eff.

(** [isAuthenticated()], with [now] the value of [Date.now()] *)
Definition isAuthenticated (s : t) (now : Z) : bool :=
  if negb (nonempty (accessToken s)) then false
  else
    match expiresAt s with
    | Some d =>
        if JSDate.lt_time (JSDate.getTime d) (Some now) then false else true
    | None => true
    end.

(** [clear()] *)
Definition clear (s : t) : t :=
  {| userId := None; provider := None; accessToken := None;
     refreshToken := None; expiresAt := None |}.

End UserSession.

(** ** The world around the services: clock, key-value store, query API *)

Module Sys.

(** [QueryResult] of [services/queryService.ts]; a row keeps its keys in
    insertion order. *)
Definition row : Type := list (string * JS.value).

Record QueryResult : Type := {
  jobId : option string;
  rows : list row;
  schema : list (string * string)
}.

(** [globalThis.localStorage]: either every access throws (no store, as
    outside a browser, or a store that refuses), or it holds items. *)
Inductive Storage : Type :=
| Unavailable (e : JS.value)
| Items (l : list (string * string)).

(** The global [gapi] client, seen from [queryService.ts]. *)
Record Gapi : Type := {
  (** [typeof gapi !== 'undefined'] *)
  loaded : bool;
  (** [gapi.client.bigquery] is there already *)
  bigquery_ready : bool;
  (** loading the client and the BigQuery API: [None] when it succeeds, the
      rejection otherwise *)
  load_rejects : option JS.value;
  (** [gapi.client.bigquery.jobs.query] for a query text and a project: it
      rejects, or resolves with a response whose [result] is empty ([None])
      or decodes (through [convertBigQuerySchema] and [convertBigQueryRows],
      with the job identifier defaulted to "unknown") to a [QueryResult] *)
  jobs_query : string -> string -> Eff.result (option QueryResult)
}.

Record World : Type := {
  (** the successive readings of the clock, in milliseconds *)
  clock : nat -> Z;
  (** how many readings were made *)
  tick : nat;
  gapi : Gapi;
  (** [import.meta.env.VITE_BIGQUERY_PROJECT_ID] *)
  envProjectId : option string;
  (** the module variable of [authService.ts] *)
  currentSession : UserSession.t;
  localStorage : Storage
}.

Definition set_tick (n : nat) (w : World) : World :=
  {| clock := clock w; tick := n; gapi := gapi w; envProjectId := envProjectId w;
     currentSession := currentSession w; localStorage := localStorage w |}.

Definition set_currentSession (s : UserSession.t) (w : World) : World :=
  {| clock := clock w; tick := tick w; gapi := gapi w; envProjectId := envProjectId w;
     currentSession := s; localStorage := localStorage w |}.

Definition set_localStorage (st : Storage) (w : World) : World :=
  {| clock := clock w; tick := tick w; gapi := gapi w; envProjectId := envProjectId w;
     currentSession := currentSession w; localStorage := st |}.

(** [Date.now()] *)
Definition Date_now : Eff.M World Z :=
  fun w => (Eff.Ok (clock w (tick w)), set_tick (S (tick w)) w).

(** [new Date()]: the current instant is a valid time value *)
Definition Date_new : Eff.M World JSDate.Date :=
  (now <- Date_now ;; Eff.ret (JSDate.ValidDate now))%eff.

Fixpoint remove_key (k : string) (l : list (string * string)) : list (string * string) :=
  match l with
  | [] => []
  | (k', v) :: rest =>
      if (k =? k')%string then remove_key k rest else (k', v) :: remove_key k rest
  end.

Fixpoint lookup (k : string) (l : list (string * string)) : option string :=
  match l with
  | [] => None
  | (k', v) :: rest => if (k =? k')%string then Some v else lookup k rest
  end.

(** [localStorage.setItem(k, v)] *)
Definition setItem (k v : string) : Eff.M World unit :=
  fun w =>
    match localStorage w with
    | Unavailable e => (Eff.Throw e, w)
    | Items l => (Eff.Ok tt, set_localStorage (Items ((k, v) :: remove_key k l)) w)
    end.

(** [localStorage.getItem(k)] *)
Definition getItem (k : string) : Eff.M World (option string) :=
  fun w =>
    match localStorage w with
    | Unavailable e => (Eff.Throw e, w)
    | Items l => (Eff.Ok (lookup k l), w)
    end.

(** [localStorage.removeItem(k)] *)
Definition removeItem (k : string) : Eff.M World unit :=
  fun w =>
    match localStorage w with
    | Unavailable e => (Eff.Throw e, w)
    | Items l => (Eff.Ok tt, set_localStorage (Items (remove_key k l)) w)
    end.

Definition dquote : ascii := Eval cbv in ascii_of_nat 34.

Definition hex_digit (n : nat) : ascii :=
  ascii_of_nat (if (n <? 10)%nat then 48 + n else 87 + n).

(** One code unit inside a JSON string literal *)
Definition json_escape (c : ascii) : string :=
  let n := nat_of_ascii c in
  if (n =? 34)%nat then String "\" (String dquote "")
  else if (n =? 92)%nat then "\\"
  else if (n =? 8)%nat then "\b"
  else if (n =? 9)%nat then "\t"
  else if (n =? 10)%nat then "\n"
  else if (n =? 12)%nat then "\f"
  else if (n =? 13)%nat then "\r"
  else if (n <? 32)%nat then
    "\u00" ++ String (hex_digit (n / 16)) (String (hex_digit (n mod 16)) "")
  else String c "".

Fixpoint json_escape_all (s : string) : string :=
  match s with
  | EmptyString => EmptyString
  | String c rest => json_escape c ++ json_escape_all rest
  end.

Definition json_string (s : string) : string :=
  String dquote (json_escape_all s ++ String dquote "").

Definition json_nullable (s : option string) : string :=
  match s with
  | Some x => json_string x
  | None => "null"
  end.

(** [JSON.stringify] of a session payload *)
Definition JSON_stringify (p : UserSession.UserSessionPayload) : string :=
  "{" ++ json_string "userId" ++ ":" ++ json_nullable (UserSession.p_userId p)
  ++ "," ++ json_string "provider" ++ ":" ++ json_nullable (UserSession.p_provider p)
  ++ "," ++ json_string "accessToken" ++ ":" ++ json_nullable (UserSession.p_accessToken p)
  ++ "," ++ json_string "refreshToken" ++ ":" ++ json_nullable (UserSession.p_refreshToken p)
  ++ "," ++ json_string "expiresAt" ++ ":" ++ json_nullable (UserSession.p_expiresAt p)
  ++ "}".

(** [w1] comes after [w]: the same clock, API client and configuration, and
    no fewer readings of the clock *)
Definition later (w w1 : World) : Prop :=
  clock w1 = clock w /\ gapi w1 = gapi w /\ envProjectId w1 = envProjectId w
  /\ (tick w <= tick w1)%nat.

Definition set_gapi (g : Gapi) (w : World) : World :=
  {| clock := clock w; tick := tick w; gapi := g; envProjectId := envProjectId w;
     currentSession := currentSession w; localStorage := localStorage w |}.

(** A world to run examples in: the clock starts at 2023-11-14T22:13:20Z and
    advances by a millisecond per reading, there is no [gapi], no configured
    project, nobody signed in, and the store is empty. *)
Definition sample_world : World :=
  {| clock := fun n => 1700000000000 + Z.of_nat n;
     tick := 0;
     gapi := {| loaded := false; bigquery_ready := false; load_rejects := None;
                jobs_query := fun _ _ => Eff.Ok None |};
     envProjectId := None;
     currentSession := UserSession.constructor None;
     localStorage := Items [] |}.

End Sys.

(** ** [services/authService.ts] *)

Module AuthService.
Import Sys.

Definition STORAGE_KEY : string := "smolquery.session".

(** What [toJSON] writes for a session whose expiry, if any, is the valid
    time value [t] *)
Definition session_payload (s : UserSession.t) : UserSession.UserSessionPayload :=
  {| UserSession.p_userId := UserSession.userId s;
     UserSession.p_provider := UserSession.provider s;
     UserSession.p_accessToken := UserSession.accessToken s;
     UserSession.p_refreshToken := UserSession.refreshToken s;
     UserSession.p_expiresAt :=
       match UserSession.expiresAt s with
       | Some (JSDate.ValidDate t) => Some (JSDate.iso t)
       | _ => None
       end |}.

(** [saveToStorage(session)] *)
Definition saveToStorage (session : UserSession.t) : Eff.M World unit :=
  Eff.try_catch
    (p <- UserSession.toJSON session ;;
     setItem STORAGE_KEY (JSON_stringify p))%eff
    (fun _ => Eff.ret tt).

(** [SignInPayload]; [None] is an absent (or [null]) field, [expiresIn] counts
    seconds *)
Record SignInPayload : Type := {
  provider : option string;
  userId : option string;
  accessToken : string;
  refreshToken : option string;
  expiresIn : option Z
}.

(** Truthiness of [payload.expiresIn] *)
Definition given (n : option Z) : bool :=
  match n with
  | Some x => negb (x =? 0)
  | None => false
  end.

(** [signInWithToken(payload)] *)
Definition signInWithToken (payload : SignInPayload) : Eff.M World UserSession.t :=
  (expiresAt <-
     (if given (expiresIn payload) then
        now <- Date_now ;;
        Eff.ret (Some (JSDate.TimeClip
                         (now + match expiresIn payload with Some n => n | None => 0 end * 1000)))
      else Eff.ret None) ;;
   expiresAtISO <-
     match expiresAt with
     | Some d => (x <- toISOString d ;; Eff.ret (Some x))
     | None => Eff.ret None
     end ;;
   let s := UserSession.constructor (Some
     {| UserSession.p_provider :=
          Some (match provider payload with Some p => p | None => "token" end);
        UserSession.p_userId := userId payload;
        UserSession.p_accessToken := Some (accessToken payload);
        UserSession.p_refreshToken := refreshToken payload;
        UserSession.p_expiresAt := expiresAtISO |}) in
   Eff.modify (set_currentSession s) ;;;
   saveToStorage s ;;;
   Eff.ret s)%eff.

(** [signOut()] *)
Definition signOut : Eff.M World unit :=
  (Eff.modify (fun w => set_currentSession (UserSession.clear (currentSession w)) w) ;;;
   Eff.try_catch (removeItem STORAGE_KEY) (fun _ => Eff.ret tt))%eff.

(** [getSession()] *)
Definition getSession : Eff.M World UserSession.t := Eff.gets currentSession.

End AuthService.

(** ** [models/Query.ts] *)

Module Query.
Import Sys.

Inductive QueryStatus : Type := draft | running | completed | failed.

(** A field of type [T | null | undefined] where the difference counts *)
Inductive nullable (A : Type) : Type :=
| Undefined
| Null
| Value (a : A).
Arguments Undefined {A}.
Arguments Null {A}.
Arguments Value {A} a.

(** [x ?? null] *)
Definition or_null {A} (x : nullable A) : nullable A :=
  match x with
  | Value a => Value a
  | _ => Null
  end.

(** [QueryPayload].  [id] and [sql] are whatever the caller put there, as
    [fromJSON] looks at their types; for the other fields [None] is an absent
    (or [null]) field. *)
Record QueryPayload : Type := {
  p_id : JS.value;
  p_sql : JS.value;
  p_name : option string;
  p_createdAt : option string;
  p_updatedAt : option string;
  p_status : option QueryStatus;
  p_lastError : nullable string
}.

(** The instance, with [A] what its [id] and [sql] hold.  Both are declared
    [string], and the constructor copies them unchecked: code that respects
    the declaration builds instances that hold strings there, as [fromJSON]
    does; code that goes around it ([sql: null as any], as in
    [models/__tests__/Query.test.ts]) builds instances that hold any value,
    and [validate] looks at what it finds. *)
Record instance (A : Type) : Type := {
  id : A;
  sql : A;
  name : option string;
  createdAt : JSDate.Date;
  updatedAt : JSDate.Date;
  status : QueryStatus;
  lastError : nullable string
}.
Arguments id {A} _.
Arguments sql {A} _.
Arguments name {A} _.
Arguments createdAt {A} _.
Arguments updatedAt {A} _.
Arguments status {A} _.
Arguments lastError {A} _.

(** The instances whose [id] and [sql] are strings, as declared *)
Definition t : Type := instance string.

(** The instances whose [id] and [sql] are any value *)
Definition untyped : Type := instance JS.value.

(** The argument of the constructor, with [A] what it gives for [id] and
    [sql] *)
Record args (A : Type) : Type := {
  i_id : A;
  i_sql : A;
  i_name : option string;
  i_createdAt : option JSDate.Date;
  i_updatedAt : option JSDate.Date;
  i_status : option QueryStatus;
  i_lastError : nullable string
}.
Arguments i_id {A} _.
Arguments i_sql {A} _.
Arguments i_name {A} _.
Arguments i_createdAt {A} _.
Arguments i_updatedAt {A} _.
Arguments i_status {A} _.
Arguments i_lastError {A} _.

(** The argument of the constructor, as declared *)
Definition Init : Type := args string.

(** The run-time value of a field that holds an [A] *)
Class Held (A : Type) : Type := held : A -> JS.value.

#[global] Instance held_string : Held string := JS.VString.

#[global] Instance held_value : Held JS.value := fun v => v.

(** Assignments to the fields that [executeQuery] writes *)
Definition with_status (s : QueryStatus) (q : t) : t :=
  {| id := id q; sql := sql q; name := name q; createdAt := createdAt q;
     updatedAt := updatedAt q; status := s; lastError := lastError q |}.

Definition with_lastError (e : nullable string) (q : t) : t :=
  {| id := id q; sql := sql q; name := name q; createdAt := createdAt q;
     updatedAt := updatedAt q; status := status q; lastError := e |}.

Definition with_updatedAt (d : JSDate.Date) (q : t) : t :=
  {| id := id q; sql := sql q; name := name q; createdAt := createdAt q;
     updatedAt := d; status := status q; lastError := lastError q |}.

(** [d ?? new Date()] *)
Definition or_now (d : option JSDate.Date) : Eff.M World JSDate.Date :=
  match d with
  | Some x => Eff.ret x
  | None => Date_new
  end.

(** [constructor(payload)] *)
Definition constructor {A} (payload : args A) : Eff.M World (instance A) :=
  (c <- or_now (i_createdAt payload) ;;
   u <- or_now (i_updatedAt payload) ;;
   Eff.ret {| id := i_id payload;
              sql := i_sql payload;
              name := i_name payload;
              createdAt := c;
              updatedAt := u;
              status := match i_status payload with Some s => s | None => draft end;
              lastError := or_null (i_lastError payload) |})%eff.

(** [json.createdAt ? new Date(json.createdAt) : undefined] *)
Definition date_field (s : option string) : option JSDate.Date :=
  match s with
  | Some x => if (x =? "")%string then None else Some (JSDate.parse x)
  | None => None
  end.

(** [fromJSON(json)]; [None] is a [json] that is [null], [undefined] or not an
    object *)
Definition fromJSON (json : option QueryPayload) : Eff.M World t :=
  match json with
  | None => Eff.throw (Eff.TypeError "Invalid Query payload")
  | Some j =>
      match p_id j, p_sql j with
      | JS.VString the_id, JS.VString the_sql =>
          constructor {| i_id := the_id;
                         i_sql := the_sql;
                         i_name := p_name j;
                         i_createdAt := date_field (p_createdAt j);
                         i_updatedAt := date_field (p_updatedAt j);
                         i_status := p_status j;
                         i_lastError := or_null (p_lastError j) |}
      | _, _ => Eff.throw (Eff.TypeError "Query payload missing required fields: id, sql")
      end
  end.

(** [toJSON()] *)
Definition toJSON {S} (q : t) : Eff.M S QueryPayload :=
  (c <- toISOString (createdAt q) ;;
   u <- toISOString (updatedAt q) ;;
   Eff.ret {| p_id := JS.VString (id q);
              p_sql := JS.VString (sql q);
              p_name := name q;
              p_createdAt := Some c;
              p_updatedAt := Some u;
              p_status := Some (status q);
              p_lastError := or_null (lastError q) |})%eff.

(** [errors.join(', ')] *)
Fixpoint join (sep : string) (l : list string) : string :=
  match l with
  | [] => ""
  | [x] => x
  | x :: rest => x ++ sep ++ join sep rest
  end.

(** [validate()] *)
Definition validate {S A} `{Held A} (q : instance A) : Eff.M S bool :=
  let errors : list string := [] in
  let errors :=
    if negb (JS.truthy (held (id q)))
    then (errors ++ ["id is required"])%list else errors in
  let errors :=
    if negb (JS.truthy (held (sql q)))
       || negb (JS.typeof (held (sql q)) =? "string")%string
    then (errors ++ ["sql is required"])%list else errors in
  match errors with
  | [] => Eff.ret true
  | _ => Eff.throw (Eff.Error ("Query validation failed: " ++ join ", " errors))
  end.

(** [Partial<QueryPayload>], the argument of [clone]: for each field, [None]
    when the object has no such property and [Some v] when it has one, [v]
    being its value as in [QueryPayload] (so [Some None] is a property that
    is there and holds [undefined]) *)
Record Overrides : Type := {
  o_id : option JS.value;
  o_sql : option JS.value;
  o_name : option (option string);
  o_createdAt : option (option string);
  o_updatedAt : option (option string);
  o_status : option (option QueryStatus);
  o_lastError : option (nullable string)
}.

(** [{}] *)
Definition no_overrides : Overrides :=
  {| o_id := None; o_sql := None; o_name := None; o_createdAt := None;
     o_updatedAt := None; o_status := None; o_lastError := None |}.

(** One property of [{ ...a, ...b }] *)
Definition spread {A} (a : A) (b : option A) : A :=
  match b with
  | Some v => v
  | None => a
  end.

(** [{ ...json, ...overrides }] *)
Definition merge (json : QueryPayload) (overrides : Overrides) : QueryPayload :=
  {| p_id := spread (p_id json) (o_id overrides);
     p_sql := spread (p_sql json) (o_sql overrides);
     p_name := spread (p_name json) (o_name overrides);
     p_createdAt := spread (p_createdAt json) (o_createdAt overrides);
     p_updatedAt := spread (p_updatedAt json) (o_updatedAt overrides);
     p_status := spread (p_status json) (o_status overrides);
     p_lastError := spread (p_lastError json) (o_lastError overrides) |}.

(** [clone(overrides?)]; [None] is a call without the argument *)
Definition clone (overrides : option Overrides) (q : t) : Eff.M World t :=
  (json <- toJSON q ;;
   fromJSON (Some (merge json (match overrides with
                               | Some o => o
                               | None => no_overrides
                               end))))%eff.

End Query.

(** ** [models/Panel.ts] *)

Module Panel.

(** The instance.  The constructor copies [id], [type] and [title] from the
    payload unchecked, so they hold whatever was there. *)
Record t : Type := {
  id : JS.value;
  type : JS.value;
  title : JS.value;
  open : JS.value;
  order : Z
}.

Definition is_object (v : JS.value) : bool := (JS.typeof v =? "object")%string.

(** [constructor(payload)] *)
Definition constructor (payload : JS.value) : Eff.result t :=
  if negb (JS.truthy payload) || negb (is_object payload) then
    Eff.Throw (Eff.TypeError "Invalid Panel payload")
  else
    Eff.Ok {| id := JS.get payload "id";
              type := JS.get payload "type";
              title := JS.get payload "title";
              open := JS.nullish_or (JS.get payload "open") (JS.VBool true);
              order := match JS.get payload "order" with
                       | JS.VNumber n => n
                       | _ => 0
                       end |}.

Definition fromJSON (json : JS.value) : Eff.result t := constructor json.

(** [toJSON()] *)
Definition toJSON (p : t) : JS.value :=
  JS.VObject [("id", id p); ("type", type p); ("title", title p);
              ("open", open p); ("order", JS.VNumber (order p))].

Definition set_open (v : JS.value) (p : t) : t :=
  {| id := id p; type := type p; title := title p; open := v; order := order p |}.

(** [toggle()]: the panel after the call, and what the call returns *)
Definition toggle (p : t) : t * bool :=
  let o := negb (JS.truthy (open p)) in (set_open (JS.VBool o) p, o).

Definition openPanel (p : t) : t := set_open (JS.VBool true) p.
Definition closePanel (p : t) : t := set_open (JS.VBool false) p.

End Panel.

(** ** [services/queryService.ts] *)

Module QueryService.
Import Sys.

Definition lower (c : ascii) : ascii :=
  let n := nat_of_ascii c in
  if ((65 <=? n) && (n <=? 90))%nat then ascii_of_nat (n + 32) else c.

(** A word character of a pattern: [[A-Za-z0-9_]] *)
Definition is_word (c : ascii) : bool :=
  let n := nat_of_ascii c in
  ((48 <=? n) && (n <=? 57) || (65 <=? n) && (n <=? 90)
   || (97 <=? n) && (n <=? 122) || (n =? 95))%nat.

(** What is left of [s] after the lower-case literal [p], matched without
    regard to case at the start of [s] *)
Fixpoint after_ci (p s : string) : option string :=
  match p with
  | EmptyString => Some s
  | String a p' =>
      match s with
      | EmptyString => None
      | String c s' => if Ascii.eqb (lower c) a then after_ci p' s' else None
      end
  end.

(** [/^\s*select\b/i.test(sql)] *)
Definition isSelect (sql : string) : bool :=
  match after_ci "select" (JS.trimStart sql) with
  | Some EmptyString => true
  | Some (String c _) => negb (is_word c)
  | None => false
  end.

(** [from\s+numbers], without regard to case, at the start of [s] *)
Definition from_numbers_here (s : string) : bool :=
  match after_ci "from" s with
  | Some (String c rest) =>
      if JS.is_space c then
        match after_ci "numbers" (JS.trimStart rest) with
        | Some _ => true
        | None => false
        end
      else false
  | _ => false
  end.

(** [/from\s+numbers/i.test(sql)] *)
Fixpoint from_numbers (s : string) : bool :=
  from_numbers_here s
  || match s with
     | EmptyString => false
     | String _ rest => from_numbers rest
     end.

(** The text [s] contains the literal [p] (in lower case), without regard to
    case.  (This one follows the words of the specification, "the SQL
    contains from numbers", to compare [from_numbers] with.) *)
Fixpoint contains_ci (p s : string) : bool :=
  match after_ci p s with
  | Some _ => true
  | None =>
      match s with
      | EmptyString => false
      | String _ rest => contains_ci p rest
      end
  end.

(** [fakeSchemaFromRows(rows)] *)
Definition fakeSchemaFromRows (rows : list row) : list (string * string) :=
  match rows with
  | [] => []
  | first :: _ => map (fun kv => (fst kv, JS.typeof (snd kv))) first
  end.

(** [initializeBigQueryAPI()].  [gapi.client] is taken to be there whenever
    [gapi] is.  Loading comes to what [load_rejects] says; a load that
    succeeds is not recorded in [bigquery_ready], so a later call loads
    again, to the same outcome. *)
Definition initializeBigQueryAPI : Eff.M World unit :=
  fun w =>
    if negb (loaded (gapi w)) then
      (Eff.Throw (Eff.Error
         "Google API client not loaded. Include https://apis.google.com/js/api.js"), w)
    else if bigquery_ready (gapi w) then (Eff.Ok tt, w)
    else
      match load_rejects (gapi w) with
      | Some e => (Eff.Throw e, w)
      | None => (Eff.Ok tt, w)
      end.

(** The [errorMessage] that the handler of [executeBigQueryQuery] works out *)
Definition errorMessage (error : JS.value) : JS.value :=
  let unknown := JS.VString "Unknown BigQuery error" in
  if JS.truthy error && Panel.is_object error then
    let result := JS.get error "result" in
    if JS.has_prop "result" error && JS.truthy result && Panel.is_object result
       && JS.has_prop "error" result
    then
      let apiError := JS.get result "error" in
      JS.or_else (JS.or_else (JS.get apiError "message") (JS.get apiError "code")) unknown
    else if JS.has_prop "message" error then JS.VString (JS.toStr (JS.get error "message"))
    else unknown
  else unknown.

(** [executeBigQueryQuery(sql, projectId, session)] *)
Definition executeBigQueryQuery (sql projectId : string) : Eff.M World QueryResult :=
  (initializeBigQueryAPI ;;;
   Eff.try_catch
     (fun w =>
        match jobs_query (gapi w) sql projectId with
        | Eff.Throw e => (Eff.Throw e, w)
        | Eff.Ok None => (Eff.Throw (Eff.Error "No result returned from BigQuery"), w)
        | Eff.Ok (Some r) => (Eff.Ok r, w)
        end)
     (fun error =>
        Eff.throw (Eff.Error ("BigQuery execution failed: " ++ JS.toStr (errorMessage error)))))%eff.

(** The project that [getBigQueryProjectId] answers in world [w] *)
Definition projectId (w : World) : string :=
  if UserSession.nonempty (envProjectId w)
  then match envProjectId w with Some p => p | None => "" end
  else "your-bigquery-project-id".

(** [getBigQueryProjectId(session)] *)
Definition getBigQueryProjectId : Eff.M World string := Eff.gets projectId.

(** [session.isAuthenticated()], reading the clock where the method does *)
Definition isAuthenticated_now (s : UserSession.t) : Eff.M World bool :=
  if negb (UserSession.nonempty (UserSession.accessToken s)) then Eff.ret false
  else
    match UserSession.expiresAt s with
    | Some _ => (now <- Date_now ;; Eff.ret (UserSession.isAuthenticated s now))%eff
    | None => Eff.ret true
    end.

(** The state of a call of [executeQuery]: the world and the [Query] object
    [q] *)
Definition Exec : Type := (World * Query.t)%type.

Definition set_status (s : Query.QueryStatus) : Eff.M Exec unit :=
  Eff.modify (fun st : Exec => (fst st, Query.with_status s (snd st))).

Definition set_lastError (e : Query.nullable string) : Eff.M Exec unit :=
  Eff.modify (fun st : Exec => (fst st, Query.with_lastError e (snd st))).

Definition set_updatedAt (d : JSDate.Date) : Eff.M Exec unit :=
  Eff.modify (fun st : Exec => (fst st, Query.with_updatedAt d (snd st))).

(** [q.updatedAt = new Date()] *)
Definition touch : Eff.M Exec unit :=
  (d <- Eff.on_fst Date_new ;; set_updatedAt d)%eff.

(** The [message] that the handlers of [executeQuery] and of the endpoint
    take from what was thrown *)
Definition message_of (err : JS.value) : JS.value :=
  if JS.truthy err && Panel.is_object err && JS.has_prop "message" err
  then JS.get err "message"
  else JS.VString (JS.toStr err).

(** [`local-${q.id}`] *)
Definition local_job (q : Query.t) : option string := Some ("local-" ++ Query.id q).

(** [Array.from({ length: 3 }, (_, i) => ({ n: i + 1 }))] *)
Definition number_rows : list row :=
  map (fun i => [("n", JS.VNumber (i + 1))]) [0; 1; 2].

(** The mock branch of [executeQuery], after the delay *)
Definition mock : Eff.M Exec QueryResult :=
  (q <- Eff.gets (fun st : Exec => snd st) ;;
   if negb (isSelect (Query.sql q)) then
     set_status Query.completed ;;; touch ;;;
     Eff.ret {| jobId := local_job q; rows := []; schema := [] |}
   else if from_numbers (Query.sql q) then
     let rows := number_rows in
     set_status Query.completed ;;; touch ;;;
     Eff.ret {| jobId := local_job q; rows := rows; schema := fakeSchemaFromRows rows |}
   else
     d <- Eff.on_fst Date_new ;;
     ranAt <- toISOString d ;;
     let rows := [[("raw_sql", JS.VString (JS.trim (Query.sql q))); ("ranAt", JS.VString ranAt)]] in
     set_status Query.completed ;;; touch ;;;
     Eff.ret {| jobId := local_job q; rows := rows; schema := fakeSchemaFromRows rows |})%eff.

(** The [try] block of [executeQuery] *)
Definition try_block (isAuthenticated : bool) (session : option UserSession.t)
  : Eff.M Exec QueryResult :=
  match isAuthenticated, session with
  | true, Some _ =>
      (q <- Eff.gets (fun st : Exec => snd st) ;;
       projectId <- Eff.on_fst getBigQueryProjectId ;;
       result <- Eff.on_fst (executeBigQueryQuery (Query.sql q) projectId) ;;
       set_status Query.completed ;;;
       touch ;;;
       Eff.ret result)%eff
  | _, _ => mock
  end.

(** The [catch] block of [executeQuery] *)
Definition catch_block (err : JS.value) : Eff.M Exec QueryResult :=
  let message := message_of err in
  (set_status Query.failed ;;;
   set_lastError (Query.Value (if JS.truthy message then JS.toStr message else JS.toStr err)) ;;;
   touch ;;;
   Eff.throw err)%eff.

(** [executeQuery] from [q.validate()] on *)
Definition run (session : option UserSession.t) : Eff.M Exec QueryResult :=
  (q0 <- Eff.gets (fun st : Exec => snd st) ;;
   Query.validate q0 ;;;
   isAuthenticated <-
     match session with
     | Some s => Eff.on_fst (isAuthenticated_now s)
     | None => Eff.ret false
     end ;;
   set_status Query.running ;;;
   touch ;;;
   Eff.try_catch (try_block isAuthenticated session) catch_block)%eff.

(** The first argument of [executeQuery]: an instance, or a payload *)
Inductive input : Type :=
| Instance (q : Query.t)
| Payload (json : option Query.QueryPayload).

(** What a call of [executeQuery] leaves: what it returned or threw, the
    world, and the [Query] object [q] when there is one *)
Record Outcome : Type := {
  returned : Eff.result QueryResult;
  world : World;
  query : option Query.t
}.

(** How many readings of the clock [session?.isAuthenticated()] makes *)
Definition clock_reads (session : option UserSession.t) : nat :=
  match session with
  | Some s =>
      if UserSession.nonempty (UserSession.accessToken s) then
        match UserSession.expiresAt s with Some _ => 1 | None => 0 end
      else 0
  | None => 0
  end.

(** [session?.isAuthenticated() ?? false], at the clock of [w] *)
Definition authenticated (session : option UserSession.t) (w : World) : bool :=
  match session with
  | Some s => UserSession.isAuthenticated s (clock w (tick w))
  | None => false
  end.

(** [query instanceof Query ? query : Query.fromJSON(query)] *)
Definition normalize (query : input) : Eff.M World Query.t :=
  match query with
  | Instance q => Eff.ret q
  | Payload json => Query.fromJSON json
  end.

(** [executeQuery(query, session)] *)
Definition executeQuery (query : input) (session : option UserSession.t) (w : World) : Outcome :=
  match normalize query w with
  | (Eff.Throw e, w') => {| returned := Eff.Throw e; world := w'; query := None |}
  | (Eff.Ok q, w') =>
      let '(r, st) := run session (w', q) in
      {| returned := r; world := fst st; query := Some (snd st) |}
  end.

(** [BigQueryField]; [None] is an absent field *)
Record BigQueryField : Type := {
  f_name : option string;
  f_type : option string
}.

(** [x || 'unknown'] on a [string | undefined] *)
Definition or_unknown (x : option string) : string :=
  match x with
  | Some v => if (v =? "")%string then "unknown" else v
  | None => "unknown"
  end.

(** [convertBigQuerySchema(fields)]; [None] is a call without the argument,
    which the default parameter reads as the empty list *)
Definition convertBigQuerySchema (fields : option (list BigQueryField))
  : list (string * string) :=
  map (fun field => (or_unknown (f_name field), or_unknown (f_type field)))
      (match fields with Some l => l | None => [] end).

End QueryService.

(** ** [api/query.ts] *)

Module Api.
Import Sys.

(** [ExecuteRequest]; [query] is whatever the caller put there, as the
    endpoint looks at its type; for the other fields [None] is an absent (or
    [null]) field *)
Record ExecuteRequest : Type := {
  query : JS.value;
  authToken : option string;
  id : option string;
  name : option string
}.

Record ExecuteResponse : Type := {
  results : list row;
  schema : option (list (string * string));
  status : string;
  error : option string;
  jobId : option string
}.

Record Response : Type := {
  statusCode : Z;
  body : ExecuteResponse
}.

(** The body of the responses that report an error *)
Definition failure (code : Z) (message : string) : Response :=
  {| statusCode := code;
     body := {| results := []; schema := None; status := "error";
                error := Some message; jobId := None |} |}.

Definition digit36 (n : Z) : ascii :=
  ascii_of_nat (Z.to_nat (if n <? 10 then 48 + n else 87 + n)).

Fixpoint digits36 (fuel : nat) (n : Z) (acc : string) : string :=
  match fuel with
  | O => acc
  | S fuel' =>
      let acc' := String (digit36 (n mod 36)) acc in
      if n <? 36 then acc' else digits36 fuel' (n / 36) acc'
  end.

(** [n.toString(36)] *)
Definition toString36 (n : Z) : string :=
  if n <? 0 then "-" ++ digits36 (Z.to_nat (Z.log2 (- n)) + 1) (- n) ""
  else digits36 (Z.to_nat (Z.log2 n) + 1) n "".

(** [executeQuery], as the endpoint awaits it *)
Definition callExecuteQuery (p : Query.QueryPayload) (session : option UserSession.t)
  : Eff.M World QueryResult :=
  fun w =>
    let o := QueryService.executeQuery (QueryService.Payload (Some p)) session w in
    (QueryService.returned o, QueryService.world o).

(** [executeEndpoint(payload)]; [None] is a [payload] that is [null] or
    [undefined], read as the empty request *)
Definition executeEndpoint (payload : option ExecuteRequest) : Eff.M World Response :=
  let body :=
    match payload with
    | Some b => b
    | None => {| query := JS.VUndefined; authToken := None; id := None; name := None |}
    end in
  match query body with
  | JS.VString sql =>
      if JS.blank sql then Eff.ret (failure 400 "Query is required")
      else if match authToken body with
              | Some tok => (tok =? "invalid-token")%string
              | None => false
              end
      then Eff.ret (failure 401 "Authentication failed")
      else
        Eff.try_catch
          (session <-
             match authToken body with
             | Some tok =>
                 if UserSession.nonempty (Some tok) then
                   s <- AuthService.signInWithToken
                          {| AuthService.provider := None;
                             AuthService.userId := None;
                             AuthService.accessToken := tok;
                             AuthService.refreshToken := None;
                             AuthService.expiresIn := None |} ;;
                   Eff.ret (Some s)
                 else Eff.ret None
             | None => Eff.ret None
             end ;;
           the_id <-
             match id body with
             | Some i => Eff.ret i
             | None => (now <- Date_now ;; Eff.ret ("local-" ++ toString36 now))
             end ;;
           result <- callExecuteQuery
                       {| Query.p_id := JS.VString the_id;
                          Query.p_sql := JS.VString sql;
                          Query.p_name := name body;
                          Query.p_createdAt := None;
                          Query.p_updatedAt := None;
                          Query.p_status := None;
                          Query.p_lastError := Query.Undefined |}
                       session ;;
           Eff.ret {| statusCode := 200;
                      body := {| results := rows result;
                                 schema := Some (Sys.schema result);
                                 status := "success";
                                 error := None;
                                 jobId := Sys.jobId result |} |})%eff
          (fun err =>
             let message := QueryService.message_of err in
             if (JS.toStr message =? "User not authenticated")%string then
               Eff.ret (failure 401 "Authentication failed")
             else
               Eff.ret (failure 500
                 (if JS.truthy message then JS.toStr message else "Query execution failed")))
  | _ => Eff.ret (failure 400 "Query is required")
  end.

(** The session that the endpoint signs in for an access token *)
Definition token_session (tok : string) : UserSession.t :=
  {| UserSession.userId := None; UserSession.provider := Some "token";
     UserSession.accessToken := Some tok; UserSession.refreshToken := None;
     UserSession.expiresAt := None |}.

(** The response to a successful execution *)
Definition success (result : QueryResult) : Response :=
  {| statusCode := 200;
     body := {| results := rows result;
                schema := Some (Sys.schema result);
                status := "success";
                error := None;
                jobId := Sys.jobId result |} |}.

(** What the endpoint answers to the outcome of the adapter *)
Definition answer (r : Eff.result QueryResult) : Response :=
  match r with
  | Eff.Ok result => success result
  | Eff.Throw e =>
      if (JS.toStr (QueryService.message_of e) =? "User not authenticated")%string
      then failure 401 "Authentication failed"
      else failure 500 (if JS.truthy (QueryService.message_of e)
                        then JS.toStr (QueryService.message_of e)
                        else "Query execution failed")
  end.

(** A [query] that is missing, not a string, or blank *)
Definition no_query (payload : option ExecuteRequest) : Prop :=
  match payload with
  | None => True
  | Some b =>
      match query b with
      | JS.VString sql => JS.blank sql = true
      | _ => True
      end
  end.

End Api.

(** ** [services/authService.ts], continued: the queries on the current
       session and the sign-in with Google *)

Module AuthGoogle.
Import Sys.

(** [getAuthToken()] *)
Definition getAuthToken : Eff.M World (option string) :=
  (session <- AuthService.getSession ;;
   a <- QueryService.isAuthenticated_now session ;;
   Eff.ret (if a then UserSession.accessToken session else None))%eff.

(** [isSignedInWithGoogle()] *)
Definition isSignedInWithGoogle : Eff.M World bool :=
  (session <- AuthService.getSession ;;
   a <- QueryService.isAuthenticated_now session ;;
   Eff.ret (a && match UserSession.provider session with
                 | Some p => (p =? "google")%string
                 | None => false
                 end))%eff.

(** What [authInstance.signIn()] resolves with, as far as it is read:
    [isSignedIn()], [getAuthResponse().access_token],
    [getAuthResponse().expires_in] and [getBasicProfile().getId()] *)
Record GoogleUser : Type := {
  isSignedIn : bool;
  access_token : string;
  expires_in : option Z;
  profile_id : string
}.

(** [gapi.auth2.getAuthInstance()], when it is not null: what its [signIn]
    and its [signOut] come to *)
Record AuthInstance : Type := {
  signIn : Eff.result GoogleUser;
  signOut : Eff.result unit
}.

(** The [auth2] side of the global [gapi]; whether [gapi] is there at all is
    [loaded (gapi w)] *)
Record Auth2 : Type := {
  (** [gapi.load('auth2', ...)]: [None] when it succeeds, the rejection
      otherwise *)
  load_rejects : option JS.value;
  (** [gapi.auth2.init(...)], likewise *)
  init_rejects : option JS.value;
  getAuthInstance : option AuthInstance
}.

(** The state of the Google functions: the world and the module variable
    [isGoogleApiInitialized] *)
Definition GState : Type := (World * bool)%type.





(** [signOutFromGoogle()] *)
Definition signOutFromGoogle (g : Auth2) : Eff.M GState unit :=
  Eff.try_catch
    (Eff.on_fst AuthService.signOut ;;;
     initialized <- Eff.gets (fun st : GState => snd st) ;;
     is_loaded <- Eff.gets (fun st : GState => loaded (gapi (fst st))) ;;
     if initialized && is_loaded then
       match getAuthInstance g with
       | Some authInstance => (fun st => (signOut authInstance, st))
       | None => Eff.ret tt
       end
     else Eff.ret tt)%eff
    (fun _ => Eff.ret tt).

(** The session that [signInWithToken] builds from [payload], [e] being its
    [expiresAt] *)
Definition signed_in (payload : AuthService.SignInPayload) (e : option JSDate.Date)
  : UserSession.t :=
  {| UserSession.userId := AuthService.userId payload;
     UserSession.provider :=
       Some (match AuthService.provider payload with Some p => p | None => "token" end);
     UserSession.accessToken := Some (AuthService.accessToken payload);
     UserSession.refreshToken := AuthService.refreshToken payload;
     UserSession.expiresAt := e |}.

(** The world once session [s] is the current one and was offered to the
    store *)
Definition signed_in_world (s : UserSession.t) (w : World) : World :=
  match localStorage w with
  | Unavailable _ => set_currentSession s w
  | Items l =>
      set_localStorage
        (Items ((AuthService.STORAGE_KEY, JSON_stringify (AuthService.session_payload s))
                  :: remove_key AuthService.STORAGE_KEY l))
        (set_currentSession s w)
  end.

(** The session after [clear()] *)
Definition cleared : UserSession.t :=
  {| UserSession.userId := None; UserSession.provider := None;
     UserSession.accessToken := None; UserSession.refreshToken := None;
     UserSession.expiresAt := None |}.

End AuthGoogle.

(** ** [components/PanelManager.vue] *)

Module PanelManager.
Import Sys.

(** The refs of [setup()] that the handlers read and write *)
Record State : Type := {
  showResults : bool;
  showSchema : bool;
  showSettings : bool;
  showKeyboardHelp : bool;
  query : string;
  queryResults : list row;
  isExecutingQuery : bool
}.

Definition initial : State :=
  {| showResults := false; showSchema := false; showSettings := false;
     showKeyboardHelp := false; query := ""; queryResults := [];
     isExecutingQuery := false |}.

Definition toggleResults (s : State) : State :=
  {| showResults := negb (showResults s); showSchema := showSchema s;
     showSettings := showSettings s; showKeyboardHelp := showKeyboardHelp s;
     query := query s; queryResults := queryResults s;
     isExecutingQuery := isExecutingQuery s |}.

Definition toggleSchema (s : State) : State :=
  {| showResults := showResults s; showSchema := negb (showSchema s);
     showSettings := showSettings s; showKeyboardHelp := showKeyboardHelp s;
     query := query s; queryResults := queryResults s;
     isExecutingQuery := isExecutingQuery s |}.

Definition toggleSettings (s : State) : State :=
  {| showResults := showResults s; showSchema := showSchema s;
     showSettings := negb (showSettings s); showKeyboardHelp := showKeyboardHelp s;
     query := query s; queryResults := queryResults s;
     isExecutingQuery := isExecutingQuery s |}.

Definition toggleKeyboardHelp (s : State) : State :=
  {| showResults := showResults s; showSchema := showSchema s;
     showSettings := showSettings s; showKeyboardHelp := negb (showKeyboardHelp s);
     query := query s; queryResults := queryResults s;
     isExecutingQuery := isExecutingQuery s |}.

Definition closeAllPanels (s : State) : State :=
  {| showResults := false; showSchema := false; showSettings := false;
     showKeyboardHelp := false; query := query s; queryResults := queryResults s;
     isExecutingQuery := isExecutingQuery s |}.

Definition set_showResults (b : bool) (s : State) : State :=
  {| showResults := b; showSchema := showSchema s;
     showSettings := showSettings s; showKeyboardHelp := showKeyboardHelp s;
     query := query s; queryResults := queryResults s;
     isExecutingQuery := isExecutingQuery s |}.

Definition set_queryResults (r : list row) (s : State) : State :=
  {| showResults := showResults s; showSchema := showSchema s;
     showSettings := showSettings s; showKeyboardHelp := showKeyboardHelp s;
     query := query s; queryResults := r;
     isExecutingQuery := isExecutingQuery s |}.

Definition set_isExecutingQuery (b : bool) (s : State) : State :=
  {| showResults := showResults s; showSchema := showSchema s;
     showSettings := showSettings s; showKeyboardHelp := showKeyboardHelp s;
     query := query s; queryResults := queryResults s;
     isExecutingQuery := b |}.

(** The rows that [handleExecuteQuery] shows *)
Definition sample_results : list row :=
  [ [("id", JS.VNumber 1); ("name", JS.VString "Sample Result 1")];
    [("id", JS.VNumber 2); ("name", JS.VString "Sample Result 2")] ].

(** Where a call of [handleExecuteQuery] stands when it gives control back:
    it has returned, or it waits for its one-second timer *)
Inductive progress : Type := Returned | AwaitingTimer.

(** [handleExecuteQuery()] up to its [await] *)
Definition handleExecuteQuery_begin (s : State) : State * progress :=
  if JS.blank (query s) then (s, Returned)
  else (set_showResults true (set_isExecutingQuery true s), AwaitingTimer).

(** [handleExecuteQuery()] from its [await] on: the [try] block continues
    when the awaited promise is fulfilled ([Eff.Ok]), the [catch] block runs
    when it is rejected, and the [finally] block runs after either *)
Definition handleExecuteQuery_resume (awaited : Eff.result unit) : Eff.M State unit :=
  Eff.finally
    (Eff.try_catch
       (fun s =>
          match awaited with
          | Eff.Ok _ => (Eff.Ok tt, set_queryResults sample_results s)
          | Eff.Throw e => (Eff.Throw e, s)
          end)
       (fun _ => Eff.modify (set_queryResults [])))
    (set_isExecutingQuery false).

(** A whole run of [handleExecuteQuery()], nothing else happening while it
    waits: the timer's promise is always fulfilled *)
Definition handleExecuteQuery (s : State) : State :=
  match handleExecuteQuery_begin s with
  | (s', Returned) => s'
  | (s', AwaitingTimer) => snd (handleExecuteQuery_resume (Eff.Ok tt) s')
  end.

(** A [KeyboardEvent], as far as a chord goes: the key and the four modifier
    flags.  The handler reads [key] and [ctrlKey]; it never looks at
    [shiftKey], [altKey] or [metaKey]. *)
Record KeyboardEvent : Type := {
  key : string;
  ctrlKey : bool;
  shiftKey : bool;
  altKey : bool;
  metaKey : bool
}.

(** What [onKeydown] leaves: the state, whether [preventDefault] was called,
    and whether a run of [handleExecuteQuery] was started and now waits *)
Record Handled : Type := {
  state : State;
  defaultPrevented : bool;
  started : progress
}.

(** [onKeydown(e)] *)
Definition onKeydown (e : KeyboardEvent) (s : State) : Handled :=
  if ctrlKey e then
    if (key e =? "r")%string then
      {| state := toggleResults s; defaultPrevented := true; started := Returned |}
    else if (key e =? "s")%string then
      {| state := toggleSchema s; defaultPrevented := true; started := Returned |}
    else if (key e =? ",")%string then
      {| state := toggleSettings s; defaultPrevented := true; started := Returned |}
    else if (key e =? "e")%string then
      let '(s', p) := handleExecuteQuery_begin s in
      {| state := s'; defaultPrevented := true; started := p |}
    else if (key e =? "/")%string then
      {| state := toggleKeyboardHelp s; defaultPrevented := true; started := Returned |}
    else {| state := s; defaultPrevented := false; started := Returned |}
  else if (key e =? "Escape")%string then
    {| state := closeAllPanels s; defaultPrevented := true; started := Returned |}
  else {| state := s; defaultPrevented := false; started := Returned |}.

(** The four visibility flags, and the rest of the state *)
Definition flags (s : State) : bool * bool * bool * bool :=
  (showResults s, showSchema s, showSettings s, showKeyboardHelp s).

Definition data (s : State) : string * list row * bool :=
  (query s, queryResults s, isExecutingQuery s).

(** The chords of the specified transition table, read to the letter: Ctrl,
    and no other modifier, with one of r, s, comma, e, slash; and Escape with
    no modifier at all.  (This one is written from the table of the
    specification, to compare the handler with.) *)
Definition table_chord (e : KeyboardEvent) : Prop :=
  shiftKey e = false /\ altKey e = false /\ metaKey e = false
  /\ ((ctrlKey e = true /\ In (key e) ["r"; "s"; ","; "e"; "/"])
      \/ (ctrlKey e = false /\ key e = "Escape")).

(** The events the handler acts on: those with Ctrl and one of its five
    keys, and those without Ctrl whose key is Escape, whatever Shift, Alt and
    Meta are *)
Definition handled (e : KeyboardEvent) : Prop :=
  (ctrlKey e = true /\ In (key e) ["r"; "s"; ","; "e"; "/"])
  \/ (ctrlKey e = false /\ key e = "Escape").

End PanelManager.

(** Linear arithmetic with division and remainder by constants *)
Ltac dlia := Z.div_mod_to_equations; lia.

(** * Properties *)

(** ** Dates: [toISOString] followed by [new Date] *)

Section DateFacts.
Import JSDate.

Example iso_epoch : iso 0 = "1970-01-01T00:00:00.000Z".
Proof. reflexivity. Qed.

Example iso_before_epoch : iso (-1) = "1969-12-31T23:59:59.999Z".
Proof. reflexivity. Qed.

Example iso_leap_day : iso 951782400000 = "2000-02-29T00:00:00.000Z".
Proof. reflexivity. Qed.

Example iso_latest : iso maxTime = "+275760-09-13T00:00:00.000Z".
Proof. reflexivity. Qed.

Example iso_earliest : iso (- maxTime) = "-271821-04-20T00:00:00.000Z".
Proof. reflexivity. Qed.

Example parse_date_time : parse "2023-01-01T00:00:00.000Z" = ValidDate 1672531200000.
Proof. reflexivity. Qed.

Example parse_unrecognisable : parse "x" = InvalidDate.
Proof. reflexivity. Qed.

(** A digit character reads back as the digit it writes. *)
Lemma digit_val_digit n : digit_val (digit n) = Some (n mod 10).
Proof.
  unfold digit, digit_val.
  assert (H : 0 <= n mod 10 < 10) by (apply Z.mod_pos_bound; lia).
  rewrite nat_ascii_embedding by lia.
  replace ((48 <=? 48 + Z.to_nat (n mod 10))%nat && (48 + Z.to_nat (n mod 10) <=? 57)%nat) with true.
  - f_equal. lia.
  - symmetry. apply andb_true_iff. split; apply Nat.leb_le; lia.
Qed.

(** A digit character is not a sign. *)
Lemma digit_not_sign n c : (c = "+" \/ c = "-")%char -> Ascii.eqb (digit n) c = false.
Proof.
  intros Hc. apply Ascii.eqb_neq. intros E.
  assert (H : 0 <= n mod 10 < 10) by (apply Z.mod_pos_bound; lia).
  assert (N : nat_of_ascii (digit n) = (48 + Z.to_nat (n mod 10))%nat).
  { unfold digit. apply nat_ascii_embedding. lia. }
  rewrite E in N. destruct Hc; subst c; cbn in N; lia.
Qed.

(** Fixed-width fields read back as the numbers they write. *)
Lemma number_pad2 n : 0 <= n < 100 -> number (pad2 n) = Some n.
Proof.
  intros H. unfold number, pad2, number_from. rewrite !digit_val_digit. f_equal. dlia.
Qed.

Lemma number_pad3 n : 0 <= n < 1000 -> number (pad3 n) = Some n.
Proof.
  intros H. unfold number, pad3, pad2, number_from. rewrite !digit_val_digit. f_equal. dlia.
Qed.

Lemma number_pad4 n : 0 <= n < 10000 -> number (pad4 n) = Some n.
Proof.
  intros H. unfold number, pad4, pad3, pad2, number_from. rewrite !digit_val_digit. f_equal. dlia.
Qed.

Lemma number_pad6 n : 0 <= n < 1000000 -> number (pad6 n) = Some n.
Proof.
  intros H. unfold number, pad6, pad4, pad3, pad2, number_from. rewrite !digit_val_digit. f_equal. dlia.
Qed.

(** The calendar date of a day number has a month and a day in range, and
    [days_from_civil] takes it back to the day number. *)
Lemma civil_fields z :
  let '(y, m, d) := civil_from_days z in
  1 <= m <= 12 /\ 1 <= d <= 31 /\ days_from_civil y m d = z.
Proof.
  unfold civil_from_days, days_from_civil.
  set (z' := z + 719468).
  set (era := z' / 146097). set (doe := z' mod 146097).
  assert (Hdoe : 0 <= doe < 146097) by (apply Z.mod_pos_bound; lia).
  assert (Hz : z' = 146097 * era + doe) by (apply Z.div_mod; lia).
  set (yoe := (doe - doe / 1460 + doe / 36524 - doe / 146096) / 365).
  set (doy := doe - (365 * yoe + yoe / 4 - yoe / 100)).
  assert (Hyoe : 0 <= yoe <= 399) by (unfold yoe; dlia).
  assert (Hdoy : 0 <= doy <= 365) by (unfold doy, yoe; dlia).
  set (mp := (5 * doy + 2) / 153).
  assert (Hmp : 0 <= mp <= 11) by (unfold mp; dlia).
  set (d := doy - (153 * mp + 2) / 5 + 1).
  assert (Hd : 1 <= d <= 31) by (unfold d, mp; dlia).
  destruct (Z.ltb_spec mp 10).
  - destruct (Z.leb_spec (mp + 3) 2); [lia|].
    destruct (Z.ltb_spec 2 (mp + 3)); [|lia].
    replace (yoe + era * 400 + 0 - 0) with (yoe + era * 400) by lia.
    rewrite Z.div_add by lia. rewrite Z.mod_add by lia.
    rewrite Z.div_small, Z.mod_small by lia.
    replace (mp + 3 - 3) with mp by lia.
    repeat split; try lia; unfold d, doy; dlia.
  - destruct (Z.leb_spec (mp - 9) 2); [|lia].
    destruct (Z.ltb_spec 2 (mp - 9)); [lia|].
    replace (yoe + era * 400 + 1 - 1) with (yoe + era * 400) by lia.
    rewrite Z.div_add by lia. rewrite Z.mod_add by lia.
    rewrite Z.div_small, Z.mod_small by lia.
    replace (mp - 9 + 9) with mp by lia.
    repeat split; try lia; unfold d, doy; dlia.
Qed.

(** The year field reads back, in its four-digit and in its signed six-digit
    form. *)
Lemma parse_year_chars y tl :
  -1000000 < y < 1000000 ->
  parse_year (year_chars y ++ "-"%char :: tl) = Some (y, "-"%char :: tl).
Proof.
  intros Hy. unfold year_chars.
  destruct (Z.leb_spec 0 y) as [H0|H0]; cbn [andb].
  - destruct (Z.leb_spec y 9999) as [H1|H1].
    + unfold pad4 at 1. cbn [app]. unfold pad3 at 1. cbn [app]. unfold pad2 at 1. cbn [app].
      unfold parse_year.
      rewrite !digit_not_sign by auto. cbn [orb].
      change [digit (y / 1000); digit (y / 100); digit (y / 10); digit y] with (pad4 y).
      rewrite number_pad4 by lia. reflexivity.
    + unfold pad6, pad4, pad3, pad2. cbn [app]. unfold parse_year.
      cbn [Ascii.eqb Bool.eqb orb andb].
      change [digit (Z.abs y / 100000); digit (Z.abs y / 10000); digit (Z.abs y / 1000);
              digit (Z.abs y / 100); digit (Z.abs y / 10); digit (Z.abs y)] with (pad6 (Z.abs y)).
      rewrite number_pad6 by lia. f_equal. f_equal. lia.
  - unfold pad6, pad4, pad3, pad2. cbn [app]. unfold parse_year.
    cbn [Ascii.eqb Bool.eqb orb andb].
    change [digit (Z.abs y / 100000); digit (Z.abs y / 10000); digit (Z.abs y / 1000);
            digit (Z.abs y / 100); digit (Z.abs y / 10); digit (Z.abs y)] with (pad6 (Z.abs y)).
    rewrite number_pad6 by lia.
    destruct (Z.eqb_spec (Z.abs y) 0); [lia|]. f_equal. f_equal. lia.
Qed.

(** So does the rest of the date-time. *)
Lemma parse_rest_chars m d r :
  1 <= m <= 12 -> 1 <= d <= 31 -> 0 <= r < msPerDay ->
  parse_rest ("-"%char :: pad2 m ++ "-"%char :: pad2 d
    ++ "T"%char :: pad2 (r / 3600000) ++ ":"%char :: pad2 (r / 60000 mod 60)
    ++ ":"%char :: pad2 (r / 1000 mod 60) ++ "."%char :: pad3 (r mod 1000)
    ++ ["Z"%char]) = Some (m, d, r).
Proof.
  unfold msPerDay. intros Hm Hd Hr.
  unfold pad3 at 1. unfold pad2 at 1 2 3 4 5 6. cbn [app].
  unfold parse_rest. cbn [Ascii.eqb Bool.eqb andb].
  change [digit (m / 10); digit m] with (pad2 m).
  change [digit (d / 10); digit d] with (pad2 d).
  change [digit (r / 3600000 / 10); digit (r / 3600000)] with (pad2 (r / 3600000)).
  change [digit (r / 60000 mod 60 / 10); digit (r / 60000 mod 60)] with (pad2 (r / 60000 mod 60)).
  change [digit (r / 1000 mod 60 / 10); digit (r / 1000 mod 60)] with (pad2 (r / 1000 mod 60)).
  change [digit (r mod 1000 / 100); digit (r mod 1000 / 10); digit (r mod 1000)] with (pad3 (r mod 1000)).
  rewrite !number_pad2 by dlia. rewrite number_pad3 by dlia.
  assert (E : r / 3600000 * 3600000 + r / 60000 mod 60 * 60000 + r / 1000 mod 60 * 1000 + r mod 1000 = r) by dlia.
  rewrite E.
  replace (1 <=? m) with true by (symmetry; apply Z.leb_le; lia).
  replace (m <=? 12) with true by (symmetry; apply Z.leb_le; lia).
  replace (1 <=? d) with true by (symmetry; apply Z.leb_le; lia).
  replace (d <=? 31) with true by (symmetry; apply Z.leb_le; lia).
  replace (r / 60000 mod 60 <=? 59) with true by (symmetry; apply Z.leb_le; dlia).
  replace (r / 1000 mod 60 <=? 59) with true by (symmetry; apply Z.leb_le; dlia).
  replace (r <=? msPerDay) with true by (symmetry; apply Z.leb_le; unfold msPerDay; lia).
  reflexivity.
Qed.

(** The years of the days a date can hold fit six digits. *)
Lemma civil_year_bound z :
  -100000000 <= z <= 100000000 ->
  -1000000 < fst (fst (civil_from_days z)) < 1000000.
Proof.
  intros Hz. unfold civil_from_days. cbn [fst].
  set (z' := z + 719468).
  set (doe := z' mod 146097).
  set (yoe := (doe - doe / 1460 + doe / 36524 - doe / 146096) / 365).
  assert (Hyoe : 0 <= yoe <= 399) by (unfold yoe, doe; dlia).
  assert (He : -700 <= z' / 146097 <= 700) by (unfold z'; dlia).
  destruct (_ <=? 2); lia.
Qed.

(** A valid time value survives [toISOString] followed by [new Date]. *)
Lemma parse_iso t : Z.abs t <= maxTime -> parse (iso t) = ValidDate t.
Proof.
  intros Ht. unfold parse, iso. rewrite list_ascii_of_string_of_list_ascii.
  unfold iso_chars.
  assert (Hz : -100000000 <= t / msPerDay <= 100000000) by (unfold maxTime, msPerDay in *; dlia).
  pose proof (civil_year_bound _ Hz) as Hy.
  pose proof (civil_fields (t / msPerDay)) as Hc.
  destruct (civil_from_days (t / msPerDay)) as [[y m] d]. cbn [fst] in Hy.
  destruct Hc as (Hm & Hd & Hdays).
  rewrite parse_year_chars by exact Hy.
  assert (Hr : 0 <= t mod msPerDay < msPerDay) by (apply Z.mod_pos_bound; reflexivity).
  rewrite parse_rest_chars by assumption.
  rewrite Hdays.
  replace (t / msPerDay * msPerDay + t mod msPerDay) with t by (unfold msPerDay; dlia).
  unfold TimeClip. apply Z.leb_le in Ht. rewrite Ht. reflexivity.
Qed.

(** The text that [toISOString] writes is never empty (it is truthy). *)
Lemma iso_nonempty t : iso t <> "".
Proof.
  unfold iso, iso_chars. destruct (civil_from_days _) as [[y m] d].
  unfold year_chars. destruct (_ && _); cbn; discriminate.
Qed.
End DateFacts.

(** ** [UserSession.isAuthenticated] *)

Lemma nonempty_spec (o : option string) :
  UserSession.nonempty o = true <-> exists tok, o = Some tok /\ tok <> "".
Proof.
  destruct o as [tok|]; cbn.
  - rewrite negb_true_iff. split.
    + intros H. exists tok. split; [reflexivity|]. now apply String.eqb_neq.
    + intros (x & [= <-] & Hx). now apply String.eqb_neq.
  - split; [discriminate|]. intros (x & Hx & _). discriminate.
Qed.

(** C1, as amended: [isAuthenticated()] is true if and only if [accessToken]
    is a non-empty string (neither null nor the empty string) and [expiresAt]
    is null or is not before [now]; for a valid date that is
    [expiresAt >= now], so a session that expires at [now] exactly is still
    authenticated. *)
Theorem isAuthenticated_iff (s : UserSession.t) (now : Z) :
  UserSession.isAuthenticated s now = true <->
  (exists tok, UserSession.accessToken s = Some tok /\ tok <> "") /\
  match UserSession.expiresAt s with
  | None => True
  | Some (JSDate.ValidDate t) => t >= now
  | Some JSDate.InvalidDate => True
  end.
Proof.
  unfold UserSession.isAuthenticated. rewrite <- nonempty_spec.
  destruct (UserSession.nonempty (UserSession.accessToken s)); cbn [negb].
  - destruct (UserSession.expiresAt s) as [[t|]|]; cbn.
    + destruct (Z.ltb_spec t now) as [Hlt|Hge]; split; intros Ha;
        try discriminate; try tauto.
      * destruct Ha as [_ Ha]. lia.
      * split; [reflexivity | lia].
    + tauto.
    + tauto.
  - split; [discriminate | intros [H _]; discriminate].
Qed.

(** The boundary: a session that expires at [now] is authenticated at [now]
    and no longer one millisecond later. *)
Example isAuthenticated_boundary :
  let s := {| UserSession.userId := None; UserSession.provider := None;
              UserSession.accessToken := Some "tok";
              UserSession.refreshToken := None;
              UserSession.expiresAt := Some (JSDate.ValidDate 1700000000000) |} in
  UserSession.isAuthenticated s 1700000000000 = true
  /\ UserSession.isAuthenticated s 1700000000001 = false.
Proof. split; reflexivity. Qed.

(** C1, as stated, fails on a session whose access token is the empty
    string: the token is not null and there is no expiry, yet the session is
    not authenticated. *)
Lemma isAuthenticated_empty_token :
  let s := {| UserSession.userId := None; UserSession.provider := None;
              UserSession.accessToken := Some "";
              UserSession.refreshToken := None;
              UserSession.expiresAt := None |} in
  ~ (UserSession.isAuthenticated s 0 = true <->
     UserSession.accessToken s <> None /\
     (UserSession.expiresAt s = None \/
      exists t, UserSession.expiresAt s = Some (JSDate.ValidDate t) /\ t >= 0)).
Proof.
  cbn. intros [_ H]. discriminate H. split; [discriminate | now left].
Qed.

(** ** [Query.validate] *)

Section Validation.
Import Sys.

(** The values that [if (!v)] takes for missing: undefined, null, false, 0
    and the empty string. *)
Lemma truthy_spec (v : JS.value) :
  JS.truthy v = true <->
  ~ In v [JS.VUndefined; JS.VNull; JS.VBool false; JS.VNumber 0; JS.VString ""].
Proof.
  destruct v as [| |b|n|x|props|nm msg]; cbn.
  - split; [discriminate | intros H; exfalso; apply H; auto].
  - split; [discriminate | intros H; exfalso; apply H; auto].
  - destruct b.
    + split; [|reflexivity]. intros _ H.
      repeat (destruct H as [H|H]; [discriminate|]). exact H.
    + split; [discriminate | intros H; exfalso; apply H; auto].
  - destruct (Z.eqb_spec n 0) as [->|Hn]; cbn.
    + split; [discriminate | intros H; exfalso; apply H; auto 6].
    + split; [|reflexivity]. intros _ H.
      repeat (destruct H as [H|H]; [congruence|]). exact H.
  - destruct (String.eqb_spec x "") as [->|Hx]; cbn.
    + split; [discriminate | intros H; exfalso; apply H; auto 6].
    + split; [|reflexivity]. intros _ H.
      repeat (destruct H as [H|H]; [congruence|]). exact H.
  - split; [|reflexivity]. intros _ H.
    repeat (destruct H as [H|H]; [discriminate|]). exact H.
  - split; [|reflexivity]. intros _ H.
    repeat (destruct H as [H|H]; [discriminate|]). exact H.
Qed.

(** The second test of [validate] lets through the strings that are not
    empty, and nothing else. *)
Lemma nonempty_string_spec (v : JS.value) :
  negb (JS.truthy v) || negb (JS.typeof v =? "string")%string = false <->
  exists text, v = JS.VString text /\ text <> "".
Proof.
  destruct v as [| |b|n|x|props|nm msg]; cbn;
    try (split; [discriminate | intros (text & H & _); discriminate]).
  - rewrite orb_true_r. split; [discriminate | intros (text & H & _); discriminate].
  - rewrite orb_true_r. split; [discriminate | intros (text & H & _); discriminate].
  - rewrite orb_false_r, negb_involutive.
    destruct (String.eqb_spec x "") as [->|Hx].
    + split; [discriminate | intros (text & [= <-] & H); contradiction].
    + split; [eauto | reflexivity].
Qed.

(** On an instance that holds strings the two tests are tests of
    emptiness. *)
Lemma validate_strings (S : Type) (q : Query.t) (s : S) :
  Query.validate q s =
    match (Query.id q =? "")%string, (Query.sql q =? "")%string with
    | false, false => (Eff.Ok true, s)
    | true, false =>
        (Eff.Throw (Eff.Error "Query validation failed: id is required"), s)
    | false, true =>
        (Eff.Throw (Eff.Error "Query validation failed: sql is required"), s)
    | true, true =>
        (Eff.Throw (Eff.Error
           "Query validation failed: id is required, sql is required"), s)
    end.
Proof.
  unfold Query.validate, Query.held, Query.held_string. cbn [JS.truthy JS.typeof].
  rewrite !negb_involutive.
  replace ("string" =? "string")%string with true by reflexivity.
  cbn [negb]. rewrite orb_false_r.
  destruct (Query.id q =? "")%string, (Query.sql q =? "")%string; reflexivity.
Qed.

(** C3, as amended.  On every instance, whatever its [id] and [sql] hold,
    [validate()] takes [id] for missing when it is undefined, null, false, 0
    or the empty string, and [sql] for missing when it is anything but a
    string that is not empty.  It returns true when neither is missing, and
    otherwise throws the error whose message lists "id is required" and "sql
    is required" for the missing ones, in this order, joined by ", ".  On an
    instance that holds strings in both, as declared, this is: true when both
    are non-empty, and the messages for the empty ones. *)
Theorem validate_cases (S : Type) (s : S) :
  (forall q : Query.untyped,
     let id_missing :=
       In (Query.id q)
          [JS.VUndefined; JS.VNull; JS.VBool false; JS.VNumber 0; JS.VString ""] in
     let sql_missing := ~ exists text, Query.sql q = JS.VString text /\ text <> "" in
     (~ id_missing /\ ~ sql_missing /\ Query.validate q s = (Eff.Ok true, s))
     \/ (id_missing /\ ~ sql_missing /\
         Query.validate q s =
           (Eff.Throw (Eff.Error "Query validation failed: id is required"), s))
     \/ (~ id_missing /\ sql_missing /\
         Query.validate q s =
           (Eff.Throw (Eff.Error "Query validation failed: sql is required"), s))
     \/ (id_missing /\ sql_missing /\
         Query.validate q s =
           (Eff.Throw (Eff.Error
              "Query validation failed: id is required, sql is required"), s)))
  /\ (forall q : Query.t,
        (Query.id q <> "" /\ Query.sql q <> "" /\
         Query.validate q s = (Eff.Ok true, s))
        \/ (Query.id q = "" /\ Query.sql q <> "" /\
            Query.validate q s =
              (Eff.Throw (Eff.Error "Query validation failed: id is required"), s))
        \/ (Query.id q <> "" /\ Query.sql q = "" /\
            Query.validate q s =
              (Eff.Throw (Eff.Error "Query validation failed: sql is required"), s))
        \/ (Query.id q = "" /\ Query.sql q = "" /\
            Query.validate q s =
              (Eff.Throw (Eff.Error
                 "Query validation failed: id is required, sql is required"), s))).
Proof.
  split.
  - intros q. cbv zeta.
    pose proof (truthy_spec (Query.id q)) as Hid.
    pose proof (nonempty_string_spec (Query.sql q)) as Hsql.
    unfold Query.validate, Query.held, Query.held_value.
    destruct (JS.truthy (Query.id q)); cbn [negb] in *.
    + assert (Hi : ~ In (Query.id q)
                       [JS.VUndefined; JS.VNull; JS.VBool false; JS.VNumber 0;
                        JS.VString ""]) by now apply Hid.
      destruct (negb (JS.truthy (Query.sql q))
                || negb (JS.typeof (Query.sql q) =? "string")%string).
      * right; right; left. split; [exact Hi|]. split; [|reflexivity].
        intros H. apply Hsql in H. discriminate.
      * left. split; [exact Hi|]. split; [|reflexivity].
        intros H. apply H. now apply Hsql.
    + assert (Hi : In (Query.id q)
                     [JS.VUndefined; JS.VNull; JS.VBool false; JS.VNumber 0;
                      JS.VString ""]).
      { destruct (Query.id q) as [| |[|]|n|x| |]; cbn in *; auto;
          try (destruct Hid as [_ Hid]; discriminate Hid;
               intros H; repeat (destruct H as [H|H]; [discriminate|]); exact H).
        - destruct (Z.eqb_spec n 0) as [->|Hn]; [auto 6|].
          destruct Hid as [_ Hid]. discriminate Hid.
          intros H; repeat (destruct H as [H|H]; [congruence|]); exact H.
        - destruct (String.eqb_spec x "") as [->|Hx]; [auto 6|].
          destruct Hid as [_ Hid]. discriminate Hid.
          intros H; repeat (destruct H as [H|H]; [congruence|]); exact H. }
      destruct (negb (JS.truthy (Query.sql q))
                || negb (JS.typeof (Query.sql q) =? "string")%string).
      * right; right; right. split; [exact Hi|]. split; [|reflexivity].
        intros H. apply Hsql in H. discriminate.
      * right; left. split; [exact Hi|]. split; [|reflexivity].
        intros H. apply H. now apply Hsql.
  - intros q. rewrite validate_strings.
    destruct (String.eqb_spec (Query.id q) ""), (String.eqb_spec (Query.sql q) "").
    + right; right; right. auto.
    + right; left. auto.
    + right; right; left. auto.
    + left. auto.
Qed.

(** The instance of the model's own test, [new Query({ id: 'test', sql: null
    as any })], fails validation on [sql]. *)
Example validate_null_sql :
  exists q : Query.untyped,
    fst (Query.constructor
           {| Query.i_id := JS.VString "test"; Query.i_sql := JS.VNull;
              Query.i_name := None; Query.i_createdAt := None;
              Query.i_updatedAt := None; Query.i_status := None;
              Query.i_lastError := Query.Undefined |} sample_world) = Eff.Ok q
    /\ Query.validate q tt =
         (Eff.Throw (Eff.Error "Query validation failed: sql is required"), tt).
Proof. eexists. split; reflexivity. Qed.

(** A number for [sql], unlike one for [id], is refused. *)
Example validate_numeric_sql :
  exists q : Query.untyped,
    fst (Query.constructor
           {| Query.i_id := JS.VString "q1"; Query.i_sql := JS.VNumber 7;
              Query.i_name := None; Query.i_createdAt := None;
              Query.i_updatedAt := None; Query.i_status := None;
              Query.i_lastError := Query.Undefined |} sample_world) = Eff.Ok q
    /\ Query.validate q tt =
         (Eff.Throw (Eff.Error "Query validation failed: sql is required"), tt).
Proof. eexists. split; reflexivity. Qed.

(** C3, as stated, fails on an instance whose [id] is a number other than 0,
    as [new Query({ id: 7 as any, sql: 'SELECT 1' })] builds it: [id] is not a
    non-empty string, and [validate()] returns true all the same. *)
Lemma validate_numeric_id :
  exists q : Query.untyped,
    fst (Query.constructor
           {| Query.i_id := JS.VNumber 7; Query.i_sql := JS.VString "SELECT 1";
              Query.i_name := None; Query.i_createdAt := None;
              Query.i_updatedAt := None; Query.i_status := None;
              Query.i_lastError := Query.Undefined |} sample_world) = Eff.Ok q
    /\ Query.id q = JS.VNumber 7
    /\ Query.sql q = JS.VString "SELECT 1"
    /\ Query.validate q tt = (Eff.Ok true, tt)
    /\ ~ (Query.validate q tt = (Eff.Ok true, tt) <->
          (exists i, Query.id q = JS.VString i /\ i <> "")
          /\ (exists text, Query.sql q = JS.VString text /\ text <> "")).
Proof.
  eexists. split; [reflexivity|]. split; [reflexivity|]. split; [reflexivity|].
  split; [reflexivity|].
  cbn. intros [H _]. destruct (H eq_refl) as [(i & Hi & _) _]. discriminate Hi.
Qed.

End Validation.

(** ** [Panel] construction *)

(** C10: the constructor throws the invalid-payload [TypeError] exactly when
    the payload is null, undefined or not of object type; on any other
    payload, the empty object included, it succeeds and takes [id], [type]
    and [title] as they are (undefined when missing), [open] with true in
    place of null or undefined, and [order] when it is a number, 0
    otherwise. *)
Theorem Panel_constructor_spec (payload : JS.value) :
  (Panel.constructor payload = Eff.Throw (Eff.TypeError "Invalid Panel payload")
   <-> payload = JS.VUndefined \/ payload = JS.VNull \/ JS.typeof payload <> "object")
  /\ (~ (payload = JS.VUndefined \/ payload = JS.VNull \/ JS.typeof payload <> "object") ->
      exists p,
        Panel.constructor payload = Eff.Ok p
        /\ Panel.id p = JS.get payload "id"
        /\ Panel.type p = JS.get payload "type"
        /\ Panel.title p = JS.get payload "title"
        /\ Panel.open p =
             match JS.get payload "open" with
             | JS.VUndefined | JS.VNull => JS.VBool true
             | v => v
             end
        /\ Panel.order p =
             match JS.get payload "order" with
             | JS.VNumber n => n
             | _ => 0
             end)
  /\ Panel.constructor (JS.VObject []) =
       Eff.Ok {| Panel.id := JS.VUndefined; Panel.type := JS.VUndefined;
                 Panel.title := JS.VUndefined; Panel.open := JS.VBool true;
                 Panel.order := 0 |}.
Proof.
  split; [|split].
  - unfold Panel.constructor, Panel.is_object.
    destruct payload as [| |b|n|s|props|nm msg]; cbn [JS.truthy JS.typeof].
    + split; auto.
    + split; auto.
    + replace ("boolean" =? "object")%string with false by reflexivity.
      rewrite orb_true_r. split; auto. intros _. right; right. discriminate.
    + replace ("number" =? "object")%string with false by reflexivity.
      rewrite orb_true_r. split; auto. intros _. right; right. discriminate.
    + replace ("string" =? "object")%string with false by reflexivity.
      rewrite orb_true_r. split; auto. intros _. right; right. discriminate.
    + cbn. split; [discriminate|]. intros [H|[H|H]]; try discriminate. now elim H.
    + cbn. split; [discriminate|]. intros [H|[H|H]]; try discriminate. now elim H.
  - intros H.
    destruct payload as [| |b|n|s|props|nm msg];
      try (exfalso; apply H; auto; right; right; discriminate).
    + eexists. split; [reflexivity|]. cbn.
      repeat split. unfold JS.nullish_or.
      destruct (match JS.assoc "open" props with Some x => x | None => JS.VUndefined end);
        reflexivity.
    + eexists. split; [reflexivity|]. cbn. repeat split.
  - reflexivity.
Qed.

(** C10 at work: a payload that gives only [id], [type] and a textual
    [order]. *)
Lemma Panel_constructor_spec_witness :
  let payload := JS.VObject [("id", JS.VString "p1"); ("type", JS.VString "results");
                             ("order", JS.VString "3")] in
  exists p,
    Panel.constructor payload = Eff.Ok p
    /\ Panel.id p = JS.VString "p1"
    /\ Panel.type p = JS.VString "results"
    /\ Panel.title p = JS.VUndefined
    /\ Panel.open p = JS.VBool true
    /\ Panel.order p = 0.
Proof.
  intros payload.
  apply (proj1 (proj2 (Panel_constructor_spec payload))).
  intros [H|[H|H]]; try discriminate. now apply H.
Defined.

(** ** The keyboard handler of the panel manager *)

Section Keyboard.
Import PanelManager.

(** C7, as amended.  The handler looks at the key and at the Ctrl flag of the
    event, and at nothing else of it.  From every state, with Ctrl: the key r
    negates [resultsOpen] and nothing else, s [schemaOpen], the comma
    [settingsOpen], the slash [helpOpen], and e calls the execution routine,
    which changes nothing when the query text is blank and otherwise sets
    [isExecuting], opens the results panel and starts one run.  Without Ctrl
    the key Escape sets the four flags to false and leaves the rest, whether
    or not Shift, Alt or Meta is held.  Each of these suppresses the default
    handling.  Any other event changes nothing and suppresses nothing.  The
    chords of the specified table are among the events so handled. *)
Theorem onKeydown_table (s : State) (e : KeyboardEvent) :
  let h := onKeydown e s in
  let r := showResults s in
  let c := showSchema s in
  let g := showSettings s in
  let p := showKeyboardHelp s in
  (ctrlKey e = true ->
   (key e = "r" ->
    flags (state h) = (negb r, c, g, p) /\ data (state h) = data s
    /\ defaultPrevented h = true /\ started h = Returned)
   /\ (key e = "s" ->
       flags (state h) = (r, negb c, g, p) /\ data (state h) = data s
       /\ defaultPrevented h = true /\ started h = Returned)
   /\ (key e = "," ->
       flags (state h) = (r, c, negb g, p) /\ data (state h) = data s
       /\ defaultPrevented h = true /\ started h = Returned)
   /\ (key e = "/" ->
       flags (state h) = (r, c, g, negb p) /\ data (state h) = data s
       /\ defaultPrevented h = true /\ started h = Returned)
   /\ (key e = "e" ->
       defaultPrevented h = true
       /\ (JS.blank (query s) = true -> state h = s /\ started h = Returned)
       /\ (JS.blank (query s) = false ->
           flags (state h) = (true, c, g, p)
           /\ data (state h) = (query s, queryResults s, true)
           /\ started h = AwaitingTimer)))
  /\ (ctrlKey e = false -> key e = "Escape" ->
      flags (state h) = (false, false, false, false) /\ data (state h) = data s
      /\ defaultPrevented h = true /\ started h = Returned)
  /\ (~ handled e ->
      h = {| state := s; defaultPrevented := false; started := Returned |})
  /\ (table_chord e -> handled e).
Proof.
  destruct e as [k ctrl sh al me]. cbv zeta. unfold onKeydown. cbn [key ctrlKey].
  split; [|split; [|split]].
  - intros ->. split; [|split; [|split; [|split]]]; intros ->;
      try (repeat split; fail).
    replace ("e" =? "r")%string with false by reflexivity.
    replace ("e" =? "s")%string with false by reflexivity.
    replace ("e" =? ",")%string with false by reflexivity.
    replace ("e" =? "e")%string with true by reflexivity.
    unfold handleExecuteQuery_begin.
    destruct (JS.blank (query s)); cbn; repeat split; intros; try discriminate;
      reflexivity.
  - intros -> ->. repeat split.
  - intros He. unfold handled in He. cbn [key ctrlKey] in He.
    destruct ctrl.
    + destruct (String.eqb_spec k "r") as [->|_]; [exfalso; apply He; left; cbn; auto|].
      destruct (String.eqb_spec k "s") as [->|_]; [exfalso; apply He; left; cbn; auto|].
      destruct (String.eqb_spec k ",") as [->|_]; [exfalso; apply He; left; cbn; auto|].
      destruct (String.eqb_spec k "e") as [->|_]; [exfalso; apply He; left; cbn; auto 10|].
      destruct (String.eqb_spec k "/") as [->|_]; [exfalso; apply He; left; cbn; auto 10|].
      reflexivity.
    + destruct (String.eqb_spec k "Escape") as [->|_]; [exfalso; apply He; right; auto|].
      reflexivity.
  - unfold table_chord, handled. tauto.
Qed.

(** C7 at work: Ctrl+Q with the results and help panels open changes
    nothing. *)
Lemma onKeydown_table_witness :
  let s := {| showResults := true; showSchema := false;
              showSettings := false; showKeyboardHelp := true;
              query := "SELECT 1"; queryResults := [];
              isExecutingQuery := false |} in
  let e := {| key := "q"; ctrlKey := true; shiftKey := false; altKey := false;
              metaKey := false |} in
  onKeydown e s = {| state := s; defaultPrevented := false; started := Returned |}.
Proof.
  intros s e.
  apply (proj1 (proj2 (proj2 (onKeydown_table s e)))).
  unfold handled. cbn.
  intros [[_ H]|[H _]]; [|discriminate].
  repeat (destruct H as [H|H]; [discriminate|]). exact H.
Defined.

(** C7, as stated, fails on Shift+Escape, which is not Escape with no
    modifier and so no chord of the table: the handler closes every panel
    and suppresses the default handling all the same.  Likewise Ctrl+Alt+R
    toggles the results panel. *)
Lemma onKeydown_shift_escape :
  let s := {| showResults := true; showSchema := false;
              showSettings := false; showKeyboardHelp := true;
              query := "SELECT 1"; queryResults := [];
              isExecutingQuery := false |} in
  let shift_escape := {| key := "Escape"; ctrlKey := false; shiftKey := true;
                         altKey := false; metaKey := false |} in
  let ctrl_alt_r := {| key := "r"; ctrlKey := true; shiftKey := false;
                       altKey := true; metaKey := false |} in
  (~ table_chord shift_escape
   /\ flags (state (onKeydown shift_escape s)) = (false, false, false, false)
   /\ state (onKeydown shift_escape s) <> s
   /\ defaultPrevented (onKeydown shift_escape s) = true)
  /\ (~ table_chord ctrl_alt_r
      /\ showResults (state (onKeydown ctrl_alt_r s)) = false
      /\ state (onKeydown ctrl_alt_r s) <> s
      /\ defaultPrevented (onKeydown ctrl_alt_r s) = true).
Proof.
  cbv zeta. unfold table_chord. cbn. repeat split; try discriminate.
  - intros (H & _). discriminate H.
  - intros (_ & H & _). discriminate H.
Qed.

End Keyboard.

(** ** [Query]: [toJSON] followed by [fromJSON] *)

Lemma toISOString_valid (S : Type) (d : JSDate.Date) (s : S) :
  JSDate.valid d ->
  exists t, d = JSDate.ValidDate t /\ Z.abs t <= JSDate.maxTime
            /\ toISOString d s = (Eff.Ok (JSDate.iso t), s).
Proof.
  intros (t & -> & Ht). exists t. repeat split. exact Ht.
Qed.

Lemma date_field_iso (t : Z) :
  Z.abs t <= JSDate.maxTime ->
  Query.date_field (Some (JSDate.iso t)) = Some (JSDate.ValidDate t).
Proof.
  intros Ht. unfold Query.date_field.
  destruct (String.eqb_spec (JSDate.iso t) "") as [E|_].
  - now apply iso_nonempty in E.
  - now rewrite parse_iso.
Qed.

Lemma or_null_idem (A : Type) (x : Query.nullable A) :
  Query.or_null (Query.or_null x) = Query.or_null x.
Proof. now destruct x. Qed.

Lemma fromJSON_lastError (json : option Query.QueryPayload) (w w' : Sys.World) (q : Query.t) :
  Query.fromJSON json w = (Eff.Ok q, w') ->
  Query.or_null (Query.lastError q) = Query.lastError q.
Proof.
  unfold Query.fromJSON. destruct json as [j|]; [|discriminate].
  destruct (Query.p_id j); try discriminate.
  destruct (Query.p_sql j); try discriminate.
  unfold Query.constructor, Eff.bind, Eff.ret, Query.or_now, Sys.Date_new, Sys.Date_now; cbn.
  destruct (Query.date_field (Query.p_createdAt j)),
           (Query.date_field (Query.p_updatedAt j)); cbn;
    intros [= <- _]; cbn; now rewrite !or_null_idem.
Qed.

(** C2, as amended: for a Query [q] that [fromJSON] built from a payload and
    whose [createdAt] and [updatedAt] are valid dates, [fromJSON(q.toJSON())]
    gives back a Query equal to [q] in every field, without reading the
    clock; when [lastError] is null it is null in the payload that [toJSON]
    writes, so it is null again after the round trip. *)
Theorem Query_roundtrip
    (json : option Query.QueryPayload) (w w' : Sys.World) (q : Query.t) :
  Query.fromJSON json w = (Eff.Ok q, w') ->
  JSDate.valid (Query.createdAt q) ->
  JSDate.valid (Query.updatedAt q) ->
  forall w1 : Sys.World,
    (j <- Query.toJSON q ;; Query.fromJSON (Some j))%eff w1 = (Eff.Ok q, w1)
    /\ exists j, Query.toJSON q w1 = (Eff.Ok j, w1)
                 /\ (Query.lastError q = Query.Null -> Query.p_lastError j = Query.Null).
Proof.
  intros Hq Hc Hu w1.
  pose proof (fromJSON_lastError _ _ _ _ Hq) as Hl.
  destruct (toISOString_valid Sys.World _ w1 Hc) as (tc & Ec & Htc & Hic).
  destruct (toISOString_valid Sys.World _ w1 Hu) as (tu & Eu & Htu & Hiu).
  assert (Hj : Query.toJSON q w1 =
    (Eff.Ok {| Query.p_id := JS.VString (Query.id q);
               Query.p_sql := JS.VString (Query.sql q);
               Query.p_name := Query.name q;
               Query.p_createdAt := Some (JSDate.iso tc);
               Query.p_updatedAt := Some (JSDate.iso tu);
               Query.p_status := Some (Query.status q);
               Query.p_lastError := Query.or_null (Query.lastError q) |}, w1)).
  { unfold Query.toJSON, Eff.bind. rewrite Hic, Hiu. reflexivity. }
  split.
  - unfold Eff.bind at 1. rewrite Hj.
    unfold Query.fromJSON. cbn [Query.p_id Query.p_sql Query.p_name Query.p_createdAt
      Query.p_updatedAt Query.p_status Query.p_lastError].
    rewrite !date_field_iso by assumption.
    unfold Query.constructor, Eff.bind, Eff.ret, Query.or_now. cbn.
    rewrite !or_null_idem, Hl, <- Ec, <- Eu. destruct q; reflexivity.
  - eexists. split; [exact Hj|]. cbn. intros ->. reflexivity.
Qed.

(** C2 at work, on the payload of a failed query with an explicit null
    [lastError]. *)
Lemma Query_roundtrip_witness :
  let p := {| Query.p_id := JS.VString "q1"; Query.p_sql := JS.VString "SELECT 1";
              Query.p_name := Some "first";
              Query.p_createdAt := Some "2023-01-01T00:00:00.000Z";
              Query.p_updatedAt := None;
              Query.p_status := Some Query.failed;
              Query.p_lastError := Query.Null |} in
  let q := {| Query.id := "q1"; Query.sql := "SELECT 1"; Query.name := Some "first";
              Query.createdAt := JSDate.ValidDate 1672531200000;
              Query.updatedAt := JSDate.ValidDate 1700000000000;
              Query.status := Query.failed;
              Query.lastError := Query.Null |} in
  fst (Query.fromJSON (Some p) Sys.sample_world) = Eff.Ok q
  /\ (j <- Query.toJSON q ;; Query.fromJSON (Some j))%eff Sys.sample_world
     = (Eff.Ok q, Sys.sample_world).
Proof.
  intros p q. split; [reflexivity|].
  refine (proj1 (Query_roundtrip (Some p) Sys.sample_world
                   (Sys.set_tick 1 Sys.sample_world) q _ _ _ Sys.sample_world)).
  - reflexivity.
  - exists 1672531200000. split; [reflexivity | unfold JSDate.maxTime; cbn; lia].
  - exists 1700000000000. split; [reflexivity | unfold JSDate.maxTime; cbn; lia].
Defined.

(** C2, as stated, fails on a payload with string [id] and [sql] whose
    [createdAt] is not a date: [fromJSON] builds a Query with an invalid
    date, and [toJSON] on that Query throws instead of returning a payload. *)
Lemma Query_roundtrip_invalid_date :
  let p := {| Query.p_id := JS.VString "q1"; Query.p_sql := JS.VString "SELECT 1";
              Query.p_name := None;
              Query.p_createdAt := Some "x";
              Query.p_updatedAt := None;
              Query.p_status := None;
              Query.p_lastError := Query.Null |} in
  exists q,
    fst (Query.fromJSON (Some p) Sys.sample_world) = Eff.Ok q
    /\ fst ((j <- Query.toJSON q ;; Query.fromJSON (Some j))%eff Sys.sample_world)
       = Eff.Throw (Eff.RangeError "Invalid time value")
    /\ fst ((j <- Query.toJSON q ;; Query.fromJSON (Some j))%eff Sys.sample_world)
       <> Eff.Ok q.
Proof.
  eexists. split; [reflexivity|]. split; [reflexivity | discriminate].
Qed.

(** ** [signInWithToken] *)

Lemma saveToStorage_spec (s : UserSession.t) (w : Sys.World) :
  match UserSession.expiresAt s with
  | Some JSDate.InvalidDate => False
  | _ => True
  end ->
  AuthService.saveToStorage s w =
    (Eff.Ok tt,
     match Sys.localStorage w with
     | Sys.Unavailable _ => w
     | Sys.Items l =>
         Sys.set_localStorage
           (Sys.Items ((AuthService.STORAGE_KEY,
                        Sys.JSON_stringify (AuthService.session_payload s))
                         :: Sys.remove_key AuthService.STORAGE_KEY l)) w
     end).
Proof.
  intros Hv.
  unfold AuthService.saveToStorage, Eff.try_catch, Eff.bind, UserSession.toJSON,
    AuthService.session_payload, Sys.setItem.
  destruct (UserSession.expiresAt s) as [[t|]|]; [| contradiction |];
    cbn; destruct (Sys.localStorage w); reflexivity.
Qed.

(** C9, as amended: [signInWithToken] builds the session with [provider]
    defaulting to "token", [userId] and [refreshToken] to null, and
    [expiresAt] equal to now + [expiresIn] seconds when [expiresIn] is given
    and is not 0 (that instant being a time value a date can hold), null when
    [expiresIn] is absent, null or 0.  The session becomes the current one and
    is returned; it is written to the store under the fixed key when the
    store takes it, and a store that throws does not make the call fail. *)
Theorem signInWithToken_spec (payload : AuthService.SignInPayload) (w : Sys.World) :
  (forall n, AuthService.expiresIn payload = Some n -> n <> 0 ->
             Z.abs (Sys.clock w (Sys.tick w) + n * 1000) <= JSDate.maxTime) ->
  let s :=
    {| UserSession.userId := AuthService.userId payload;
       UserSession.provider :=
         Some (match AuthService.provider payload with Some p => p | None => "token" end);
       UserSession.accessToken := Some (AuthService.accessToken payload);
       UserSession.refreshToken := AuthService.refreshToken payload;
       UserSession.expiresAt :=
         match AuthService.expiresIn payload with
         | Some n =>
             if n =? 0 then None
             else Some (JSDate.ValidDate (Sys.clock w (Sys.tick w) + n * 1000))
         | None => None
         end |} in
  exists w',
    AuthService.signInWithToken payload w = (Eff.Ok s, w')
    /\ Sys.currentSession w' = s
    /\ Sys.localStorage w' =
         match Sys.localStorage w with
         | Sys.Unavailable e => Sys.Unavailable e
         | Sys.Items l =>
             Sys.Items ((AuthService.STORAGE_KEY, Sys.JSON_stringify (AuthService.session_payload s))
                          :: Sys.remove_key AuthService.STORAGE_KEY l)
         end.
Proof.
  intros Hrange s.
  assert (Hs : AuthService.signInWithToken payload w =
               (Eff.bind (Eff.modify (Sys.set_currentSession s))
                  (fun _ => Eff.bind (AuthService.saveToStorage s) (fun _ => Eff.ret s)))
                 (Sys.set_tick (if AuthService.given (AuthService.expiresIn payload)
                                then S (Sys.tick w) else Sys.tick w) w)).
  { subst s. unfold AuthService.signInWithToken, AuthService.given.
    destruct (AuthService.expiresIn payload) as [n|].
    - destruct (Z.eqb_spec n 0) as [->|Hn]; cbn [negb].
      + destruct w; reflexivity.
      + specialize (Hrange n eq_refl Hn).
        unfold Eff.bind at 1 2. unfold Sys.Date_now at 1. cbn [Eff.ret].
        unfold JSDate.TimeClip. apply Z.leb_le in Hrange. rewrite Hrange.
        apply Z.leb_le in Hrange.
        unfold Eff.bind at 1 2. cbn [toISOString Eff.ret].
        unfold UserSession.constructor. cbn [UserSession.p_expiresAt UserSession.p_userId
          UserSession.p_provider UserSession.p_accessToken UserSession.p_refreshToken].
        replace (UserSession.nonempty (Some (JSDate.iso (Sys.clock w (Sys.tick w) + n * 1000))))
          with true.
        2:{ symmetry. apply nonempty_spec. eexists. split; [reflexivity | apply iso_nonempty]. }
        rewrite parse_iso by exact Hrange. reflexivity.
    - destruct w; reflexivity. }
  rewrite Hs. clear Hs.
  assert (Hv : match UserSession.expiresAt s with
               | Some JSDate.InvalidDate => False
               | _ => True
               end).
  { subst s. cbn. destruct (AuthService.expiresIn payload) as [n|]; [|exact I].
    destruct (n =? 0); exact I. }
  unfold Eff.bind, Eff.modify, Eff.ret.
  rewrite (saveToStorage_spec s _ Hv). cbn [Sys.localStorage Sys.set_currentSession Sys.set_tick].
  destruct (Sys.localStorage w) eqn:E; eexists; (split; [reflexivity|]);
    split; cbn; try reflexivity; exact E.
Qed.

(** C9 at work: a Google sign-in that expires in an hour, with a store that
    throws on every access. *)
Lemma signInWithToken_spec_witness :
  let payload := {| AuthService.provider := Some "google";
                    AuthService.userId := Some "u1";
                    AuthService.accessToken := "ya29";
                    AuthService.refreshToken := None;
                    AuthService.expiresIn := Some 3600 |} in
  let w := Sys.set_localStorage (Sys.Unavailable (Eff.Error "denied")) Sys.sample_world in
  exists w',
    AuthService.signInWithToken payload w =
      (Eff.Ok {| UserSession.userId := Some "u1";
                 UserSession.provider := Some "google";
                 UserSession.accessToken := Some "ya29";
                 UserSession.refreshToken := None;
                 UserSession.expiresAt := Some (JSDate.ValidDate 1700003600000) |}, w').
Proof.
  intros payload w.
  destruct (signInWithToken_spec payload w) as (w' & H & _).
  - intros n [= <-] _. unfold JSDate.maxTime. cbn. lia.
  - exists w'. exact H.
Defined.

(** C9, as stated, fails when [expiresIn] is given as 0: [expiresAt] is null,
    not the instant of the call. *)
Lemma signInWithToken_expiresIn_zero :
  let payload := {| AuthService.provider := None;
                    AuthService.userId := None;
                    AuthService.accessToken := "t";
                    AuthService.refreshToken := None;
                    AuthService.expiresIn := Some 0 |} in
  let now := Sys.clock Sys.sample_world (Sys.tick Sys.sample_world) in
  exists s,
    fst (AuthService.signInWithToken payload Sys.sample_world) = Eff.Ok s
    /\ UserSession.expiresAt s = None
    /\ UserSession.expiresAt s <> Some (JSDate.ValidDate (now + 0 * 1000)).
Proof.
  eexists. split; [reflexivity|]. split; [reflexivity | discriminate].
Qed.

(** ** [executeQuery] *)

Section ExecuteQuery.
Import Sys QueryService.

Example isSelect_examples :
  isSelect "  select 1" = true /\ isSelect "SeLeCt*" = true
  /\ isSelect "selects" = false /\ isSelect "DROP TABLE x" = false
  /\ isSelect "-- select" = false.
Proof. repeat split. Qed.

Example from_numbers_examples :
  from_numbers "SELECT * FROM numbers" = true
  /\ from_numbers "select n from   NUMBERS where n > 1" = true
  /\ from_numbers "select fromnumbers" = false
  /\ from_numbers "select * from t" = false.
Proof. repeat split. Qed.

Lemma set_tick_same (w : World) : set_tick (tick w) w = w.
Proof. now destruct w. Qed.

Lemma set_tick_twice (n m : nat) (w : World) : set_tick n (set_tick m w) = set_tick n w.
Proof. reflexivity. Qed.

Lemma isAuthenticated_now_spec (s : UserSession.t) (w : World) :
  isAuthenticated_now s w =
    (Eff.Ok (UserSession.isAuthenticated s (clock w (tick w))),
     set_tick (tick w + clock_reads (Some s)) w).
Proof.
  unfold isAuthenticated_now, clock_reads, UserSession.isAuthenticated.
  destruct (UserSession.nonempty (UserSession.accessToken s)); cbn [negb].
  - destruct (UserSession.expiresAt s) as [d|].
    + unfold Eff.bind, Date_now, Eff.ret. now rewrite Nat.add_1_r.
    + unfold Eff.ret. now rewrite Nat.add_0_r, set_tick_same.
  - unfold Eff.ret. now rewrite Nat.add_0_r, set_tick_same.
Qed.

Lemma touch_spec (w : World) (q : Query.t) :
  touch (w, q) =
    (Eff.Ok tt, (set_tick (S (tick w)) w,
                 Query.with_updatedAt (JSDate.ValidDate (clock w (tick w))) q)).
Proof. reflexivity. Qed.

Lemma validate_ok (S : Type) (q : Query.t) (s : S) :
  Query.id q <> "" -> Query.sql q <> "" -> Query.validate q s = (Eff.Ok true, s).
Proof.
  intros Hi Hs. rewrite validate_strings.
  destruct (String.eqb_spec (Query.id q) ""); [contradiction|].
  destruct (String.eqb_spec (Query.sql q) ""); [contradiction|]. reflexivity.
Qed.

(** A valid query reaches the [try] block in status "running", its
    [updatedAt] refreshed. *)
Lemma run_valid (session : option UserSession.t) (w : World) (q : Query.t) :
  Query.id q <> "" -> Query.sql q <> "" ->
  run session (w, q) =
    Eff.try_catch (try_block (authenticated session w) session) catch_block
      (set_tick (S (tick w + clock_reads session)) w,
       Query.with_updatedAt (JSDate.ValidDate (clock w (tick w + clock_reads session)))
         (Query.with_status Query.running q)).
Proof.
  intros Hi Hs. unfold run.
  unfold Eff.bind at 1. cbn [Eff.gets snd].
  unfold Eff.bind at 1. rewrite validate_ok by assumption.
  unfold Eff.bind at 1.
  destruct session as [s|].
  - unfold Eff.on_fst. cbn [fst snd]. rewrite isAuthenticated_now_spec.
    reflexivity.
  - cbn [Eff.ret clock_reads authenticated]. rewrite Nat.add_0_r.
    unfold Eff.bind, set_status, Eff.modify. cbn [fst snd]. rewrite touch_spec.
    reflexivity.
Qed.

Lemma catch_block_spec (err : JS.value) (w : World) (q : Query.t) :
  catch_block err (w, q) =
    (Eff.Throw err,
     (set_tick (S (tick w)) w,
      Query.with_updatedAt (JSDate.ValidDate (clock w (tick w)))
        (Query.with_lastError
           (Query.Value (if JS.truthy (message_of err)
                         then JS.toStr (message_of err) else JS.toStr err))
           (Query.with_status Query.failed q)))).
Proof. reflexivity. Qed.

(** The rows and the schema of the mock branch, with [ranAt] the text of the
    instant read for it *)
Lemma mock_spec (w : World) (q : Query.t) :
  mock (w, q) =
    if negb (isSelect (Query.sql q)) then
      (Eff.Ok {| jobId := Some ("local-" ++ Query.id q); rows := []; schema := [] |},
       (set_tick (S (tick w)) w,
        Query.with_updatedAt (JSDate.ValidDate (clock w (tick w)))
          (Query.with_status Query.completed q)))
    else if from_numbers (Query.sql q) then
      (Eff.Ok {| jobId := Some ("local-" ++ Query.id q);
                 rows := [[("n", JS.VNumber 1)]; [("n", JS.VNumber 2)]; [("n", JS.VNumber 3)]];
                 schema := [("n", "number")] |},
       (set_tick (S (tick w)) w,
        Query.with_updatedAt (JSDate.ValidDate (clock w (tick w)))
          (Query.with_status Query.completed q)))
    else
      (Eff.Ok {| jobId := Some ("local-" ++ Query.id q);
                 rows := [[("raw_sql", JS.VString (JS.trim (Query.sql q)));
                           ("ranAt", JS.VString (JSDate.iso (clock w (tick w))))]];
                 schema := [("raw_sql", "string"); ("ranAt", "string")] |},
       (set_tick (S (S (tick w))) w,
        Query.with_updatedAt (JSDate.ValidDate (clock w (S (tick w))))
          (Query.with_status Query.completed q))).
Proof.
  unfold mock. unfold Eff.bind at 1. cbn [Eff.gets snd].
  destruct (isSelect (Query.sql q)); cbn [negb]; [|reflexivity].
  destruct (from_numbers (Query.sql q)); reflexivity.
Qed.

Lemma try_block_unauthenticated (session : option UserSession.t) :
  try_block false session = mock.
Proof. now destruct session. Qed.

Lemma initializeBigQueryAPI_world (w : World) :
  snd (initializeBigQueryAPI w) = w.
Proof.
  unfold initializeBigQueryAPI.
  destruct (loaded (gapi w)); cbn; [|reflexivity].
  destruct (bigquery_ready (gapi w)); [reflexivity|].
  now destruct (load_rejects (gapi w)).
Qed.

(** The call of the API leaves the world as it is. *)
Lemma executeBigQueryQuery_world (sql pid : string) (w : World) :
  snd (executeBigQueryQuery sql pid w) = w.
Proof.
  unfold executeBigQueryQuery, Eff.bind.
  pose proof (initializeBigQueryAPI_world w) as Hi.
  destruct (initializeBigQueryAPI w) as [[[]|e] w']; cbn in Hi; subst w'; [|reflexivity].
  unfold Eff.try_catch, Eff.throw.
  destruct (jobs_query (gapi w) sql pid) as [[r|]|e]; reflexivity.
Qed.

(** What it returns or throws does not depend on the clock. *)
Lemma executeBigQueryQuery_tick (sql pid : string) (n : nat) (w : World) :
  fst (executeBigQueryQuery sql pid (set_tick n w)) = fst (executeBigQueryQuery sql pid w).
Proof.
  unfold executeBigQueryQuery, Eff.bind, initializeBigQueryAPI. cbn [gapi set_tick].
  destruct (loaded (gapi w)); cbn [negb]; [|reflexivity].
  destruct (bigquery_ready (gapi w)).
  - unfold Eff.try_catch, Eff.throw. cbn [gapi set_tick].
    destruct (jobs_query (gapi w) sql pid) as [[r|]|e]; reflexivity.
  - destruct (load_rejects (gapi w)); [reflexivity|].
    unfold Eff.try_catch, Eff.throw. cbn [gapi set_tick].
    destruct (jobs_query (gapi w) sql pid) as [[r|]|e]; reflexivity.
Qed.

Lemma try_block_authenticated (s : UserSession.t) (w : World) (q : Query.t) :
  try_block true (Some s) (w, q) =
    match fst (executeBigQueryQuery (Query.sql q) (projectId w) w) with
    | Eff.Ok r =>
        (Eff.Ok r,
         (set_tick (S (tick w)) w,
          Query.with_updatedAt (JSDate.ValidDate (clock w (tick w)))
            (Query.with_status Query.completed q)))
    | Eff.Throw e => (Eff.Throw e, (w, q))
    end.
Proof.
  unfold try_block. unfold Eff.bind at 1. cbn [Eff.gets snd].
  unfold Eff.bind at 1. unfold Eff.on_fst at 1. cbn [getBigQueryProjectId Eff.gets fst snd].
  unfold Eff.bind at 1. unfold Eff.on_fst at 1. cbn [fst snd].
  pose proof (executeBigQueryQuery_world (Query.sql q) (projectId w) w) as Hw.
  destruct (executeBigQueryQuery (Query.sql q) (projectId w) w) as [[r|e] w'];
    cbn in Hw; subst w'; reflexivity.
Qed.

(** What a valid query comes to, by branch *)
Lemma run_outcome (session : option UserSession.t) (w : World) (q : Query.t) :
  Query.id q <> "" -> Query.sql q <> "" ->
  let t0 := (tick w + clock_reads session)%nat in
  run session (w, q) =
    if authenticated session w then
      match fst (executeBigQueryQuery (Query.sql q) (projectId w) w) with
      | Eff.Ok r =>
          (Eff.Ok r,
           (set_tick (S (S t0)) w,
            Query.with_updatedAt (JSDate.ValidDate (clock w (S t0)))
              (Query.with_status Query.completed q)))
      | Eff.Throw e =>
          (Eff.Throw e,
           (set_tick (S (S t0)) w,
            Query.with_updatedAt (JSDate.ValidDate (clock w (S t0)))
              (Query.with_lastError
                 (Query.Value (if JS.truthy (message_of e)
                               then JS.toStr (message_of e) else JS.toStr e))
                 (Query.with_status Query.failed q))))
      end
    else
      Eff.try_catch mock catch_block
        (set_tick (S t0) w,
         Query.with_updatedAt (JSDate.ValidDate (clock w t0))
           (Query.with_status Query.running q)).
Proof.
  intros Hi Hs t0. rewrite run_valid by assumption. fold t0.
  destruct (authenticated session w) eqn:Ha.
  - destruct session as [s|]; [|discriminate].
    unfold Eff.try_catch. rewrite try_block_authenticated.
    cbn [Query.sql Query.with_updatedAt Query.with_status].
    replace (projectId (set_tick (S t0) w)) with (projectId w) by reflexivity.
    rewrite executeBigQueryQuery_tick.
    destruct (fst (executeBigQueryQuery (Query.sql q) (projectId w) w)) as [r|e];
      reflexivity.
  - now rewrite try_block_unauthenticated.
Qed.

(** C5, as amended: on the mock path (no session, or one that is not
    authenticated) a valid query is answered from its SQL text alone, in this
    order: (a) no rows and no schema when the text does not match
    [^\s*select\b]; (b) the rows n = 1, 2, 3 with schema n : number when it
    also matches [from\s+numbers] (any run of white space between the two
    words); (c) otherwise the one row of the trimmed text and the instant, both
    of type string.  In each case the query ends "completed", its [updatedAt]
    the last reading of the clock, and the job is local-<id>. *)
Theorem executeQuery_mock
    (query : input) (session : option UserSession.t) (w w1 : World) (q : Query.t) :
  normalize query w = (Eff.Ok q, w1) ->
  Query.id q <> "" -> Query.sql q <> "" ->
  authenticated session w1 = false ->
  let o := executeQuery query session w in
  let t0 := (tick w1 + clock_reads session)%nat in
  exists rows schema k,
    returned o = Eff.Ok {| jobId := Some ("local-" ++ Query.id q);
                           rows := rows; schema := schema |}
    /\ QueryService.query o =
         Some (Query.with_updatedAt (JSDate.ValidDate (clock w1 k))
                 (Query.with_status Query.completed q))
    /\ world o = set_tick (S k) w1
    /\ ((isSelect (Query.sql q) = false
         /\ rows = [] /\ schema = [] /\ k = S t0)
        \/ (isSelect (Query.sql q) = true /\ from_numbers (Query.sql q) = true
            /\ rows = [[("n", JS.VNumber 1)]; [("n", JS.VNumber 2)]; [("n", JS.VNumber 3)]]
            /\ schema = [("n", "number")] /\ k = S t0)
        \/ (isSelect (Query.sql q) = true /\ from_numbers (Query.sql q) = false
            /\ rows = [[("raw_sql", JS.VString (JS.trim (Query.sql q)));
                        ("ranAt", JS.VString (JSDate.iso (clock w1 (S t0))))]]
            /\ schema = [("raw_sql", "string"); ("ranAt", "string")]
            /\ k = S (S t0))).
Proof.
  intros Hn Hi Hs Ha o t0. subst o. unfold executeQuery. rewrite Hn.
  rewrite run_outcome by assumption. rewrite Ha. fold t0.
  unfold Eff.try_catch. rewrite mock_spec.
  cbn [Query.sql Query.id Query.with_updatedAt Query.with_status tick clock set_tick].
  destruct (isSelect (Query.sql q)); cbn [negb].
  - destruct (from_numbers (Query.sql q)).
    + do 3 eexists. split; [reflexivity|]. split; [reflexivity|]. split; [reflexivity|].
      right; left. repeat split.
    + do 3 eexists. split; [reflexivity|]. split; [reflexivity|]. split; [reflexivity|].
      right; right. repeat split.
  - do 3 eexists. split; [reflexivity|]. split; [reflexivity|]. split; [reflexivity|].
    left. repeat split.
Qed.

(** C5 at work: the query of the service's test, given as a payload. *)
Lemma executeQuery_mock_witness :
  let p := {| Query.p_id := JS.VString "t5";
              Query.p_sql := JS.VString "SELECT * FROM numbers";
              Query.p_name := None; Query.p_createdAt := None;
              Query.p_updatedAt := None; Query.p_status := None;
              Query.p_lastError := Query.Undefined |} in
  let o := executeQuery (Payload (Some p)) None sample_world in
  (exists rows schema k,
     returned o = Eff.Ok {| jobId := Some "local-t5"; rows := rows; schema := schema |}
     /\ QueryService.query o =
          Some {| Query.id := "t5"; Query.sql := "SELECT * FROM numbers";
                  Query.name := None;
                  Query.createdAt := JSDate.ValidDate 1700000000000;
                  Query.updatedAt := JSDate.ValidDate (clock sample_world k);
                  Query.status := Query.completed;
                  Query.lastError := Query.Null |}
     /\ k = 3%nat
     /\ rows = [[("n", JS.VNumber 1)]; [("n", JS.VNumber 2)]; [("n", JS.VNumber 3)]]).
Proof.
  intros p o.
  destruct (executeQuery_mock (Payload (Some p)) None sample_world
              (set_tick 2 sample_world)
              {| Query.id := "t5"; Query.sql := "SELECT * FROM numbers";
                 Query.name := None;
                 Query.createdAt := JSDate.ValidDate 1700000000000;
                 Query.updatedAt := JSDate.ValidDate 1700000000001;
                 Query.status := Query.draft;
                 Query.lastError := Query.Null |})
    as (rows & schema & k & Hr & Hq & _ & H).
  - reflexivity.
  - discriminate.
  - discriminate.
  - reflexivity.
  - exists rows, schema, k. split; [exact Hr|]. split; [exact Hq|].
    destruct H as [(Hsel & _)|[(_ & _ & Hrows & _ & Hk)|(_ & Hfn & _)]].
    + discriminate Hsel.
    + split; [exact Hk | exact Hrows].
    + discriminate Hfn.
Defined.

(** C5, as stated, fails on a text that has two spaces between FROM and
    numbers: it does not contain "from numbers", and the mock still answers
    with the three numbered rows, not with the row of the raw text. *)
Lemma executeQuery_mock_two_spaces :
  let text := "SELECT * FROM  numbers" in
  let q := {| Query.id := "q1"; Query.sql := text; Query.name := None;
              Query.createdAt := JSDate.ValidDate 0;
              Query.updatedAt := JSDate.ValidDate 0;
              Query.status := Query.draft; Query.lastError := Query.Null |} in
  let o := executeQuery (Instance q) None sample_world in
  isSelect text = true
  /\ contains_ci "from numbers" text = false
  /\ exists r,
       returned o = Eff.Ok r
       /\ rows r = [[("n", JS.VNumber 1)]; [("n", JS.VNumber 2)]; [("n", JS.VNumber 3)]]
       /\ forall ranAt,
            rows r <> [[("raw_sql", JS.VString (JS.trim text));
                        ("ranAt", JS.VString ranAt)]].
Proof.
  cbv zeta. split; [reflexivity|]. split; [reflexivity|].
  eexists. split; [reflexivity|]. split; [reflexivity|]. intros ranAt. discriminate.
Qed.


Lemma validate_invalid (S : Type) (q : Query.t) (s : S) :
  Query.id q = "" \/ Query.sql q = "" ->
  exists fields,
    Query.validate q s = (Eff.Throw (Eff.Error ("Query validation failed: " ++ fields)), s).
Proof.
  intros Hbad. rewrite validate_strings.
  destruct (String.eqb_spec (Query.id q) ""), (String.eqb_spec (Query.sql q) "");
    cbn; try (eexists; reflexivity).
  destruct Hbad; contradiction.
Qed.

Lemma run_invalid (session : option UserSession.t) (w : World) (q : Query.t) (e : JS.value) :
  Query.validate q (w, q) = (Eff.Throw e, (w, q)) ->
  run session (w, q) = (Eff.Throw e, (w, q)).
Proof.
  intros Hv. unfold run. unfold Eff.bind at 1. cbn [Eff.gets snd].
  unfold Eff.bind at 1. now rewrite Hv.
Qed.





End ExecuteQuery.

(** ** The execute endpoint *)

Section Endpoint.
Import Sys Api.

Lemma signIn_token (tok : string) (w : World) :
  exists w',
    AuthService.signInWithToken
      {| AuthService.provider := None; AuthService.userId := None;
         AuthService.accessToken := tok; AuthService.refreshToken := None;
         AuthService.expiresIn := None |} w = (Eff.Ok (token_session tok), w')
    /\ later w w' /\ tick w' = tick w.
Proof.
  unfold AuthService.signInWithToken. cbn [AuthService.given AuthService.expiresIn].
  unfold Eff.bind at 1. cbn [Eff.ret]. unfold Eff.bind at 1. cbn [Eff.ret].
  unfold Eff.bind at 1. cbn [Eff.modify]. unfold Eff.bind at 1.
  rewrite saveToStorage_spec by exact I. eexists. split; [reflexivity|].
  unfold later. cbn [localStorage set_currentSession].
  destruct (localStorage w); cbn; auto.
Qed.

Lemma executeEndpoint_run (body : ExecuteRequest) (sql : string) (w : World) :
  query body = JS.VString sql -> JS.blank sql = false ->
  authToken body <> Some "invalid-token" ->
  exists the_id w1 w2,
    (forall i, id body = Some i -> the_id = i)
    /\ (id body = None -> the_id = "local-" ++ toString36 (clock w (tick w)))
    /\ later w w1
    /\ let p := {| Query.p_id := JS.VString the_id;
                   Query.p_sql := JS.VString sql;
                   Query.p_name := name body;
                   Query.p_createdAt := None;
                   Query.p_updatedAt := None;
                   Query.p_status := None;
                   Query.p_lastError := Query.Undefined |} in
       let session :=
         match authToken body with
         | Some tok => if UserSession.nonempty (Some tok) then Some (token_session tok) else None
         | None => None
         end in
       executeEndpoint (Some body) w = (Eff.Ok (answer (fst (callExecuteQuery p session w1))), w2).
Proof.
  intros Hq Hb Ht. unfold executeEndpoint. rewrite Hq, Hb.
  replace (match authToken body with
           | Some tok => (tok =? "invalid-token")%string
           | None => false
           end) with false.
  2:{ destruct (authToken body) as [tok|]; [|reflexivity].
      symmetry. apply String.eqb_neq. congruence. }
  unfold Eff.try_catch.
  assert (Hs : exists w',
    match authToken body with
    | Some tok =>
        if UserSession.nonempty (Some tok) then
          (Eff.bind (AuthService.signInWithToken
             {| AuthService.provider := None; AuthService.userId := None;
                AuthService.accessToken := tok; AuthService.refreshToken := None;
                AuthService.expiresIn := None |}) (fun s => Eff.ret (Some s)))
        else Eff.ret None
    | None => Eff.ret None
    end w =
    (Eff.Ok match authToken body with
            | Some tok => if UserSession.nonempty (Some tok) then Some (token_session tok) else None
            | None => None
            end, w')
    /\ later w w' /\ tick w' = tick w).
  { assert (Hrefl : later w w /\ tick w = tick w) by (unfold later; auto).
    destruct (authToken body) as [tok|]; [|exists w; split; [reflexivity | exact Hrefl]].
    destruct (UserSession.nonempty (Some tok));
      [|exists w; split; [reflexivity | exact Hrefl]].
    destruct (signIn_token tok w) as (w' & Hw & Hl). exists w'.
    unfold Eff.bind. rewrite Hw. split; [reflexivity | exact Hl]. }
  destruct Hs as (w' & Hs & Hl & Htick).
  unfold Eff.bind at 1. rewrite Hs.
  unfold Eff.bind at 1.
  destruct (id body) as [i|] eqn:Hid.
  - cbn [Eff.ret]. unfold Eff.bind at 1.
    exists i, w'.
    destruct (callExecuteQuery _ _ w') as [[r|e] w2] eqn:Hc; exists w2;
      (split; [now intros ? [= <-]|]); (split; [discriminate|]);
      (split; [exact Hl|]); cbv zeta; cbn [fst answer Eff.ret].
    + reflexivity.
    + destruct (_ =? _)%string; reflexivity.
  - unfold Eff.bind at 1. cbn [Date_now Eff.ret]. unfold Eff.bind at 1.
    assert (Hl' : later w (set_tick (S (tick w')) w')).
    { destruct Hl as (H1 & H2 & H3 & H4). unfold later. cbn. auto with arith. }
    exists ("local-" ++ toString36 (clock w' (tick w'))), (set_tick (S (tick w')) w').
    destruct (callExecuteQuery _ _ (set_tick (S (tick w')) w')) as [[r|e] w2] eqn:Hc;
      exists w2; (split; [discriminate|]);
      (split; [intros _; destruct Hl as (-> & _); now rewrite Htick|]);
      (split; [exact Hl'|]); cbv zeta; cbn [fst answer Eff.ret].
    + reflexivity.
    + destruct (_ =? _)%string; reflexivity.
Qed.

(** C6, as amended.  The endpoint always answers, whatever happens inside.
    A [query] that is missing, not a string or blank is answered 400 "Query
    is required".  With a query, the token "invalid-token" is answered 401
    "Authentication failed".  Otherwise the adapter is called, with the
    session signed in for the token when there is one, on the payload made
    of the request's [id] (or local-<now in base 36>), [query] and [name],
    under the same clock, API client and configuration: its result is answered 200 with rows, schema, "success", a null
    error and the job; an error whose message reads "User not authenticated"
    is answered 401 "Authentication failed"; any other error is answered 500
    with the text of its message, or with "Query execution failed" when that
    message is empty. *)
Theorem executeEndpoint_spec (payload : option ExecuteRequest) (w : World) :
  (exists r w', executeEndpoint payload w = (Eff.Ok r, w'))
  /\ (no_query payload ->
      executeEndpoint payload w =
        (Eff.Ok {| statusCode := 400;
                   body := {| results := []; schema := None; status := "error";
                              error := Some "Query is required"; jobId := None |} |}, w))
  /\ (forall b sql,
        payload = Some b -> query b = JS.VString sql -> JS.blank sql = false ->
        (authToken b = Some "invalid-token" ->
         executeEndpoint payload w =
           (Eff.Ok {| statusCode := 401;
                      body := {| results := []; schema := None; status := "error";
                                 error := Some "Authentication failed";
                                 jobId := None |} |}, w))
        /\ (authToken b <> Some "invalid-token" ->
            exists the_id w1,
              (forall i, id b = Some i -> the_id = i)
              /\ (id b = None -> the_id = "local-" ++ toString36 (clock w (tick w)))
              /\ later w w1
              /\ let p := {| Query.p_id := JS.VString the_id;
                             Query.p_sql := JS.VString sql;
                             Query.p_name := name b;
                             Query.p_createdAt := None;
                             Query.p_updatedAt := None;
                             Query.p_status := None;
                             Query.p_lastError := Query.Undefined |} in
                 let session :=
                   match authToken b with
                   | Some tok =>
                       if UserSession.nonempty (Some tok)
                       then Some (token_session tok) else None
                   | None => None
                   end in
                 let adapter := fst (callExecuteQuery p session w1) in
                 let response := fst (executeEndpoint payload w) in
                 (forall result, adapter = Eff.Ok result ->
                    response =
                      Eff.Ok {| statusCode := 200;
                                body := {| results := rows result;
                                           schema := Some (Sys.schema result);
                                           status := "success";
                                           error := None;
                                           jobId := Sys.jobId result |} |})
                 /\ (forall e, adapter = Eff.Throw e ->
                       JS.toStr (QueryService.message_of e) = "User not authenticated" ->
                       response = Eff.Ok (failure 401 "Authentication failed"))
                 /\ (forall e, adapter = Eff.Throw e ->
                       JS.toStr (QueryService.message_of e) <> "User not authenticated" ->
                       response =
                         Eff.Ok (failure 500
                                   (if JS.truthy (QueryService.message_of e)
                                    then JS.toStr (QueryService.message_of e)
                                    else "Query execution failed"))))).
Proof.
  assert (H400 : no_query payload ->
                 executeEndpoint payload w = (Eff.Ok (failure 400 "Query is required"), w)).
  { unfold no_query, executeEndpoint. destruct payload as [b|]; [|reflexivity].
    destruct (query b); try reflexivity. now intros ->. }
  assert (H401 : forall b sql,
             payload = Some b -> query b = JS.VString sql -> JS.blank sql = false ->
             authToken b = Some "invalid-token" ->
             executeEndpoint payload w = (Eff.Ok (failure 401 "Authentication failed"), w)).
  { intros b sql -> Hq Hb Ht. unfold executeEndpoint. now rewrite Hq, Hb, Ht. }
  split; [|split; [exact H400|]].
  - destruct payload as [b|]; [|eexists; eexists; now apply H400].
    destruct (query b) as [| |?|?|sql| |] eqn:Hq;
      try (eexists; eexists; apply H400; cbn; now rewrite Hq).
    destruct (JS.blank sql) eqn:Hb;
      [eexists; eexists; apply H400; cbn; now rewrite Hq|].
    destruct (authToken b) as [tok|] eqn:Ht.
    + destruct (String.eqb_spec tok "invalid-token") as [->|Hne].
      * eexists; eexists. now apply (H401 b sql).
      * destruct (executeEndpoint_run b sql w Hq Hb) as (i & w1 & w2 & _ & _ & _ & H).
        { rewrite Ht. congruence. }
        eexists; eexists. exact H.
    + destruct (executeEndpoint_run b sql w Hq Hb) as (i & w1 & w2 & _ & _ & _ & H).
      { rewrite Ht. discriminate. }
      eexists; eexists. exact H.
  - intros b sql -> Hq Hb. split; [now apply (H401 b sql)|].
    intros Ht.
    destruct (executeEndpoint_run b sql w Hq Hb Ht) as (i & w1 & w2 & Hi & Hn & Hl & H).
    exists i, w1. split; [exact Hi|]. split; [exact Hn|]. split; [exact Hl|].
    cbv zeta in *. rewrite H. cbn [fst]. repeat split.
    + intros result ->. reflexivity.
    + intros e -> Hm. cbn [answer]. now rewrite Hm.
    + intros e -> Hm. cbn [answer]. apply String.eqb_neq in Hm. now rewrite Hm.
Qed.

(** C6 at work: the request of the service's test, without a token. *)
Lemma executeEndpoint_spec_witness :
  let b := {| query := JS.VString "SELECT * FROM numbers"; authToken := None;
              id := Some "t5"; name := None |} in
  fst (executeEndpoint (Some b) sample_world) =
    Eff.Ok {| statusCode := 200;
              body := {| results := [[("n", JS.VNumber 1)]; [("n", JS.VNumber 2)];
                                     [("n", JS.VNumber 3)]];
                         schema := Some [("n", "number")];
                         status := "success";
                         error := None;
                         jobId := Some "local-t5" |} |}.
Proof.
  intros b.
  destruct (executeEndpoint_spec (Some b) sample_world) as (_ & _ & H).
  destruct (H b "SELECT * FROM numbers" eq_refl eq_refl eq_refl) as (_ & Hrun).
  destruct (Hrun ltac:(discriminate)) as (the_id & w1 & Hid & _ & _ & Hok & _).
  rewrite (Hid "t5" eq_refl) in Hok.
  exact (Hok {| Sys.jobId := Some "local-t5";
                Sys.rows := [[("n", JS.VNumber 1)]; [("n", JS.VNumber 2)];
                             [("n", JS.VNumber 3)]];
                Sys.schema := [("n", "number")] |} eq_refl).
Defined.

(** C6, as stated, fails when the adapter's error carries an empty message:
    the 500 response then says "Query execution failed", not the (empty) text
    of the message. *)
Lemma executeEndpoint_empty_message :
  let w := set_gapi {| loaded := true; bigquery_ready := false;
                       load_rejects := Some (Eff.Error "");
                       jobs_query := fun _ _ => Eff.Ok None |} sample_world in
  let b := {| query := JS.VString "SELECT 1"; authToken := Some "good";
              id := Some "q1"; name := None |} in
  let p := {| Query.p_id := JS.VString "q1"; Query.p_sql := JS.VString "SELECT 1";
              Query.p_name := None; Query.p_createdAt := None;
              Query.p_updatedAt := None; Query.p_status := None;
              Query.p_lastError := Query.Undefined |} in
  let w1 := snd (AuthService.signInWithToken
                   {| AuthService.provider := None; AuthService.userId := None;
                      AuthService.accessToken := "good";
                      AuthService.refreshToken := None;
                      AuthService.expiresIn := None |} w) in
  exists e,
    fst (callExecuteQuery p (Some (token_session "good")) w1) = Eff.Throw e
    /\ JS.toStr (QueryService.message_of e) = ""
    /\ fst (executeEndpoint (Some b) w) = Eff.Ok (failure 500 "Query execution failed")
    /\ fst (executeEndpoint (Some b) w)
       <> Eff.Ok (failure 500 (JS.toStr (QueryService.message_of e))).
Proof.
  cbv zeta. eexists. split; [vm_compute; reflexivity|].
  split; [reflexivity|]. split; [vm_compute; reflexivity|].
  vm_compute. discriminate.
Qed.

End Endpoint.

(** ** The execution routine of the panel manager *)

Section Execution.
Import PanelManager.

(** C8, as amended.  With a query text that is empty or all white space the
    routine returns at once and changes nothing.  Otherwise it sets
    [isExecuting] and opens the results panel, then waits for its timer (the
    Query Execution Adapter is not called); when the wait is over it shows
    the two fixed sample rows, or no rows if what it awaited had failed, and
    in either case ends with [isExecuting] false and nothing thrown.  No
    other part of the state changes. *)
Theorem handleExecuteQuery_spec (s : State) :
  (JS.blank (query s) = true ->
   handleExecuteQuery_begin s = (s, Returned) /\ handleExecuteQuery s = s)
  /\ (JS.blank (query s) = false ->
      let running :=
        {| showResults := true; showSchema := showSchema s;
           showSettings := showSettings s; showKeyboardHelp := showKeyboardHelp s;
           query := query s; queryResults := queryResults s;
           isExecutingQuery := true |} in
      let finished rows :=
        {| showResults := true; showSchema := showSchema s;
           showSettings := showSettings s; showKeyboardHelp := showKeyboardHelp s;
           query := query s; queryResults := rows;
           isExecutingQuery := false |} in
      handleExecuteQuery_begin s = (running, AwaitingTimer)
      /\ handleExecuteQuery_resume (Eff.Ok tt) running = (Eff.Ok tt, finished sample_results)
      /\ (forall e, handleExecuteQuery_resume (Eff.Throw e) running
                    = (Eff.Ok tt, finished []))
      /\ handleExecuteQuery s = finished sample_results).
Proof.
  unfold handleExecuteQuery, handleExecuteQuery_begin. split.
  - intros ->. split; reflexivity.
  - intros ->. cbv zeta. repeat split.
Qed.

(** C8 at work: a run on a text that is not blank. *)
Lemma handleExecuteQuery_spec_witness :
  let s := {| showResults := false; showSchema := true; showSettings := false;
              showKeyboardHelp := false; query := "SELECT 1"; queryResults := [];
              isExecutingQuery := false |} in
  handleExecuteQuery s =
    {| showResults := true; showSchema := true; showSettings := false;
       showKeyboardHelp := false; query := "SELECT 1";
       queryResults := sample_results; isExecutingQuery := false |}.
Proof.
  intros s.
  exact (proj2 (proj2 (proj2 (proj2 (handleExecuteQuery_spec s) eq_refl)))).
Defined.

(** C8, as stated, fails on any text the adapter answers with rows of its
    own: for "SELECT * FROM numbers" the adapter returns the rows n = 1, 2, 3,
    and the routine shows its two sample rows instead. *)
Lemma handleExecuteQuery_ignores_adapter :
  let s := {| showResults := false; showSchema := false; showSettings := false;
              showKeyboardHelp := false; query := "SELECT * FROM numbers";
              queryResults := []; isExecutingQuery := false |} in
  let p := {| Query.p_id := JS.VString "q1"; Query.p_sql := JS.VString (query s);
              Query.p_name := None; Query.p_createdAt := None;
              Query.p_updatedAt := None; Query.p_status := None;
              Query.p_lastError := Query.Undefined |} in
  let adapter :=
    QueryService.executeQuery (QueryService.Payload (Some p)) None Sys.sample_world in
  exists r,
    QueryService.returned adapter = Eff.Ok r
    /\ Sys.rows r = [[("n", JS.VNumber 1)]; [("n", JS.VNumber 2)]; [("n", JS.VNumber 3)]]
    /\ queryResults (handleExecuteQuery s) = sample_results
    /\ queryResults (handleExecuteQuery s) <> Sys.rows r.
Proof.
  cbv zeta. eexists. split; [reflexivity|]. split; [reflexivity|].
  split; [reflexivity | discriminate].
Qed.

End Execution.

(** * Further properties *)

(** ** Sessions *)

Section Sessions.
Import Sys.

(** X1: a session whose [expiresAt] is null or a valid date survives
    [toJSON] followed by [fromJSON] unchanged, whatever its other fields
    hold. *)
Theorem UserSession_roundtrip (S : Type) (s : UserSession.t) (st : S) :
  match UserSession.expiresAt s with
  | Some d => JSDate.valid d
  | None => True
  end ->
  (p <- UserSession.toJSON s ;; Eff.ret (UserSession.fromJSON (Some p)))%eff st
    = (Eff.Ok s, st).
Proof.
  intros Hv. unfold UserSession.toJSON, UserSession.fromJSON, UserSession.constructor.
  destruct s as [uid prov tok rtok [d|]]; cbn [UserSession.expiresAt] in *.
  - destruct Hv as (t & -> & Ht). unfold Eff.bind, Eff.ret.
    cbn -[JSDate.parse JSDate.iso String.eqb].
    destruct (String.eqb_spec (JSDate.iso t) "") as [E|_];
      [now apply iso_nonempty in E|].
    cbn -[JSDate.parse JSDate.iso]. now rewrite parse_iso.
  - reflexivity.
Qed.

(** X1 at work *)
Lemma UserSession_roundtrip_witness :
  let s := {| UserSession.userId := Some "u1"; UserSession.provider := Some "google";
              UserSession.accessToken := Some "";
              UserSession.refreshToken := None;
              UserSession.expiresAt := Some (JSDate.ValidDate 1700000000000) |} in
  (p <- UserSession.toJSON s ;; Eff.ret (UserSession.fromJSON (Some p)))%eff tt
    = (Eff.Ok s, tt).
Proof.
  intros s. apply (UserSession_roundtrip unit s tt).
  exists 1700000000000. split; [reflexivity | unfold JSDate.maxTime; cbn; lia].
Defined.

(** X2: authentication only lapses with time: a session that is
    authenticated at some instant is authenticated at every earlier one. *)
Theorem isAuthenticated_earlier (s : UserSession.t) (now later : Z) :
  now <= later ->
  UserSession.isAuthenticated s later = true ->
  UserSession.isAuthenticated s now = true.
Proof.
  intros Hle. unfold UserSession.isAuthenticated.
  destruct (UserSession.nonempty (UserSession.accessToken s)); cbn [negb]; [|auto].
  destruct (UserSession.expiresAt s) as [[t|]|]; cbn; auto.
  destruct (Z.ltb_spec t later); [discriminate|].
  destruct (Z.ltb_spec t now); [lia | reflexivity].
Qed.

(** X2 at work *)
Lemma isAuthenticated_earlier_witness :
  let s := {| UserSession.userId := None; UserSession.provider := None;
              UserSession.accessToken := Some "tok";
              UserSession.refreshToken := None;
              UserSession.expiresAt := Some (JSDate.ValidDate 2000) |} in
  UserSession.isAuthenticated s 1000 = true.
Proof.
  intros s. apply (isAuthenticated_earlier s 1000 2000); [lia | reflexivity].
Defined.

Lemma lookup_remove_key (k k' : string) (l : list (string * string)) :
  lookup k' (remove_key k l) = if (k' =? k)%string then None else lookup k' l.
Proof.
  induction l as [|[a v] l IH]; cbn.
  - now destruct (k' =? k)%string.
  - destruct (String.eqb_spec k a) as [->|Hka].
    + rewrite IH. destruct (String.eqb_spec k' a); reflexivity.
    + cbn. rewrite IH.
      destruct (String.eqb_spec k' a) as [->|_]; [|reflexivity].
      destruct (String.eqb_spec a k); [congruence | reflexivity].
Qed.

(** X3: [saveToStorage] never throws.  It writes the session under the fixed
    key, in place of what was there and leaving the other keys alone, when
    the store works and the session can be serialised; when the store throws,
    or when the session holds an invalid date (so that [toJSON] throws), it
    leaves the world as it was. *)
Theorem saveToStorage_outcomes (s : UserSession.t) (w : World) :
  exists w',
    AuthService.saveToStorage s w = (Eff.Ok tt, w')
    /\ match UserSession.expiresAt s, localStorage w with
       | Some JSDate.InvalidDate, _ => w' = w
       | _, Unavailable _ => w' = w
       | _, Items l =>
           exists l',
             w' = set_localStorage (Items l') w
             /\ lookup AuthService.STORAGE_KEY l'
                = Some (JSON_stringify (AuthService.session_payload s))
             /\ forall k, k <> AuthService.STORAGE_KEY -> lookup k l' = lookup k l
       end.
Proof.
  destruct (UserSession.expiresAt s) as [[t|]|] eqn:He.
  - rewrite saveToStorage_spec by now rewrite He.
    eexists. split; [reflexivity|].
    destruct (localStorage w) as [e|l]; [reflexivity|].
    eexists. split; [reflexivity|]. split.
    + reflexivity.
    + intros k Hk. cbn [lookup]. rewrite lookup_remove_key.
      apply String.eqb_neq in Hk. now rewrite Hk.
  - unfold AuthService.saveToStorage, Eff.try_catch, Eff.bind, UserSession.toJSON.
    rewrite He. cbn. eexists. split; reflexivity.
  - rewrite saveToStorage_spec by now rewrite He.
    eexists. split; [reflexivity|].
    destruct (localStorage w) as [e|l]; [reflexivity|].
    eexists. split; [reflexivity|]. split.
    + reflexivity.
    + intros k Hk. cbn [lookup]. rewrite lookup_remove_key.
      apply String.eqb_neq in Hk. now rewrite Hk.
Qed.

(** The three ways [signInWithToken] goes: no expiry, an expiry a date can
    hold, an expiry it cannot. *)
Lemma signInWithToken_cases (payload : AuthService.SignInPayload) (w : World) :
  let now := clock w (tick w) in
  AuthService.signInWithToken payload w =
    match AuthService.expiresIn payload with
    | Some n =>
        if n =? 0 then
          (Eff.Ok (AuthGoogle.signed_in payload None),
           AuthGoogle.signed_in_world (AuthGoogle.signed_in payload None) w)
        else if Z.abs (now + n * 1000) <=? JSDate.maxTime then
          let s := AuthGoogle.signed_in payload (Some (JSDate.ValidDate (now + n * 1000))) in
          (Eff.Ok s, AuthGoogle.signed_in_world s (set_tick (S (tick w)) w))
        else
          (Eff.Throw (Eff.RangeError "Invalid time value"), set_tick (S (tick w)) w)
    | None =>
        (Eff.Ok (AuthGoogle.signed_in payload None),
         AuthGoogle.signed_in_world (AuthGoogle.signed_in payload None) w)
    end.
Proof.
  intros now. subst now.
  assert (Hnone :
    (Eff.bind (Eff.modify (set_currentSession (AuthGoogle.signed_in payload None)))
       (fun _ => Eff.bind (AuthService.saveToStorage (AuthGoogle.signed_in payload None))
                   (fun _ => Eff.ret (AuthGoogle.signed_in payload None)))) w
    = (Eff.Ok (AuthGoogle.signed_in payload None),
       AuthGoogle.signed_in_world (AuthGoogle.signed_in payload None) w)).
  { unfold Eff.bind, Eff.modify, Eff.ret.
    rewrite saveToStorage_spec by exact I.
    unfold AuthGoogle.signed_in_world. cbn [localStorage set_currentSession].
    now destruct (localStorage w). }
  unfold AuthService.signInWithToken, AuthService.given.
  destruct (AuthService.expiresIn payload) as [n|]; [|exact Hnone].
  destruct (Z.eqb_spec n 0) as [->|Hn]; cbn [negb]; [exact Hnone|].
  unfold Eff.bind at 1 2. unfold Date_now at 1. cbn [Eff.ret].
  unfold JSDate.TimeClip.
  destruct (Z.leb_spec (Z.abs (clock w (tick w) + n * 1000)) JSDate.maxTime) as [Hr|Hr].
  - unfold Eff.bind at 1 2. cbn [toISOString Eff.ret].
    unfold UserSession.constructor. cbn [UserSession.p_expiresAt UserSession.p_userId
      UserSession.p_provider UserSession.p_accessToken UserSession.p_refreshToken].
    replace (UserSession.nonempty (Some (JSDate.iso (clock w (tick w) + n * 1000))))
      with true.
    2:{ symmetry. apply nonempty_spec. eexists. split; [reflexivity | apply iso_nonempty]. }
    rewrite parse_iso by exact Hr.
    fold (AuthGoogle.signed_in payload
            (Some (JSDate.ValidDate (clock w (tick w) + n * 1000)))).
    unfold Eff.bind, Eff.modify, Eff.ret.
    rewrite saveToStorage_spec by exact I.
    unfold AuthGoogle.signed_in_world. cbn [localStorage set_currentSession set_tick].
    now destruct (localStorage w).
  - reflexivity.
Qed.

(** X4: with an [expiresIn] that is not 0 and an expiry beyond what a date
    can hold, [signInWithToken] throws a [RangeError]; nobody is signed in and
    nothing is written: the current session and the store are as before. *)
Theorem signInWithToken_out_of_range
    (payload : AuthService.SignInPayload) (w : World) (n : Z) :
  AuthService.expiresIn payload = Some n -> n <> 0 ->
  JSDate.maxTime < Z.abs (clock w (tick w) + n * 1000) ->
  exists w',
    AuthService.signInWithToken payload w
      = (Eff.Throw (Eff.RangeError "Invalid time value"), w')
    /\ currentSession w' = currentSession w
    /\ localStorage w' = localStorage w.
Proof.
  intros He Hn Hr. rewrite signInWithToken_cases. cbv zeta. rewrite He.
  destruct (Z.eqb_spec n 0); [contradiction|].
  destruct (Z.leb_spec (Z.abs (clock w (tick w) + n * 1000)) JSDate.maxTime); [lia|].
  eexists. repeat split.
Qed.

(** X4 at work: an expiry ten million years ahead *)
Lemma signInWithToken_out_of_range_witness :
  let payload := {| AuthService.provider := None; AuthService.userId := None;
                    AuthService.accessToken := "t";
                    AuthService.refreshToken := None;
                    AuthService.expiresIn := Some 315360000000000 |} in
  exists w',
    AuthService.signInWithToken payload sample_world
      = (Eff.Throw (Eff.RangeError "Invalid time value"), w')
    /\ currentSession w' = currentSession sample_world
    /\ localStorage w' = localStorage sample_world.
Proof.
  intros payload.
  apply (signInWithToken_out_of_range payload sample_world 315360000000000).
  - reflexivity.
  - discriminate.
  - unfold JSDate.maxTime. cbn. lia.
Defined.

(** X5: [signOut] never throws.  It leaves a current session with every field
    null, for which [getAuthToken] answers null at any time, and a store
    without the session's key, its other keys untouched; a store that throws
    stays as it is. *)
Theorem signOut_outcomes (w : World) :
  exists w',
    AuthService.signOut w = (Eff.Ok tt, w')
    /\ currentSession w' = AuthGoogle.cleared
    /\ (forall w'', currentSession w'' = AuthGoogle.cleared ->
          fst (AuthGoogle.getAuthToken w'') = Eff.Ok None)
    /\ match localStorage w with
       | Unavailable e => localStorage w' = Unavailable e
       | Items l =>
           exists l',
             localStorage w' = Items l'
             /\ lookup AuthService.STORAGE_KEY l' = None
             /\ forall k, k <> AuthService.STORAGE_KEY -> lookup k l' = lookup k l
       end.
Proof.
  unfold AuthService.signOut, Eff.bind, Eff.modify, Eff.try_catch, removeItem.
  cbn [localStorage set_currentSession].
  assert (Hg : forall w'', currentSession w'' = AuthGoogle.cleared ->
                 fst (AuthGoogle.getAuthToken w'') = Eff.Ok None).
  { intros w'' Hc. unfold AuthGoogle.getAuthToken, AuthService.getSession, Eff.bind, Eff.gets.
    rewrite Hc. reflexivity. }
  destruct (localStorage w) as [e|l] eqn:Hl.
  - eexists. split; [reflexivity|]. cbn. repeat split; auto.
  - eexists. split; [reflexivity|]. cbn. split; [reflexivity|]. split; [exact Hg|].
    eexists. split; [reflexivity|]. split.
    + rewrite lookup_remove_key. now rewrite String.eqb_refl.
    + intros k Hk. rewrite lookup_remove_key. apply String.eqb_neq in Hk. now rewrite Hk.
Qed.

(** X6: after a sign-in with a non-empty token, [getAuthToken] answers that
    token as long as the clock has not passed the expiry (and always when
    there is none: [expiresIn] absent or 0), and null once it has. *)
Theorem getAuthToken_after_signIn
    (payload : AuthService.SignInPayload) (w w' : World) (s : UserSession.t) :
  AuthService.accessToken payload <> "" ->
  AuthService.signInWithToken payload w = (Eff.Ok s, w') ->
  fst (AuthGoogle.getAuthToken w') =
    Eff.Ok match UserSession.expiresAt s with
           | Some (JSDate.ValidDate t) =>
               if t <? clock w' (tick w') then None
               else Some (AuthService.accessToken payload)
           | _ => Some (AuthService.accessToken payload)
           end.
Proof.
  intros Htok Hs.
  assert (Hw : currentSession w' = s
               /\ UserSession.accessToken s = Some (AuthService.accessToken payload)).
  { rewrite signInWithToken_cases in Hs. cbv zeta in Hs.
    assert (Hc : forall x w0, currentSession (AuthGoogle.signed_in_world x w0) = x).
    { intros x w0. unfold AuthGoogle.signed_in_world. now destruct (localStorage w0). }
    destruct (AuthService.expiresIn payload) as [n|].
    - destruct (n =? 0).
      + injection Hs as <- <-. now rewrite Hc.
      + destruct (_ <=? _); [|discriminate]. injection Hs as <- <-. now rewrite Hc.
    - injection Hs as <- <-. now rewrite Hc. }
  destruct Hw as (Hc & Ha).
  unfold AuthGoogle.getAuthToken, AuthService.getSession. unfold Eff.bind at 1.
  cbn [Eff.gets]. rewrite Hc. unfold Eff.bind.
  rewrite isAuthenticated_now_spec. cbn [Eff.ret fst].
  unfold UserSession.isAuthenticated. rewrite Ha.
  replace (UserSession.nonempty (Some (AuthService.accessToken payload))) with true.
  2:{ symmetry. apply nonempty_spec. eauto. }
  cbn [negb]. destruct (UserSession.expiresAt s) as [[t|]|]; cbn; try reflexivity.
  now destruct (t <? clock w' (tick w')).
Qed.

(** X6 at work: a token for one second, asked for one millisecond later *)
Lemma getAuthToken_after_signIn_witness :
  let payload := {| AuthService.provider := None; AuthService.userId := None;
                    AuthService.accessToken := "tok";
                    AuthService.refreshToken := None;
                    AuthService.expiresIn := Some 1 |} in
  fst (AuthGoogle.getAuthToken (snd (AuthService.signInWithToken payload sample_world)))
    = Eff.Ok (Some "tok").
Proof.
  intros payload.
  refine (getAuthToken_after_signIn payload sample_world
            (snd (AuthService.signInWithToken payload sample_world))
            (AuthGoogle.signed_in payload (Some (JSDate.ValidDate 1700000001000))) _ _).
  - discriminate.
  - reflexivity.
Defined.

End Sessions.

(** ** Queries *)

Section Queries.
Import Sys.

Lemma constructor_run (i : Query.Init) (w : World) :
  exists q w',
    Query.constructor i w = (Eff.Ok q, w')
    /\ Query.id q = Query.i_id i /\ Query.sql q = Query.i_sql i
    /\ Query.name q = Query.i_name i
    /\ Query.status q = match Query.i_status i with Some s => s | None => Query.draft end
    /\ Query.lastError q = Query.or_null (Query.i_lastError i)
    /\ (forall d, Query.i_createdAt i = Some d -> Query.createdAt q = d)
    /\ (forall d, Query.i_updatedAt i = Some d -> Query.updatedAt q = d)
    /\ (Query.i_createdAt i <> None -> Query.i_updatedAt i <> None -> w' = w).
Proof.
  unfold Query.constructor, Eff.bind, Eff.ret, Query.or_now, Date_new, Date_now, Eff.bind,
    Eff.ret.
  destruct (Query.i_createdAt i) as [c|], (Query.i_updatedAt i) as [u|];
    do 2 eexists; (split; [reflexivity|]); cbn;
    repeat split; try congruence; intros; congruence.
Qed.

(** X7: [fromJSON] fails in exactly two ways, each a [TypeError] thrown
    before the clock is read: on a payload that is no object, and on one
    whose [id] or [sql] is not a string.  On every other payload it succeeds
    with that [id], [sql] and [name] and a [lastError] that is never
    undefined; it accepts empty strings, and [validate] on the Query it built
    returns true exactly when neither [id] nor [sql] is empty. *)
Theorem fromJSON_cases (json : option Query.QueryPayload) (w : World) :
  (json = None
   /\ Query.fromJSON json w = (Eff.Throw (Eff.TypeError "Invalid Query payload"), w))
  \/ (exists j,
        json = Some j
        /\ (forall i s, ~ (Query.p_id j = JS.VString i /\ Query.p_sql j = JS.VString s))
        /\ Query.fromJSON json w =
             (Eff.Throw (Eff.TypeError "Query payload missing required fields: id, sql"), w))
  \/ (exists j i s q w',
        json = Some j /\ Query.p_id j = JS.VString i /\ Query.p_sql j = JS.VString s
        /\ Query.fromJSON json w = (Eff.Ok q, w')
        /\ Query.id q = i /\ Query.sql q = s /\ Query.name q = Query.p_name j
        /\ Query.lastError q <> Query.Undefined
        /\ (fst (Query.validate q w') = Eff.Ok true <-> i <> "" /\ s <> "")).
Proof.
  destruct json as [j|]; [|left; split; reflexivity].
  right. unfold Query.fromJSON.
  destruct (Query.p_id j) as [| |?|?|i| |] eqn:Hi;
    try (left; exists j; split; [reflexivity|]; split;
         [intros ? ? [? _]; congruence | reflexivity]).
  destruct (Query.p_sql j) as [| |?|?|s| |] eqn:Hs;
    try (left; exists j; split; [reflexivity|]; split;
         [intros ? ? [_ ?]; congruence | reflexivity]).
  right.
  destruct (constructor_run
              {| Query.i_id := i; Query.i_sql := s; Query.i_name := Query.p_name j;
                 Query.i_createdAt := Query.date_field (Query.p_createdAt j);
                 Query.i_updatedAt := Query.date_field (Query.p_updatedAt j);
                 Query.i_status := Query.p_status j;
                 Query.i_lastError := Query.or_null (Query.p_lastError j) |} w)
    as (q & w' & Hq & Hid & Hsql & Hname & _ & Hle & _).
  cbn in Hid, Hsql, Hname, Hle.
  exists j, i, s, q, w'. repeat split; try assumption; try reflexivity.
  - rewrite Hle. now destruct (Query.p_lastError j).
  - rewrite validate_strings in H. rewrite Hid in H.
    destruct (String.eqb_spec i ""); [|assumption].
    destruct (Query.sql q =? "")%string; discriminate.
  - rewrite validate_strings in H. rewrite Hid, Hsql in H.
    destruct (String.eqb_spec i ""), (String.eqb_spec s ""); try discriminate.
    assumption.
  - intros [Hi' Hs']. rewrite validate_ok; [reflexivity | congruence | congruence].
Qed.

(** X8: [clone()] without overrides, and with the empty object, returns a
    Query equal to the original in every field, without reading the clock,
    provided the original's dates are valid (and, as for every constructed
    Query, its [lastError] is not undefined). *)
Theorem clone_identity (q : Query.t) (w : World) :
  JSDate.valid (Query.createdAt q) ->
  JSDate.valid (Query.updatedAt q) ->
  Query.lastError q <> Query.Undefined ->
  Query.clone None q w = (Eff.Ok q, w)
  /\ Query.clone (Some Query.no_overrides) q w = (Eff.Ok q, w).
Proof.
  intros (tc & Ec & Hc) (tu & Eu & Hu) Hl.
  assert (H : Query.clone (Some Query.no_overrides) q w = (Eff.Ok q, w)).
  { unfold Query.clone, Query.toJSON, Eff.bind. rewrite Ec, Eu. cbn [toISOString Eff.ret].
    unfold Query.fromJSON, Query.merge, Query.spread, Query.no_overrides.
    cbn [Query.p_id Query.p_sql Query.p_name Query.p_createdAt Query.p_updatedAt
         Query.p_status Query.p_lastError Query.o_id Query.o_sql Query.o_name
         Query.o_createdAt Query.o_updatedAt Query.o_status Query.o_lastError].
    rewrite !date_field_iso by assumption.
    unfold Query.constructor, Eff.bind, Eff.ret, Query.or_now. cbn.
    rewrite <- Ec, <- Eu. destruct q as [? ? ? ? ? ? le]; cbn in *.
    destruct le; [contradiction | reflexivity | reflexivity]. }
  split; [exact H | exact H].
Qed.

(** X8 at work *)
Lemma clone_identity_witness :
  let q := {| Query.id := "q1"; Query.sql := "SELECT 1"; Query.name := None;
              Query.createdAt := JSDate.ValidDate 1672531200000;
              Query.updatedAt := JSDate.ValidDate 1700000000000;
              Query.status := Query.failed;
              Query.lastError := Query.Value "Syntax error" |} in
  Query.clone None q sample_world = (Eff.Ok q, sample_world).
Proof.
  intros q. refine (proj1 (clone_identity q sample_world _ _ _)).
  - exists 1672531200000. split; [reflexivity | unfold JSDate.maxTime; cbn; lia].
  - exists 1700000000000. split; [reflexivity | unfold JSDate.maxTime; cbn; lia].
  - discriminate.
Defined.

(** X9: for a Query with valid dates, [clone(overrides)] with overrides that
    leave the dates alone and give strings for [id] and [sql] returns the
    original with each overridden field replaced and every other field kept:
    it does not validate (an empty [sql] is taken as it is), an overriding
    [status] of undefined gives "draft", an overriding [lastError] of
    undefined gives null. *)
Theorem clone_overrides
    (q : Query.t) (w : World)
    (new_id new_sql : option string) (new_name : option (option string))
    (new_status : option (option Query.QueryStatus))
    (new_lastError : option (Query.nullable string)) :
  JSDate.valid (Query.createdAt q) ->
  JSDate.valid (Query.updatedAt q) ->
  Query.clone
    (Some {| Query.o_id := option_map JS.VString new_id;
             Query.o_sql := option_map JS.VString new_sql;
             Query.o_name := new_name;
             Query.o_createdAt := None; Query.o_updatedAt := None;
             Query.o_status := new_status;
             Query.o_lastError := new_lastError |}) q w
  = (Eff.Ok {| Query.id := match new_id with Some i => i | None => Query.id q end;
               Query.sql := match new_sql with Some s => s | None => Query.sql q end;
               Query.name := match new_name with Some n => n | None => Query.name q end;
               Query.createdAt := Query.createdAt q;
               Query.updatedAt := Query.updatedAt q;
               Query.status :=
                 match new_status with
                 | Some (Some s) => s
                 | Some None => Query.draft
                 | None => Query.status q
                 end;
               Query.lastError :=
                 match new_lastError with
                 | Some (Query.Value e) => Query.Value e
                 | Some _ => Query.Null
                 | None => Query.or_null (Query.lastError q)
                 end |}, w).
Proof.
  intros (tc & Ec & Hc) (tu & Eu & Hu).
  unfold Query.clone, Query.toJSON, Eff.bind. rewrite Ec, Eu. cbn [toISOString Eff.ret].
  unfold Query.fromJSON, Query.merge, Query.spread.
  cbn [Query.p_id Query.p_sql Query.p_name Query.p_createdAt Query.p_updatedAt
       Query.p_status Query.p_lastError Query.o_id Query.o_sql Query.o_name
       Query.o_createdAt Query.o_updatedAt Query.o_status Query.o_lastError].
  rewrite !date_field_iso by assumption.
  destruct new_id, new_sql; cbn [option_map];
    unfold Query.constructor, Eff.bind, Eff.ret, Query.or_now; cbn;
    destruct new_name, new_status as [[?|]|], new_lastError as [[| |?]|];
    cbn; rewrite ?or_null_idem; reflexivity.
Qed.

(** X9 at work: a copy under a new id, reset to a draft, its text emptied *)
Lemma clone_overrides_witness :
  let q := {| Query.id := "q1"; Query.sql := "SELECT 1"; Query.name := Some "one";
              Query.createdAt := JSDate.ValidDate 1672531200000;
              Query.updatedAt := JSDate.ValidDate 1700000000000;
              Query.status := Query.failed;
              Query.lastError := Query.Value "Syntax error" |} in
  Query.clone
    (Some {| Query.o_id := Some (JS.VString "q2"); Query.o_sql := Some (JS.VString "");
             Query.o_name := None; Query.o_createdAt := None; Query.o_updatedAt := None;
             Query.o_status := Some None; Query.o_lastError := None |}) q sample_world
  = (Eff.Ok {| Query.id := "q2"; Query.sql := ""; Query.name := Some "one";
               Query.createdAt := JSDate.ValidDate 1672531200000;
               Query.updatedAt := JSDate.ValidDate 1700000000000;
               Query.status := Query.draft;
               Query.lastError := Query.Value "Syntax error" |}, sample_world).
Proof.
  intros q.
  refine (clone_overrides q sample_world (Some "q2") (Some "") None (Some None) None _ _).
  - exists 1672531200000. split; [reflexivity | unfold JSDate.maxTime; cbn; lia].
  - exists 1700000000000. split; [reflexivity | unfold JSDate.maxTime; cbn; lia].
Defined.

(** X10: [clone] of a Query that holds an invalid date throws the
    [RangeError] of [toISOString], whatever the overrides, those that would
    replace the date included, and without reading the clock. *)
Theorem clone_invalid_date (overrides : option Query.Overrides) (q : Query.t) (w : World) :
  Query.createdAt q = JSDate.InvalidDate \/ Query.updatedAt q = JSDate.InvalidDate ->
  Query.clone overrides q w = (Eff.Throw (Eff.RangeError "Invalid time value"), w).
Proof.
  intros H. unfold Query.clone, Query.toJSON, Eff.bind.
  destruct (Query.createdAt q) as [tc|]; [|reflexivity].
  destruct H as [H|H]; [discriminate|]. rewrite H. reflexivity.
Qed.

(** X10 at work: the override supplies a good date, to no avail *)
Lemma clone_invalid_date_witness :
  let q := {| Query.id := "q1"; Query.sql := "SELECT 1"; Query.name := None;
              Query.createdAt := JSDate.InvalidDate;
              Query.updatedAt := JSDate.ValidDate 0;
              Query.status := Query.draft; Query.lastError := Query.Null |} in
  let o := {| Query.o_id := None; Query.o_sql := None; Query.o_name := None;
              Query.o_createdAt := Some (Some "2023-01-01T00:00:00.000Z");
              Query.o_updatedAt := None; Query.o_status := None;
              Query.o_lastError := None |} in
  Query.clone (Some o) q sample_world
    = (Eff.Throw (Eff.RangeError "Invalid time value"), sample_world).
Proof.
  intros q o. apply (clone_invalid_date (Some o) q sample_world). now left.
Defined.

End Queries.

(** ** The query service *)

Section Service.
Import Sys QueryService.

(** X11: when a call of [executeQuery] on a valid query is over, the query
    is neither "draft" nor "running".  If the call returned, the query is
    "completed" and its [lastError] is what it was before the call: a success
    does not clear an earlier error.  If the call threw, the query is
    "failed" and its [lastError] is a text.  Either way [id], [sql], [name]
    and [createdAt] keep their values and [updatedAt] is a reading of the
    clock made during the call. *)
Theorem executeQuery_lifecycle
    (query : input) (session : option UserSession.t) (w w1 : World) (q : Query.t) :
  normalize query w = (Eff.Ok q, w1) ->
  Query.id q <> "" -> Query.sql q <> "" ->
  let o := executeQuery query session w in
  exists q' k,
    QueryService.query o = Some q'
    /\ Query.id q' = Query.id q /\ Query.sql q' = Query.sql q
    /\ Query.name q' = Query.name q /\ Query.createdAt q' = Query.createdAt q
    /\ Query.updatedAt q' = JSDate.ValidDate (clock w1 k)
    /\ (tick w1 < k)%nat
    /\ (forall r, returned o = Eff.Ok r ->
          Query.status q' = Query.completed
          /\ Query.lastError q' = Query.lastError q)
    /\ (forall e, returned o = Eff.Throw e ->
          Query.status q' = Query.failed
          /\ exists text, Query.lastError q' = Query.Value text).
Proof.
  intros Hn Hi Hs o. subst o. unfold executeQuery. rewrite Hn.
  rewrite run_outcome by assumption.
  destruct (authenticated session w1).
  - destruct (fst (executeBigQueryQuery (Query.sql q) (projectId w1) w1)) as [r|e].
    + do 2 eexists. split; [reflexivity|]. cbn.
      repeat split; try lia; try discriminate.
    + do 2 eexists. split; [reflexivity|]. cbn.
      repeat split; try lia; try discriminate. eauto.
  - unfold Eff.try_catch. rewrite mock_spec.
    cbn [Query.sql Query.id Query.with_updatedAt Query.with_status tick clock set_tick].
    destruct (isSelect (Query.sql q)); cbn [negb].
    + destruct (from_numbers (Query.sql q)).
      * do 2 eexists. split; [reflexivity|]. cbn.
        repeat split; try lia; try discriminate.
      * do 2 eexists. split; [reflexivity|]. cbn.
        repeat split; try lia; try discriminate.
    + do 2 eexists. split; [reflexivity|]. cbn.
      repeat split; try lia; try discriminate.
Qed.

(** X11 at work: a query that failed before, run again on the mock path *)
Lemma executeQuery_lifecycle_witness :
  let q := {| Query.id := "q1"; Query.sql := "SELECT 1"; Query.name := None;
              Query.createdAt := JSDate.ValidDate 0;
              Query.updatedAt := JSDate.ValidDate 0;
              Query.status := Query.failed;
              Query.lastError := Query.Value "boom" |} in
  let o := executeQuery (Instance q) None sample_world in
  exists q',
    QueryService.query o = Some q'
    /\ Query.status q' = Query.completed
    /\ Query.lastError q' = Query.Value "boom".
Proof.
  intros q o.
  destruct (executeQuery_lifecycle (Instance q) None sample_world sample_world q eq_refl
              ltac:(discriminate) ltac:(discriminate))
    as (q' & k & Hq & _ & _ & _ & _ & _ & _ & Hok & _).
  destruct (Hok _ eq_refl) as (Hst & Hle).
  exists q'. repeat split; assumption.
Defined.



(** X14: the text [executeBigQueryQuery] takes from what its request threw.
    From an object whose [result] is an object with an [error]: that
    error's [message] when it is truthy, else its [code] when that is truthy,
    else "Unknown BigQuery error".  From any other object with a [message],
    whether it has no [result], or one that is not an object, or one without
    [error]: the text of that message, be it empty; so from an [Error], its
    message.  From an object with neither, and from anything that is not an
    object, a thrown string or number included: "Unknown BigQuery error". *)
Theorem errorMessage_cases :
  let unknown := JS.VString "Unknown BigQuery error" in
  let api_error props :=
    exists inner api,
      JS.assoc "result" props = Some (JS.VObject inner)
      /\ JS.assoc "error" inner = Some api in
  (forall props inner api,
     JS.assoc "result" props = Some (JS.VObject inner) ->
     JS.assoc "error" inner = Some api ->
     errorMessage (JS.VObject props) =
       if JS.truthy (JS.get api "message") then JS.get api "message"
       else if JS.truthy (JS.get api "code") then JS.get api "code"
       else unknown)
  /\ (forall props m,
        ~ api_error props -> JS.assoc "message" props = Some m -> JS.exact m ->
        errorMessage (JS.VObject props) = JS.VString (JS.toStr m))
  /\ (forall props,
        ~ api_error props -> JS.assoc "message" props = None ->
        errorMessage (JS.VObject props) = unknown)
  /\ (forall name message, errorMessage (JS.VError name message) = JS.VString message)
  /\ (forall v, JS.typeof v <> "object" -> errorMessage v = unknown)
  /\ errorMessage JS.VNull = unknown.
Proof.
  cbv zeta.
  assert (Ho : forall l, Panel.is_object (JS.VObject l) = true) by reflexivity.
  assert (Hno : forall props,
            ~ (exists inner api,
                 JS.assoc "result" props = Some (JS.VObject inner)
                 /\ JS.assoc "error" inner = Some api) ->
            JS.has_prop "result" (JS.VObject props)
            && JS.truthy (JS.get (JS.VObject props) "result")
            && Panel.is_object (JS.get (JS.VObject props) "result")
            && JS.has_prop "error" (JS.get (JS.VObject props) "result") = false).
  { intros props Hn. cbn [JS.has_prop JS.get].
    destruct (JS.assoc "result" props) as [r|] eqn:Hr; [|reflexivity].
    destruct r as [| |b|n|x|inner|nm msg];
      try (cbn [JS.has_prop]; now rewrite andb_false_r).
    - rewrite Ho. cbn [JS.truthy andb JS.has_prop].
      destruct (JS.assoc "error" inner) as [api|] eqn:He; [|reflexivity].
      exfalso. apply Hn. eauto. }
  repeat split.
  - intros props inner api Hr He. unfold errorMessage.
    rewrite Ho. cbn [JS.truthy andb JS.has_prop JS.get]. rewrite Hr.
    rewrite Ho. cbn [JS.truthy andb JS.has_prop JS.get]. rewrite He.
    unfold JS.or_else.
    destruct (JS.truthy (JS.get api "message")) eqn:Hm; [now rewrite Hm|].
    destruct (JS.truthy (JS.get api "code")) eqn:Hc; rewrite ?Hc; reflexivity.
  - intros props m Hn Hm _. unfold errorMessage.
    rewrite Ho. cbn [JS.truthy andb]. rewrite (Hno props Hn).
    cbn [JS.has_prop JS.get]. now rewrite Hm.
  - intros props Hn Hm. unfold errorMessage.
    rewrite Ho. cbn [JS.truthy andb]. rewrite (Hno props Hn).
    cbn [JS.has_prop]. now rewrite Hm.
  - intros v Hv. unfold errorMessage, Panel.is_object.
    apply String.eqb_neq in Hv. rewrite Hv. now rewrite andb_false_r.
Qed.

(** X14 at work: a rejection whose [result] is null, with a message of its
    own *)
Lemma errorMessage_cases_witness :
  errorMessage (JS.VObject [("result", JS.VNull); ("message", JS.VString "Network error")])
    = JS.VString "Network error".
Proof.
  refine (proj1 (proj2 errorMessage_cases)
            [("result", JS.VNull); ("message", JS.VString "Network error")]
            (JS.VString "Network error") _ eq_refl I).
  intros (inner & api & H & _). discriminate H.
Defined.

(** An API error that carries only a code *)
Example errorMessage_code :
  errorMessage (JS.VObject [("status", JS.VNumber 403);
                            ("result", JS.VObject [("error",
                               JS.VObject [("code", JS.VNumber 403)])])])
    = JS.VNumber 403.
Proof. reflexivity. Qed.

End Service.

(** ** Schemas and the mock's patterns *)

Section Patterns.
Import QueryService.

(** X15: [convertBigQuerySchema] gives no field for an absent argument and
    otherwise one field for each it is given, in the same order.  The name of
    the result is the name given when there is one and it is not empty, and
    "unknown" when it is missing or empty; the type likewise, independently
    of the name. *)
Theorem convertBigQuerySchema_spec (fields : list BigQueryField) :
  convertBigQuerySchema None = []
  /\ List.length (convertBigQuerySchema (Some fields)) = List.length fields
  /\ (forall i field,
        nth_error fields i = Some field ->
        exists n t,
          nth_error (convertBigQuerySchema (Some fields)) i = Some (n, t)
          /\ (forall x, f_name field = Some x -> x <> "" -> n = x)
          /\ (f_name field = None \/ f_name field = Some "" -> n = "unknown")
          /\ (forall x, f_type field = Some x -> x <> "" -> t = x)
          /\ (f_type field = None \/ f_type field = Some "" -> t = "unknown")).
Proof.
  assert (Hsome : forall o x, o = Some x -> x <> "" -> or_unknown o = x).
  { intros o x -> Hx. cbn. apply String.eqb_neq in Hx. now rewrite Hx. }
  assert (Hnone : forall o, o = None \/ o = Some "" -> or_unknown o = "unknown").
  { intros o [-> | ->]; reflexivity. }
  unfold convertBigQuerySchema. repeat split.
  - apply length_map.
  - intros i field Hi. rewrite nth_error_map, Hi. cbn [option_map].
    do 2 eexists. split; [reflexivity|]. repeat split; auto.
Qed.

(** X15 at work: a field without a name and with an empty type *)
Lemma convertBigQuerySchema_spec_witness :
  nth_error
    (convertBigQuerySchema
       (Some [ {| f_name := Some "id"; f_type := Some "INTEGER" |};
               {| f_name := None; f_type := Some "" |} ])) 1
  = Some ("unknown", "unknown").
Proof.
  destruct (proj2 (proj2 (convertBigQuerySchema_spec
                     [ {| f_name := Some "id"; f_type := Some "INTEGER" |};
                       {| f_name := None; f_type := Some "" |} ]))
              1%nat {| f_name := None; f_type := Some "" |} eq_refl)
    as (n & t & H & _ & Hn & _ & Ht).
  rewrite H. now rewrite (Hn (or_introl eq_refl)), (Ht (or_intror eq_refl)).
Defined.

Lemma lower_space (c : ascii) : lower c = " "%char -> c = " "%char.
Proof.
  unfold lower.
  destruct ((65 <=? nat_of_ascii c)%nat && (nat_of_ascii c <=? 90)%nat) eqn:E;
    [|auto].
  intros H. apply andb_true_iff in E. destruct E as [E1 E2].
  apply Nat.leb_le in E1, E2.
  apply (f_equal nat_of_ascii) in H.
  rewrite nat_ascii_embedding in H by lia. cbn in H. lia.
Qed.

Lemma lower_n_not_space (c : ascii) : lower c = "n"%char -> JS.is_space c = false.
Proof.
  unfold lower, JS.is_space.
  destruct ((65 <=? nat_of_ascii c)%nat && (nat_of_ascii c <=? 90)%nat) eqn:E.
  - intros _. apply andb_true_iff in E. destruct E as [E1 E2].
    apply Nat.leb_le in E1, E2.
    apply orb_false_iff. split; [apply orb_false_iff; split|].
    + apply andb_false_iff. right. apply Nat.leb_gt. lia.
    + apply Nat.eqb_neq. lia.
    + apply Nat.eqb_neq. lia.
  - intros ->. reflexivity.
Qed.

(** The literal, met at the start of a text, is a match of the pattern
    there. *)
Lemma literal_matches_here (s r : string) :
  after_ci "from numbers" s = Some r -> from_numbers_here s = true.
Proof.
  unfold from_numbers_here.
  destruct s as [|c1 [|c2 [|c3 [|c4 [|c5 [|c6 rest]]]]]]; cbn [after_ci];
    try discriminate;
    try (repeat (destruct (Ascii.eqb _ _); try discriminate); fail).
  destruct (Ascii.eqb (lower c1) "f"); [|discriminate].
  destruct (Ascii.eqb (lower c2) "r"); [|discriminate].
  destruct (Ascii.eqb (lower c3) "o"); [|discriminate].
  destruct (Ascii.eqb (lower c4) "m"); [|discriminate].
  destruct (Ascii.eqb_spec (lower c5) " ") as [H5|]; [|discriminate].
  destruct (Ascii.eqb_spec (lower c6) "n") as [H6|]; [|discriminate].
  intros H. apply lower_space in H5. subst c5.
  replace (JS.is_space " ") with true by reflexivity.
  cbn [JS.trimStart]. rewrite (lower_n_not_space c6 H6).
  cbn [after_ci]. rewrite H6. cbn [Ascii.eqb Bool.eqb]. cbn. now rewrite H.
Qed.

(** X16: the pattern [from\s+numbers] is at least as wide as the literal: a
    text that contains "from numbers", in any mix of upper and lower case,
    matches it. *)
Theorem contains_from_numbers (s : string) :
  contains_ci "from numbers" s = true -> from_numbers s = true.
Proof.
  induction s as [|c s IH].
  - discriminate.
  - intros H. cbn [contains_ci] in H. cbn [from_numbers].
    destruct (after_ci "from numbers" (String c s)) as [r|] eqn:E.
    + now rewrite (literal_matches_here _ _ E).
    + rewrite (IH H). apply orb_true_r.
Qed.

(** X16 at work *)
Lemma contains_from_numbers_witness :
  from_numbers "select n FROM Numbers limit 2" = true.
Proof.
  apply contains_from_numbers. reflexivity.
Defined.

End Patterns.

(** ** The execute endpoint, continued *)

Section EndpointSteps.
Import Sys Api.

Lemma blank_nonempty (sql : string) : JS.blank sql = false -> sql <> "".
Proof. intros H ->. discriminate H. Qed.

Lemma normalize_world (query : QueryService.input) (w : World) :
  exists k, snd (QueryService.normalize query w) = set_tick k w.
Proof.
  destruct query as [q|[j|]]; cbn.
  - exists (tick w). now rewrite set_tick_same.
  - unfold Query.fromJSON.
    destruct (Query.p_id j); try (exists (tick w); now rewrite set_tick_same).
    destruct (Query.p_sql j); try (exists (tick w); now rewrite set_tick_same).
    unfold Query.constructor, Eff.bind, Query.or_now, Date_new, Date_now, Eff.bind, Eff.ret.
    destruct (Query.date_field (Query.p_createdAt j)),
             (Query.date_field (Query.p_updatedAt j)); cbn;
      try (eexists; reflexivity).
    exists (tick w). now rewrite set_tick_same.
  - exists (tick w). now rewrite set_tick_same.
Qed.

(** Whatever happens, [executeQuery] changes the world by clock readings
    only. *)
Lemma executeQuery_world (query : QueryService.input) (session : option UserSession.t)
    (w : World) :
  exists k, QueryService.world (QueryService.executeQuery query session w) = set_tick k w.
Proof.
  unfold QueryService.executeQuery.
  destruct (normalize_world query w) as (k0 & Hk0).
  destruct (QueryService.normalize query w) as [[q|e] w1]; cbn in Hk0; subst w1;
    [|now exists k0].
  destruct (String.eqb_spec (Query.id q) "") as [Hi|Hi].
  { destruct (validate_invalid QueryService.Exec q (set_tick k0 w, q) (or_introl Hi))
      as (f & Hv).
    rewrite (run_invalid _ _ _ _ Hv). now exists k0. }
  destruct (String.eqb_spec (Query.sql q) "") as [Hs|Hs].
  { destruct (validate_invalid QueryService.Exec q (set_tick k0 w, q) (or_intror Hs))
      as (f & Hv).
    rewrite (run_invalid _ _ _ _ Hv). now exists k0. }
  rewrite run_outcome by assumption.
  destruct (QueryService.authenticated session (set_tick k0 w)).
  - destruct (fst (QueryService.executeBigQueryQuery _ _ _)); eexists; reflexivity.
  - unfold Eff.try_catch. rewrite mock_spec.
    cbn [Query.sql Query.with_updatedAt Query.with_status].
    destruct (QueryService.isSelect (Query.sql q)); cbn [negb];
      [destruct (QueryService.from_numbers (Query.sql q))|]; eexists; reflexivity.
Qed.

(** The payload the endpoint builds *)
Lemma endpoint_steps (b : ExecuteRequest) (sql : string) (w : World) :
  query b = JS.VString sql -> JS.blank sql = false ->
  authToken b <> Some "invalid-token" ->
  let session :=
    match authToken b with
    | Some tok => if UserSession.nonempty (Some tok) then Some (token_session tok) else None
    | None => None
    end in
  let ws :=
    match session with
    | Some s => AuthGoogle.signed_in_world s w
    | None => w
    end in
  let the_id :=
    match id b with
    | Some i => i
    | None => "local-" ++ toString36 (clock w (tick w))
    end in
  let w1 := match id b with Some _ => ws | None => set_tick (S (tick w)) ws end in
  let o := QueryService.executeQuery
             (QueryService.Payload (Some
                {| Query.p_id := JS.VString the_id; Query.p_sql := JS.VString sql;
                   Query.p_name := name b; Query.p_createdAt := None;
                   Query.p_updatedAt := None; Query.p_status := None;
                   Query.p_lastError := Query.Undefined |})) session w1 in
  executeEndpoint (Some b) w = (Eff.Ok (answer (QueryService.returned o)), QueryService.world o).
Proof.
  intros Hq Hb Ht. cbv zeta. unfold executeEndpoint. rewrite Hq, Hb.
  replace (match authToken b with
           | Some tok => (tok =? "invalid-token")%string
           | None => false
           end) with false.
  2:{ destruct (authToken b) as [tok|]; [|reflexivity].
      symmetry. apply String.eqb_neq. congruence. }
  unfold Eff.try_catch.
  set (session := match authToken b with
                  | Some tok =>
                      if UserSession.nonempty (Some tok) then Some (token_session tok) else None
                  | None => None
                  end).
  set (ws := match session with
             | Some s => AuthGoogle.signed_in_world s w
             | None => w
             end).
  assert (Hs :
    match authToken b with
    | Some tok =>
        if UserSession.nonempty (Some tok) then
          (Eff.bind (AuthService.signInWithToken
             {| AuthService.provider := None; AuthService.userId := None;
                AuthService.accessToken := tok; AuthService.refreshToken := None;
                AuthService.expiresIn := None |}) (fun s => Eff.ret (Some s)))
        else Eff.ret None
    | None => Eff.ret None
    end w = (Eff.Ok session, ws)).
  { subst ws session. destruct (authToken b) as [tok|]; [|reflexivity].
    destruct (UserSession.nonempty (Some tok)); [|reflexivity].
    unfold Eff.bind. rewrite signInWithToken_cases. reflexivity. }
  assert (Hws : clock ws = clock w /\ tick ws = tick w).
  { subst ws. destruct session; [|auto].
    unfold AuthGoogle.signed_in_world. now destruct (localStorage w). }
  destruct Hws as (Hc & Hk).
  unfold Eff.bind at 1. rewrite Hs. unfold Eff.bind at 1.
  destruct (id b) as [i|].
  - cbn [Eff.ret]. unfold Eff.bind at 1. unfold callExecuteQuery.
    destruct (QueryService.returned _) as [r|e]; cbn [answer Eff.ret]; [reflexivity|].
    destruct (_ =? _)%string; reflexivity.
  - unfold Eff.bind at 1. cbn [Date_now Eff.ret]. unfold Eff.bind at 1.
    unfold callExecuteQuery. rewrite Hc, Hk.
    destruct (QueryService.returned _) as [r|e]; cbn [answer Eff.ret]; [reflexivity|].
    destruct (_ =? _)%string; reflexivity.
Qed.

(** The query the adapter builds from the endpoint's payload *)
Lemma endpoint_query (the_id sql : string) (nm : option string) (w : World) :
  QueryService.normalize
    (QueryService.Payload (Some
       {| Query.p_id := JS.VString the_id; Query.p_sql := JS.VString sql;
          Query.p_name := nm; Query.p_createdAt := None;
          Query.p_updatedAt := None; Query.p_status := None;
          Query.p_lastError := Query.Undefined |})) w
  = (Eff.Ok {| Query.id := the_id; Query.sql := sql; Query.name := nm;
               Query.createdAt := JSDate.ValidDate (clock w (tick w));
               Query.updatedAt := JSDate.ValidDate (clock w (S (tick w)));
               Query.status := Query.draft; Query.lastError := Query.Null |},
     set_tick (S (S (tick w))) w).
Proof. reflexivity. Qed.

(** X17: without a token (absent or empty), a request with a query that is
    not blank and an [id] that is absent or not empty is always answered 200
    "success" with a null error and the job local-<id>; nobody is signed in
    and nothing is stored: the current session and the store are as
    before. *)
Theorem executeEndpoint_without_token (b : ExecuteRequest) (sql : string) (w : World) :
  query b = JS.VString sql -> JS.blank sql = false ->
  authToken b = None \/ authToken b = Some "" ->
  id b <> Some "" ->
  exists r w',
    executeEndpoint (Some b) w =
      (Eff.Ok {| statusCode := 200;
                 body := {| results := rows r; schema := Some (Sys.schema r);
                            status := "success"; error := None;
                            jobId := Sys.jobId r |} |}, w')
    /\ Sys.jobId r =
         Some ("local-" ++ match id b with
                           | Some i => i
                           | None => "local-" ++ toString36 (clock w (tick w))
                           end)
    /\ currentSession w' = currentSession w
    /\ localStorage w' = localStorage w.
Proof.
  intros Hq Hb Ht Hid.
  assert (Hinv : authToken b <> Some "invalid-token")
    by (destruct Ht as [-> | ->]; discriminate).
  rewrite (endpoint_steps b sql w Hq Hb Hinv).
  replace (match authToken b with
           | Some tok =>
               if UserSession.nonempty (Some tok) then Some (token_session tok) else None
           | None => None
           end) with (@None UserSession.t)
    by (destruct Ht as [-> | ->]; reflexivity).
  cbv zeta.
  set (the_id := match id b with
                 | Some i => i
                 | None => "local-" ++ toString36 (clock w (tick w))
                 end).
  assert (Hne : the_id <> "").
  { subst the_id. destruct (id b) as [i|]; [congruence | discriminate]. }
  set (w1 := match id b with Some _ => w | None => set_tick (S (tick w)) w end).
  assert (Hw1 : currentSession w1 = currentSession w /\ localStorage w1 = localStorage w)
    by (subst w1; destruct (id b); auto).
  destruct (executeQuery_world
              (QueryService.Payload (Some
                 {| Query.p_id := JS.VString the_id; Query.p_sql := JS.VString sql;
                    Query.p_name := name b; Query.p_createdAt := None;
                    Query.p_updatedAt := None; Query.p_status := None;
                    Query.p_lastError := Query.Undefined |})) None w1) as (k & Hk).
  rewrite Hk. clear Hk.
  unfold QueryService.executeQuery. rewrite endpoint_query.
  rewrite run_outcome by (cbn; auto using blank_nonempty).
  cbn [QueryService.authenticated]. unfold Eff.try_catch. rewrite mock_spec.
  cbn [Query.sql Query.id Query.with_updatedAt Query.with_status].
  destruct (QueryService.isSelect sql); cbn [negb];
    [destruct (QueryService.from_numbers sql)|];
    cbn [QueryService.returned answer success];
    do 2 eexists; (split; [reflexivity|]); cbn; tauto.
Qed.

(** X17 at work *)
Lemma executeEndpoint_without_token_witness :
  let b := {| query := JS.VString "DROP TABLE x"; authToken := Some "";
              id := None; name := None |} in
  exists r w',
    executeEndpoint (Some b) sample_world = (Eff.Ok (success r), w')
    /\ Sys.jobId r = Some "local-local-loyw3v28"
    /\ currentSession w' = currentSession sample_world
    /\ localStorage w' = Items [].
Proof.
  intros b.
  exact (executeEndpoint_without_token b "DROP TABLE x" sample_world
           eq_refl eq_refl (or_intror eq_refl) ltac:(discriminate)).
Defined.

(** X18: an [id] given as the empty string is not replaced by a generated
    one: with a query that is not blank and a token other than
    "invalid-token", the request is answered 500 with the validation message
    for [id], whoever signs in. *)
Theorem executeEndpoint_empty_id (b : ExecuteRequest) (sql : string) (w : World) :
  query b = JS.VString sql -> JS.blank sql = false ->
  authToken b <> Some "invalid-token" ->
  id b = Some "" ->
  fst (executeEndpoint (Some b) w) =
    Eff.Ok {| statusCode := 500;
              body := {| results := []; schema := None; status := "error";
                         error := Some "Query validation failed: id is required";
                         jobId := None |} |}.
Proof.
  intros Hq Hb Ht Hid. rewrite (endpoint_steps b sql w Hq Hb Ht). cbv zeta.
  rewrite Hid. cbn [fst]. unfold QueryService.executeQuery. rewrite endpoint_query.
  match goal with
  | |- context [QueryService.run ?s (?w0, ?q0)] =>
      assert (Hv : Query.validate q0 (w0, q0) =
                   (Eff.Throw (Eff.Error "Query validation failed: id is required"),
                    (w0, q0)))
  end.
  { rewrite validate_strings. cbn [Query.id Query.sql].
    destruct (String.eqb_spec sql "") as [E|_]; [|reflexivity].
    now apply blank_nonempty in Hb. }
  rewrite (run_invalid _ _ _ _ Hv). reflexivity.
Qed.

(** X18 at work *)
Lemma executeEndpoint_empty_id_witness :
  let b := {| query := JS.VString "SELECT 1"; authToken := Some "good";
              id := Some ""; name := None |} in
  fst (executeEndpoint (Some b) sample_world) =
    Eff.Ok (failure 500 "Query validation failed: id is required").
Proof.
  intros b.
  apply (executeEndpoint_empty_id b "SELECT 1" sample_world); try reflexivity.
  discriminate.
Defined.

(** What the API call returns or throws depends on the [gapi] client only. *)
Lemma executeBigQueryQuery_gapi (sql pid : string) (w w' : World) :
  gapi w' = gapi w ->
  fst (QueryService.executeBigQueryQuery sql pid w')
    = fst (QueryService.executeBigQueryQuery sql pid w).
Proof.
  intros Hg.
  unfold QueryService.executeBigQueryQuery, Eff.bind, QueryService.initializeBigQueryAPI.
  rewrite Hg.
  destruct (loaded (gapi w)); cbn [negb]; [|reflexivity].
  destruct (bigquery_ready (gapi w)).
  - unfold Eff.try_catch, Eff.throw. rewrite Hg.
    destruct (jobs_query (gapi w) sql pid) as [[r|]|e]; reflexivity.
  - destruct (Sys.load_rejects (gapi w)); [reflexivity|].
    unfold Eff.try_catch, Eff.throw. rewrite Hg.
    destruct (jobs_query (gapi w) sql pid) as [[r|]|e]; reflexivity.
Qed.

(** X19: a request with a token (not empty, not "invalid-token"), a query
    that is not blank and an [id] that is absent or not empty signs that
    token in, as the current session, whatever comes of the query, and always
    takes the API path: it is answered 200 with the API's result when the API
    call returns one, and 401 or 500, never the mock's rows, when the call
    throws. *)
Theorem executeEndpoint_with_token
    (b : ExecuteRequest) (sql tok : string) (w : World) :
  query b = JS.VString sql -> JS.blank sql = false ->
  authToken b = Some tok -> tok <> "" -> tok <> "invalid-token" ->
  id b <> Some "" ->
  let api := fst (QueryService.executeBigQueryQuery sql (QueryService.projectId w) w) in
  let out := executeEndpoint (Some b) w in
  currentSession (snd out) = token_session tok
  /\ (forall r, api = Eff.Ok r ->
        fst out =
          Eff.Ok {| statusCode := 200;
                    body := {| results := rows r; schema := Some (Sys.schema r);
                               status := "success"; error := None;
                               jobId := Sys.jobId r |} |})
  /\ (forall e, api = Eff.Throw e ->
        fst out = Eff.Ok (failure 401 "Authentication failed")
        \/ exists message, fst out = Eff.Ok (failure 500 message)).
Proof.
  intros Hq Hb Ht Htok Hinv Hid.
  assert (Hinv' : authToken b <> Some "invalid-token") by (rewrite Ht; congruence).
  cbv zeta. rewrite (endpoint_steps b sql w Hq Hb Hinv'). cbv zeta. rewrite Ht.
  assert (Hne : UserSession.nonempty (Some tok) = true)
    by (apply nonempty_spec; eauto).
  rewrite Hne.
  set (ws := AuthGoogle.signed_in_world (token_session tok) w).
  assert (Hws : gapi ws = gapi w /\ envProjectId ws = envProjectId w
                /\ currentSession ws = token_session tok).
  { subst ws. unfold AuthGoogle.signed_in_world. now destruct (localStorage w). }
  destruct Hws as (Hg & He & Hc).
  set (the_id := match id b with
                 | Some i => i
                 | None => "local-" ++ toString36 (clock w (tick w))
                 end).
  assert (Hidne : the_id <> "").
  { subst the_id. destruct (id b) as [i|]; [congruence | discriminate]. }
  set (w1 := match id b with Some _ => ws | None => set_tick (S (tick w)) ws end).
  assert (Hw1 : gapi w1 = gapi w /\ envProjectId w1 = envProjectId w
                /\ currentSession w1 = token_session tok)
    by (subst w1; destruct (id b); auto).
  destruct Hw1 as (Hg1 & He1 & Hc1).
  cbn [fst snd].
  destruct (executeQuery_world
              (QueryService.Payload (Some
                 {| Query.p_id := JS.VString the_id; Query.p_sql := JS.VString sql;
                    Query.p_name := name b; Query.p_createdAt := None;
                    Query.p_updatedAt := None; Query.p_status := None;
                    Query.p_lastError := Query.Undefined |}))
              (Some (token_session tok)) w1) as (k & Hk).
  rewrite Hk. split; [exact Hc1|]. clear Hk.
  unfold QueryService.executeQuery. rewrite endpoint_query.
  rewrite run_outcome by (cbn; auto using blank_nonempty).
  replace (QueryService.authenticated (Some (token_session tok))
             (set_tick (S (S (tick w1))) w1)) with true.
  2:{ symmetry. unfold QueryService.authenticated, UserSession.isAuthenticated, token_session.
      cbn [UserSession.accessToken UserSession.expiresAt]. now rewrite Hne. }
  cbn [Query.sql].
  replace (QueryService.projectId (set_tick (S (S (tick w1))) w1))
    with (QueryService.projectId w)
    by (unfold QueryService.projectId; cbn [envProjectId set_tick]; now rewrite He1).
  rewrite (executeBigQueryQuery_gapi sql (QueryService.projectId w)
             w (set_tick (S (S (tick w1))) w1)) by exact Hg1.
  split.
  - intros r ->. reflexivity.
  - intros e ->. cbn [QueryService.returned answer].
    destruct (_ =? _)%string; [now left | right; eauto].
Qed.

(** X19 at work: a token, and no [gapi] to call *)
Lemma executeEndpoint_with_token_witness :
  let b := {| query := JS.VString "SELECT * FROM numbers"; authToken := Some "good";
              id := Some "q1"; name := None |} in
  let out := executeEndpoint (Some b) sample_world in
  currentSession (snd out) = token_session "good"
  /\ (fst out = Eff.Ok (failure 401 "Authentication failed")
      \/ exists message, fst out = Eff.Ok (failure 500 message)).
Proof.
  intros b out.
  destruct (executeEndpoint_with_token b "SELECT * FROM numbers" "good" sample_world
              eq_refl eq_refl eq_refl ltac:(discriminate) ltac:(discriminate)
              ltac:(discriminate)) as (Hc & _ & He).
  split; [exact Hc|].
  exact (He _ eq_refl).
Defined.

End EndpointSteps.

(** ** Panels *)

Section Panels.

Lemma constructed_open (payload : JS.value) (p : Panel.t) :
  Panel.constructor payload = Eff.Ok p -> JS.nullish (Panel.open p) = false.
Proof.
  unfold Panel.constructor.
  destruct (negb (JS.truthy payload) || negb (Panel.is_object payload)); [discriminate|].
  intros [= <-]. cbn [Panel.open]. unfold JS.nullish_or.
  destruct (JS.nullish (JS.get payload "open")) eqn:E; [reflexivity | exact E].
Qed.

(** X20: a Panel that the constructor built survives [toJSON] followed by
    [fromJSON] unchanged, whatever its payload held: serialisation never
    fails and loses nothing. *)
Theorem Panel_roundtrip (payload : JS.value) (p : Panel.t) :
  Panel.constructor payload = Eff.Ok p ->
  Panel.fromJSON (Panel.toJSON p) = Eff.Ok p.
Proof.
  intros H. apply constructed_open in H.
  destruct p as [i t ti o n]. cbn [Panel.open] in H.
  unfold Panel.fromJSON, Panel.toJSON, Panel.constructor. cbn.
  unfold JS.nullish_or. now rewrite H.
Qed.

(** X20 at work: a payload with a textual [open] and no [order] *)
Lemma Panel_roundtrip_witness :
  let p := {| Panel.id := JS.VString "p1"; Panel.type := JS.VString "schema";
              Panel.title := JS.VUndefined; Panel.open := JS.VString "yes";
              Panel.order := 0 |} in
  Panel.fromJSON (Panel.toJSON p) = Eff.Ok p.
Proof.
  intros p.
  apply (Panel_roundtrip
           (JS.VObject [("id", JS.VString "p1"); ("type", JS.VString "schema");
                        ("open", JS.VString "yes")]) p).
  reflexivity.
Defined.

(** X21: [toggle] returns the new [open] state, the negation of the old one
    read as a truth value, and touches nothing else; two toggles in a row
    restore a boolean [open] exactly.  [openPanel] and [closePanel] set the
    state whatever it was, so each is idempotent and the last one wins. *)
Theorem Panel_toggle_spec (p : Panel.t) :
  let (p1, r1) := Panel.toggle p in
  let (p2, r2) := Panel.toggle p1 in
  r1 = negb (JS.truthy (Panel.open p))
  /\ p1 = Panel.set_open (JS.VBool r1) p
  /\ r2 = JS.truthy (Panel.open p)
  /\ (forall b, Panel.open p = JS.VBool b -> p2 = p)
  /\ Panel.openPanel (Panel.openPanel p) = Panel.openPanel p
  /\ Panel.closePanel (Panel.closePanel p) = Panel.closePanel p
  /\ Panel.openPanel (Panel.closePanel p) = Panel.openPanel p
  /\ Panel.closePanel (Panel.openPanel p) = Panel.closePanel p
  /\ snd (Panel.toggle (Panel.closePanel p)) = true
  /\ snd (Panel.toggle (Panel.openPanel p)) = false.
Proof.
  destruct p as [i t ti o n]. cbn. repeat split.
  - apply negb_involutive.
  - intros b ->. cbn. now rewrite negb_involutive.
Qed.

(** X21 at work *)
Lemma Panel_toggle_spec_witness :
  let p := {| Panel.id := JS.VString "p1"; Panel.type := JS.VString "results";
              Panel.title := JS.VUndefined; Panel.open := JS.VBool false;
              Panel.order := 2 |} in
  fst (Panel.toggle (fst (Panel.toggle p))) = p.
Proof.
  intros p.
  pose proof (Panel_toggle_spec p) as H. cbn in H.
  exact (proj1 (proj2 (proj2 (proj2 H))) false eq_refl).
Defined.

End Panels.

(** ** The panel manager, continued *)

Section Manager.
Import PanelManager.

(** X22: the four toggles are involutions and commute with one another, so
    the panels a sequence of toggles leaves open do not depend on its order;
    closing all panels is idempotent and undoes any toggle made before it. *)
Theorem toggles_compose (s : State) :
  toggleResults (toggleResults s) = s
  /\ toggleSchema (toggleSchema s) = s
  /\ toggleSettings (toggleSettings s) = s
  /\ toggleKeyboardHelp (toggleKeyboardHelp s) = s
  /\ toggleResults (toggleSchema s) = toggleSchema (toggleResults s)
  /\ toggleResults (toggleSettings s) = toggleSettings (toggleResults s)
  /\ toggleResults (toggleKeyboardHelp s) = toggleKeyboardHelp (toggleResults s)
  /\ toggleSchema (toggleSettings s) = toggleSettings (toggleSchema s)
  /\ toggleSchema (toggleKeyboardHelp s) = toggleKeyboardHelp (toggleSchema s)
  /\ toggleSettings (toggleKeyboardHelp s) = toggleKeyboardHelp (toggleSettings s)
  /\ closeAllPanels (closeAllPanels s) = closeAllPanels s
  /\ closeAllPanels (toggleResults s) = closeAllPanels s
  /\ closeAllPanels (toggleSchema s) = closeAllPanels s
  /\ closeAllPanels (toggleSettings s) = closeAllPanels s
  /\ closeAllPanels (toggleKeyboardHelp s) = closeAllPanels s.
Proof.
  destruct s as [r c g h q rs ex].
  unfold toggleResults, toggleSchema, toggleSettings, toggleKeyboardHelp, closeAllPanels.
  cbn. rewrite !negb_involutive. repeat split.
Qed.

(** X23: Ctrl+E always suppresses the default handling.  On a query text
    that is empty or all white space it changes nothing and starts nothing;
    otherwise it leaves the handler with [isExecuting] set, the results panel
    open, every other part of the state as it was, and one run waiting for
    its timer. *)
Theorem onKeydown_execute (s : State) (e : KeyboardEvent) :
  key e = "e" -> ctrlKey e = true ->
  let h := onKeydown e s in
  defaultPrevented h = true
  /\ (JS.blank (query s) = true -> state h = s /\ started h = Returned)
  /\ (JS.blank (query s) = false ->
      started h = AwaitingTimer
      /\ isExecutingQuery (state h) = true
      /\ showResults (state h) = true
      /\ showSchema (state h) = showSchema s
      /\ showSettings (state h) = showSettings s
      /\ showKeyboardHelp (state h) = showKeyboardHelp s
      /\ query (state h) = query s
      /\ queryResults (state h) = queryResults s).
Proof.
  intros Hk Hc. unfold onKeydown, handleExecuteQuery_begin. rewrite Hk, Hc.
  replace ("e" =? "r")%string with false by reflexivity.
  replace ("e" =? "s")%string with false by reflexivity.
  replace ("e" =? ",")%string with false by reflexivity.
  replace ("e" =? "e")%string with true by reflexivity.
  destruct (JS.blank (query s)); cbn; repeat split; intros; try discriminate; reflexivity.
Qed.

(** X23 at work *)
Lemma onKeydown_execute_witness :
  let s := {| showResults := false; showSchema := true; showSettings := false;
              showKeyboardHelp := false; query := "SELECT 1"; queryResults := [];
              isExecutingQuery := false |} in
  let e := {| key := "e"; ctrlKey := true; shiftKey := false; altKey := false;
              metaKey := true |} in
  let h := onKeydown e s in
  started h = AwaitingTimer /\ isExecutingQuery (state h) = true
  /\ showResults (state h) = true.
Proof.
  intros s e h.
  destruct (proj2 (proj2 (onKeydown_execute s e eq_refl eq_refl)) eq_refl)
    as (H1 & H2 & H3 & _).
  repeat split; assumption.
Defined.

(** X24: what happens while a run waits.  Nothing stops a second run from
    starting, and when the first of two overlapping runs finishes
    [isExecuting] is false although the second still waits.  Panels closed
    with Escape during the wait stay closed when the run finishes: the
    results arrive without the results panel being reopened.  A change of
    the query text during the wait is kept. *)
Theorem runs_interleave (s : State) (text : string) (escape : KeyboardEvent) :
  JS.blank (query s) = false ->
  key escape = "Escape" -> ctrlKey escape = false ->
  let waiting := fst (handleExecuteQuery_begin s) in
  let finish st := snd (handleExecuteQuery_resume (Eff.Ok tt) st) in
  handleExecuteQuery_begin waiting = (waiting, AwaitingTimer)
  /\ isExecutingQuery (finish waiting) = false
  /\ finish (finish waiting) = finish waiting
  /\ (let closed := state (onKeydown escape waiting) in
      showResults (finish closed) = false
      /\ queryResults (finish closed) = sample_results
      /\ isExecutingQuery (finish closed) = false)
  /\ query (finish {| showResults := showResults waiting;
                      showSchema := showSchema waiting;
                      showSettings := showSettings waiting;
                      showKeyboardHelp := showKeyboardHelp waiting;
                      query := text;
                      queryResults := queryResults waiting;
                      isExecutingQuery := isExecutingQuery waiting |}) = text.
Proof.
  intros Hb Hk Hc. unfold handleExecuteQuery_begin, onKeydown. rewrite Hb, Hk, Hc.
  cbn -[JS.blank sample_results]. rewrite Hb. repeat split.
Qed.

(** X24 at work *)
Lemma runs_interleave_witness :
  let s := {| showResults := false; showSchema := false; showSettings := false;
              showKeyboardHelp := false; query := "SELECT 1"; queryResults := [];
              isExecutingQuery := false |} in
  let waiting := fst (handleExecuteQuery_begin s) in
  handleExecuteQuery_begin waiting = (waiting, AwaitingTimer).
Proof.
  intros s waiting.
  exact (proj1 (runs_interleave s ""
                  {| key := "Escape"; ctrlKey := false; shiftKey := true;
                     altKey := false; metaKey := false |} eq_refl eq_refl eq_refl)).
Defined.

End Manager.

(** ** Signing in and out with Google *)

Section Google.
Import Sys AuthGoogle.


Lemma signOut_run (w : World) :
  AuthService.signOut w =
    (Eff.Ok tt,
     match localStorage w with
     | Unavailable _ => set_currentSession cleared w
     | Items l =>
         set_localStorage (Items (remove_key AuthService.STORAGE_KEY l))
           (set_currentSession cleared w)
     end).
Proof.
  unfold AuthService.signOut, Eff.bind, Eff.modify, Eff.try_catch, removeItem.
  cbn [localStorage set_currentSession]. now destruct (localStorage w).
Qed.


(** X26: [signOutFromGoogle] never throws and always signs out locally,
    whatever the provider does: the current session ends with every field
    null and the store without the session's key (a store that throws stays as
    it is), be the API initialised or not and be the provider's own sign-out
    rejected or not. *)
Theorem signOutFromGoogle_outcomes (g : Auth2) (st : GState) :
  exists st',
    signOutFromGoogle g st = (Eff.Ok tt, st')
    /\ snd st' = snd st
    /\ currentSession (fst st') = cleared
    /\ match localStorage (fst st) with
       | Unavailable e => localStorage (fst st') = Unavailable e
       | Items l =>
           localStorage (fst st') = Items (remove_key AuthService.STORAGE_KEY l)
       end.
Proof.
  destruct st as [w b]. unfold signOutFromGoogle, Eff.try_catch.
  unfold Eff.bind at 1. unfold Eff.on_fst. cbn [fst snd]. rewrite signOut_run.
  set (w' := match localStorage w with
             | Unavailable _ => set_currentSession cleared w
             | Items l =>
                 set_localStorage (Items (remove_key AuthService.STORAGE_KEY l))
                   (set_currentSession cleared w)
             end).
  assert (Hw' : currentSession w' = cleared
                /\ match localStorage w with
                   | Unavailable e => localStorage w' = Unavailable e
                   | Items l => localStorage w' = Items (remove_key AuthService.STORAGE_KEY l)
                   end).
  { subst w'. destruct (localStorage w) eqn:E; cbn; auto. }
  unfold Eff.bind, Eff.gets, Eff.ret. cbn [fst snd].
  destruct (b && loaded (gapi w')).
  - destruct (getAuthInstance g) as [inst|].
    + destruct (signOut inst) as [[]|e]; eexists; (split; [reflexivity|]);
        cbn [fst snd]; tauto.
    + eexists. split; [reflexivity|]. cbn [fst snd]. tauto.
  - eexists. split; [reflexivity|]. cbn [fst snd]. tauto.
Qed.

(** X27: [getAuthToken] and [isSignedInWithGoogle] never throw, and what
    they say can be relied on: a token that [getAuthToken] hands out is the
    current session's, is not empty, and belongs to a session that is
    authenticated at that reading of the clock; and where
    [isSignedInWithGoogle] says yes, the provider is "google" and
    [getAuthToken] hands out a token. *)
Theorem getAuthToken_sound (w : World) :
  (exists r, fst (getAuthToken w) = Eff.Ok r)
  /\ (exists r, fst (isSignedInWithGoogle w) = Eff.Ok r)
  /\ (forall tok, fst (getAuthToken w) = Eff.Ok (Some tok) ->
        tok <> ""
        /\ UserSession.accessToken (currentSession w) = Some tok
        /\ UserSession.isAuthenticated (currentSession w) (clock w (tick w)) = true)
  /\ (fst (isSignedInWithGoogle w) = Eff.Ok true ->
      UserSession.provider (currentSession w) = Some "google"
      /\ exists tok, fst (getAuthToken w) = Eff.Ok (Some tok)).
Proof.
  unfold getAuthToken, isSignedInWithGoogle, AuthService.getSession.
  unfold Eff.bind, Eff.gets. rewrite isAuthenticated_now_spec. cbn [fst Eff.ret].
  split; [eauto|]. split; [eauto|].
  destruct (UserSession.isAuthenticated (currentSession w) (clock w (tick w))) eqn:Ha.
  - assert (Hne : exists tok, UserSession.accessToken (currentSession w) = Some tok
                              /\ tok <> "").
    { apply nonempty_spec. unfold UserSession.isAuthenticated in Ha.
      destruct (UserSession.nonempty (UserSession.accessToken (currentSession w)));
        [reflexivity | discriminate]. }
    destruct Hne as (tok & Htok & Hne). rewrite Htok. split.
    + intros tok' [= <-]. auto.
    + cbn [andb]. intros H. split; [|eauto].
      destruct (UserSession.provider (currentSession w)) as [p|]; [|discriminate].
      injection H as H. apply String.eqb_eq in H. now subst p.
  - split; [discriminate|]. cbn [andb]. discriminate.
Qed.

(** X27 at work: a signed-in Google session *)
Lemma getAuthToken_sound_witness :
  let w := set_currentSession
             {| UserSession.userId := Some "u1"; UserSession.provider := Some "google";
                UserSession.accessToken := Some "ya29";
                UserSession.refreshToken := None; UserSession.expiresAt := None |}
             sample_world in
  exists tok, fst (getAuthToken w) = Eff.Ok (Some tok).
Proof.
  intros w.
  exact (proj2 (proj2 (proj2 (proj2 (getAuthToken_sound w))) eq_refl)).
Defined.

End Google.
